(** * YTDownloader: progress reporting, cancellation and file handling

    A shallow embedding of the progress/cancellation protocol and of the
    file-system post-processing of the YouTube downloader variants
    ([YTDownloader2025_SonnetEditsV7_TP.py], [YTDownloader2025v7.1.py],
    [YTDownloader2025.py]), with the properties established about them.

    Python values are modelled as follows.
    - [int] is [Z]; an absent dictionary key or [None] is [option]'s [None].
    - [float] is IEEE 754 binary64 with round-to-nearest-even, written out
      over [Z] (module [PyFloat]) and cross-checked against the Standard
      Library's [SpecFloat].
    - [str] is [string]; exceptions are an inductive type threaded through
      the functions that can raise.
    - the file system is a finite map (stdpp's [gmap]). *)

From Stdlib Require Import ZArith Lia List Bool Ascii String SpecFloat Sorted.
From Stdlib Require Import DecimalString DecimalNat.
From stdpp Require Import gmap strings list fin_maps.
Import ListNotations.

Local Open Scope Z_scope.

(** ** Python floating point: [int / int], [float * int] and [int(float)] *)

Module PyFloat.

(** A binary64 value that is not a NaN: a signed magnitude
    [mant * 2 ^ expo], or an infinity. *)
Inductive pyfloat : Type :=
| Finite (neg : bool) (mant expo : Z)
| Inf (neg : bool).

Definition prec : Z := 53.
Definition emin : Z := -1074.
Definition emax : Z := 1024.

(** [a / b] rounded to the nearest integer, ties to even
    (for [0 <= a] and [0 < b]). *)
Definition rne_div (a b : Z) : Z :=
  let q := a / b in
  let r := a mod b in
  match 2 * r ?= b with
  | Lt => q
  | Gt => q + 1
  | Eq => if Z.even q then q else q + 1
  end.

(** [floor (log2 (n / d))] for [0 < n] and [0 < d]. *)
Definition ilog2_ratio (n d : Z) : Z :=
  let c := Z.log2 n - Z.log2 d in
  if n * 2 ^ Z.max 0 (- c) <? d * 2 ^ Z.max 0 c then c - 1 else c.

(** The exponent of the binary64 format at magnitude [n / d]: the unit in
    the last place is [2 ^ ulp_exp n d]; subnormal numbers share [emin]. *)
Definition ulp_exp (n d : Z) : Z :=
  Z.max (ilog2_ratio n d - (prec - 1)) emin.

(** The binary64 number nearest to [n / d] (ties to even), as mantissa and
    exponent, for [0 < n] and [0 < d]. *)
Definition round_ratio (n d : Z) : Z * Z :=
  let e := ulp_exp n d in
  (rne_div (n * 2 ^ Z.max 0 (- e)) (d * 2 ^ Z.max 0 e), e).

(** Whether [m * 2 ^ e] exceeds the largest finite binary64 number. *)
Definition overflows (m e : Z) : bool :=
  (0 <=? e) && (2 ^ emax <=? m * 2 ^ e).

(** [a / b] on Python integers: the correctly rounded quotient.
    [None] stands for the exception Python raises
    ([ZeroDivisionError], or [OverflowError] when the quotient is too
    large for a float). *)
Definition py_truediv (a b : Z) : option pyfloat :=
  if b =? 0 then None
  else if a =? 0 then Some (Finite false 0 0)
  else
    let '(m, e) := round_ratio (Z.abs a) (Z.abs b) in
    if overflows m e then None
    else Some (Finite (negb (Z.sgn a =? Z.sgn b)) m e).

(** [x * k] for a float [x] and an integer [k] that converts to a float
    exactly ([Z.abs k < 2 ^ 53]): the IEEE product, which overflows to an
    infinity instead of raising. *)
Definition py_mul (x : pyfloat) (k : Z) : pyfloat :=
  match x with
  | Inf s => Inf (xorb s (k <? 0))
  | Finite s m e =>
      if (m =? 0) || (k =? 0) then Finite (xorb s (k <? 0)) 0 0
      else
        let '(m', e') :=
          round_ratio (m * Z.abs k * 2 ^ Z.max 0 e) (2 ^ Z.max 0 (- e)) in
        if overflows m' e' then Inf (xorb s (k <? 0))
        else Finite (xorb s (k <? 0)) m' e'
  end.

(** [int(x)]: truncation toward zero; [None] stands for the
    [OverflowError] raised on an infinity. *)
Definition py_int (x : pyfloat) : option Z :=
  match x with
  | Inf _ => None
  | Finite s m e =>
      let mag := if 0 <=? e then m * 2 ^ e else m / 2 ^ (- e) in
      Some (if s then - mag else mag)
  end.

(** [int((downloaded_bytes / total_bytes) * 100)], the expression shared by
    every variant's progress hook. *)
Definition percent_of (downloaded_bytes total_bytes : Z) : option Z :=
  match py_truediv downloaded_bytes total_bytes with
  | None => None
  | Some q => py_int (py_mul q 100)
  end.

(** The value [m * 2 ^ e] counted in units of [2 ^ emin]: every finite
    binary64 number is a whole number of such units. *)
Definition scaled (m e : Z) : Z := m * 2 ^ (e - emin).

(** The rounded product of the float [m * 2 ^ e] and 100, as in [py_mul],
    and its value in units of [2 ^ emin]. *)
Definition times100 (m e : Z) : Z * Z :=
  round_ratio (m * Z.abs 100 * 2 ^ Z.max 0 e) (2 ^ Z.max 0 (- e)).

Definition times100_grid (m e : Z) : Z :=
  if m =? 0 then 0
  else scaled (fst (times100 m e)) (snd (times100 m e)).

(** The same expression evaluated with the Standard Library's
    specification of binary64 arithmetic, for integers that convert to
    floats exactly. *)
Definition sf_of_int (n : Z) : spec_float :=
  binary_normalize prec emax n 0 false.

Definition sf_int (x : spec_float) : option Z :=
  match x with
  | S754_zero _ => Some 0
  | S754_finite s m e =>
      let mag := if 0 <=? e then Zpos m * 2 ^ e else Zpos m / 2 ^ (- e) in
      Some (if s then - mag else mag)
  | _ => None
  end.

Definition sf_percent_of (downloaded_bytes total_bytes : Z) : option Z :=
  sf_int (SFmul prec emax
            (SFdiv prec emax (sf_of_int downloaded_bytes)
                             (sf_of_int total_bytes))
            (sf_of_int 100)).

End PyFloat.

(** ** Python strings *)

Module PyStr.

Local Open Scope string_scope.

(** [str.isspace] on the ASCII range: tab, line feed, vertical tab, form
    feed, carriage return, the four separators 28..31 and the space. *)
Definition isspace (c : ascii) : bool :=
  let n := nat_of_ascii c in
  ((9 <=? n) && (n <=? 13) || (28 <=? n) && (n <=? 32))%nat.

Fixpoint lstrip (s : string) : string :=
  match s with
  | String c s' => if isspace c then lstrip s' else s
  | EmptyString => EmptyString
  end.

Fixpoint rstrip (s : string) : string :=
  match s with
  | String c s' =>
      match rstrip s' with
      | EmptyString => if isspace c then EmptyString else String c EmptyString
      | r => String c r
      end
  | EmptyString => EmptyString
  end.

(** [s.strip()] *)
Definition strip (s : string) : string := rstrip (lstrip s).

(** [s.endswith(suffix)] *)
Definition endswith (s suffix : string) : bool :=
  let n := String.length s in
  let m := String.length suffix in
  (m <=? n)%nat && String.eqb (substring (n - m) m s) suffix.

(** [s[:-k]] for [0 < k]: [s] without its last [k] characters. *)
Definition drop_last (k : nat) (s : string) : string :=
  substring 0 (String.length s - k) s.

(** [s] without the prefix [p], when [s] starts with [p]. *)
Fixpoint strip_prefix (p s : string) : option string :=
  match p, s with
  | EmptyString, _ => Some s
  | String a p', String b s' =>
      if Ascii.eqb a b then strip_prefix p' s' else None
  | String _ _, EmptyString => None
  end.

(** Whether [.+$] matches all of [s]: at least one character other than a
    line feed, no line feed inside, and at most one line feed at the very
    end (where [$] also matches). *)
Fixpoint dot_plus_eol (s : string) : bool :=
  match s with
  | EmptyString => false
  | String c s' =>
      negb (Ascii.eqb c "010") &&
      match s' with
      | EmptyString => true
      | String "010" EmptyString => true
      | _ => dot_plus_eol s'
      end
  end.

(** [str(n)] for a natural number. *)
Definition str_of_nat (n : nat) : string :=
  NilEmpty.string_of_uint (Nat.to_uint n).

(** [b.startswith('/')] *)
Definition is_absolute (b : string) : bool :=
  match b with
  | String c _ => Ascii.eqb c "/"
  | EmptyString => false
  end.

(** [os.path.join(a, b)] on a POSIX system. *)
Definition path_join (a b : string) : string :=
  if is_absolute b then b
  else if String.eqb a "" || endswith a "/" then a ++ b
  else a ++ "/" ++ b.

End PyStr.

(** ** [YTDownloader2025_SonnetEditsV7_TP.py] *)

Module TP.

Import PyStr.
Local Open Scope string_scope.

(** *** Module-level helpers *)

(** What the helpers read from the operating system: [os.path.isdir],
    [os.access(_, os.W_OK)] and whether [shutil.which("ffmpeg")] finds a
    binary. *)
Record os_env : Type := {
  isdir : string -> bool;
  access_w : string -> bool;
  ffmpeg_on_path : bool
}.

Definition is_ffmpeg_installed (os : os_env) : bool := ffmpeg_on_path os.

Definition validate_directory (os : os_env) (directory : string) : bool :=
  isdir os directory && access_w os directory.

(** [re.match(r'^(https?\:\/\/)?(www\.youtube\.com|youtu\.?be)\/.+$', url)].
    The first group can only match a string starting with [h] and the
    second one never does, so no backtracking into the first group helps:
    the scheme is stripped when present. *)
Definition is_valid_youtube_url (url : string) : bool :=
  let rest :=
    match strip_prefix "https://" url with
    | Some r => r
    | None =>
        match strip_prefix "http://" url with
        | Some r => r
        | None => url
        end
    end in
  let tail :=
    match strip_prefix "www.youtube.com/" rest with
    | Some r => Some r
    | None =>
        match strip_prefix "youtube/" rest with
        | Some r => Some r
        | None => strip_prefix "youtu.be/" rest
        end
    end in
  match tail with
  | Some t => dot_plus_eol t
  | None => false
  end.

(** *** Exceptions *)

(** The exception classes [download_video] tells apart. All of them derive
    from [Exception]; [KeyboardInterrupt] and [SystemExit], which do not,
    are not raised on a worker thread. *)
Inductive exn : Type :=
| DownloadCancelledError
| DownloadError (msg : string)
| OSError (msg : string)
| OtherException (msg : string).

(** *** Progress records *)

(** The dictionary yt-dlp passes to a progress hook, restricted to the
    keys the hooks read for the percentage and the status. A key that is
    absent or bound to [None] is [None]. *)
Record hook_dict : Type := {
  d_status : string;
  d_total_bytes : option Z;
  d_total_bytes_estimate : option Z;
  d_downloaded_bytes : option Z;
  d_error : option string
}.

(** The dictionary handed to the progress callback. The keys ['speed'],
    ['eta'] and ['filename'] only feed labels and are left out. *)
Record progress_info : Type := {
  percent : Z;
  status : string;
  error : option string
}.

(** Truth value of an optional integer: [None] and [0] are false. *)
Definition truthy (x : option Z) : bool :=
  match x with
  | Some v => negb (Z.eqb v 0)
  | None => false
  end.

(** [x or y] on optional integers. *)
Definition py_or (x y : option Z) : option Z :=
  if truthy x then x else y.

(** *** class YoutubeDownloader *)

Record YoutubeDownloader : Type := {
  progress_callback : bool;   (* whether a callback was given *)
  downloading : bool;
  cancel_requested : bool;
  ydl_instance : bool;        (* whether it is not None *)
  current_info : option string;   (* the cached info's title *)
  interrupts : nat            (* calls made to ydl_instance.interrupt_download *)
}.

Definition set_flags (self : YoutubeDownloader)
    (dl cr yi : bool) : YoutubeDownloader :=
  {| progress_callback := progress_callback self;
     downloading := dl;
     cancel_requested := cr;
     ydl_instance := yi;
     current_info := current_info self;
     interrupts := interrupts self |}.

(** [if self.progress_callback: self.progress_callback(info)]: the
    records delivered to the callback. *)
Definition emit (self : YoutubeDownloader) (info : progress_info)
  : list progress_info :=
  if progress_callback self then [info] else [].

(** The percentage computed for a raw "downloading" record: 0, replaced
    by [int((downloaded_bytes / total_bytes) * 100)] when both counters
    are truthy. [None] stands for the exception raised when the
    conversion to an integer fails. *)
Definition hook_percent (total_bytes downloaded_bytes : option Z)
  : option Z :=
  if truthy total_bytes && truthy downloaded_bytes then
    PyFloat.percent_of (default 0%Z downloaded_bytes)
                       (default 0%Z total_bytes)
  else Some 0%Z.

(** [progress_hook(self, d)]: the records delivered to the callback and
    the exception raised, if any. The hook leaves [self] unchanged. *)
Definition progress_hook (self : YoutubeDownloader) (d : hook_dict)
  : list progress_info * option exn :=
  if negb (downloading self) || cancel_requested self then
    if cancel_requested self && String.eqb (d_status d) "downloading"
    then ([], Some DownloadCancelledError)
    else ([], None)
  else if String.eqb (d_status d) "downloading" then
    let total_bytes := py_or (d_total_bytes d) (d_total_bytes_estimate d) in
    let downloaded_bytes := d_downloaded_bytes d in
    match hook_percent total_bytes downloaded_bytes with
    | Some p =>
        (emit self {| percent := p; status := "downloading";
                      error := None |}, None)
    | None => ([], Some (OtherException "OverflowError"))
    end
  else if String.eqb (d_status d) "finished" then
    (emit self {| percent := 95; status := "converting"; error := None |},
     None)
  else if String.eqb (d_status d) "error" then
    (emit self {| percent := 0; status := "error";
                  error := Some (default "Unknown error" (d_error d)) |},
     None)
  else ([], None).

(** [cancel_download(self)]: the returned boolean and the new state. The
    call to [interrupt_download] is wrapped in a bare [except]; whatever it
    achieves shows in what the library does next, which is part of the
    script of the run. The calls are counted. *)
Definition cancel_download (self : YoutubeDownloader)
  : bool * YoutubeDownloader :=
  if downloading self then
    (true,
     {| progress_callback := progress_callback self;
        downloading := downloading self;
        cancel_requested := true;
        ydl_instance := ydl_instance self;
        current_info := current_info self;
        interrupts :=
          if ydl_instance self then S (interrupts self)
          else interrupts self |})
  else (false, self).

(** *** The file system seen by [_cleanup_temp_files] *)

(** An entry of a directory: a regular file with its content, or a
    subdirectory. *)
Inductive entry : Type :=
| RegularFile (content : string)
| Directory.

(** A file system maps the path of a directory to its entries by name. *)
Definition filesystem : Type := gmap string (gmap string entry).

Definition temp_extensions : list string :=
  [".part"; ".temp"; ".f140.mp4"; ".f137.mp4";
   ".f401.mp4"; ".m4a"; ".webm"; ".ytdl"].

(** [any(file.endswith(ext) for ext in temp_extensions)] *)
Definition is_temp (file : string) : bool :=
  existsb (endswith file) temp_extensions.

(** [os.remove(os.path.join(directory, file))] inside its
    [try ... except (IOError, OSError)]. The call unlinks a regular file
    unless the operating system refuses, which [remove_raises] tells for
    the path (no permission on the directory, a file in use); it raises
    on a subdirectory and on a name that vanished. Whenever it raises
    the handler only logs and the entry stays. *)
Definition try_remove (remove_raises : string -> bool) (directory : string)
    (files : gmap string entry) (file : string) : gmap string entry :=
  match files !! file with
  | Some (RegularFile _) =>
      if remove_raises (path_join directory file) then files
      else delete file files
  | _ => files
  end.

(** The body of the [for file in os.listdir(directory)] loop. *)
Definition cleanup_step (remove_raises : string -> bool) (directory : string)
    (files : gmap string entry) (file : string) : gmap string entry :=
  if is_temp file then try_remove remove_raises directory files file
  else files.

(** [_cleanup_temp_files(directory)]. When [os.listdir] raises (no such
    directory) the outer handler logs and nothing changes. *)
Definition _cleanup_temp_files (remove_raises : string -> bool)
    (directory : string) (fs : filesystem) : filesystem :=
  match fs !! directory with
  | None => fs
  | Some files =>
      <[directory :=
          foldl (cleanup_step remove_raises directory) files
                (map fst (map_to_list files))]> fs
  end.

(** *** [YoutubeDownloader.download_video] *)

(** What happens around the downloader while [ydl.download] runs: the
    library calls the progress hook, and the foreground thread may call
    [cancel_download] in between. *)
Inductive lib_step : Type :=
| Hook (d : hook_dict)
| CancelClick.

(** Everything outside the downloader's control during one call of
    [download_video]. *)
Record run_script : Type := {
  (** the exception raised while the options are assembled or the
      [YoutubeDL] object is created, if any *)
  setup_raises : option exn;
  (** [cancel_download] is called before the check that precedes
      [ydl.download] *)
  cancel_before_download : bool;
  (** what [ydl.extract_info] does when it is consulted: the title
      found, or the exception raised *)
  extract_info_result : string + exn;
  (** hook calls and cancel requests during [ydl.download], in order *)
  download_steps : list lib_step;
  (** the exception [ydl.download] raises by itself at the end, if any *)
  download_result : option exn;
  (** what the library call does to the files *)
  library_writes : filesystem -> filesystem;
  (** the paths of the regular files on which [os.remove] raises
      [OSError] during the cleanup *)
  remove_raises : string -> bool
}.

(** [ydl.download([url])] with the hook installed. An exception raised by
    the hook ends the library call and propagates to the caller. Returns
    the records delivered, the exception leaving the call, the downloader
    and the values returned by the [cancel_download] calls. *)
Fixpoint ydl_download (self : YoutubeDownloader) (steps : list lib_step)
    (result : option exn)
  : list progress_info * option exn * YoutubeDownloader * list bool :=
  match steps with
  | [] => ([], result, self, [])
  | Hook d :: rest =>
      match progress_hook self d with
      | (evs, Some e) => (evs, Some e, self, [])
      | (evs, None) =>
          let '(evs', r, self', cs) := ydl_download self rest result in
          ((evs ++ evs')%list, r, self', cs)
      end
  | CancelClick :: rest =>
      let '(c, self1) := cancel_download self in
      let '(evs', r, self', cs) := ydl_download self1 rest result in
      (evs', r, self', c :: cs)
  end.

(** The [except] clauses of [download_video]: the record delivered and the
    files afterwards. Only the cancellation handler cleans up. *)
Definition handle_exception (remove_raises : string -> bool)
    (self : YoutubeDownloader) (download_dir : string) (e : exn)
    (fs : filesystem) : list progress_info * filesystem :=
  match e with
  | DownloadCancelledError =>
      (emit self {| percent := 0; status := "cancelled"; error := None |},
       _cleanup_temp_files remove_raises download_dir fs)
  | DownloadError msg =>
      (emit self {| percent := 0; status := "error"; error := Some msg |},
       fs)
  | OSError msg =>
      (emit self {| percent := 0; status := "error";
                    error := Some ("File error: " ++ msg) |}, fs)
  | OtherException msg =>
      (emit self {| percent := 0; status := "error"; error := Some msg |},
       fs)
  end.

(** The outcome of one call of [download_video]. *)
Record run_outcome : Type := {
  events : list progress_info;     (* records delivered to the callback *)
  video_title : string;
  success : bool;
  final_self : YoutubeDownloader;
  final_fs : filesystem;
  cancel_results : list bool       (* results of the cancel_download calls *)
}.

(** A cancel request that arrives before the check preceding
    [ydl.download]: the values returned and the downloader afterwards. *)
Definition early_cancel (sc : run_script) (self : YoutubeDownloader)
  : list bool * YoutubeDownloader :=
  if cancel_before_download sc
  then let '(c, s) := cancel_download self in ([c], s)
  else ([], self).

(** The [finally] clause. *)
Definition reset_flags (self : YoutubeDownloader) : YoutubeDownloader :=
  set_flags self false false false.

(** A run that ends in one of the [except] clauses, after the records
    [earlier] were delivered. *)
Definition failed_run (remove_raises : string -> bool)
    (self : YoutubeDownloader) (download_dir : string)
    (e : exn) (fs : filesystem) (earlier : list progress_info)
    (title : string) (cs : list bool) : run_outcome :=
  {| events :=
       (earlier
        ++ fst (handle_exception remove_raises self download_dir e fs))%list;
     video_title := title;
     success := false;
     final_self := reset_flags self;
     final_fs := snd (handle_exception remove_raises self download_dir e fs);
     cancel_results := cs |}.

(** [download_video(self, url, download_dir, selected_format,
    filename_template)]. The URL, the format and the template only select
    the options handed to the library, whose behaviour is the script [sc];
    [fs] is the file system at the time of the call. *)
Definition download_video (self : YoutubeDownloader) (download_dir : string)
    (sc : run_script) (fs : filesystem) : run_outcome :=
  let self0 := set_flags self true false (ydl_instance self) in
  (* with yt_dlp.YoutubeDL(ydl_opts) as ydl: self.ydl_instance = ydl *)
  let self1 := set_flags self0 true false true in
  let '(cs0, self2) := early_cancel sc self1 in
  let info :=
    match setup_raises sc with
    | Some e => inr e
    | None =>
        match current_info self2 with
        | Some title => inl title
        | None => extract_info_result sc
        end
    end in
  match info with
  | inr e =>
      failed_run (remove_raises sc) self2 download_dir e fs [] "Unknown" cs0
  | inl title =>
      if cancel_requested self2 then
        failed_run (remove_raises sc) self2 download_dir
                   DownloadCancelledError fs [] title cs0
      else
        let '(evs, raised, self3, cs) :=
          ydl_download self2 (download_steps sc) (download_result sc) in
        let fs1 := library_writes sc fs in
        match raised with
        | Some e =>
            failed_run (remove_raises sc) self3 download_dir e fs1 evs title
                       (cs0 ++ cs)%list
        | None =>
            {| events :=
                 (evs ++ emit self3 {| percent := 100; status := "complete";
                                       error := None |})%list;
               video_title := title; success := true;
               final_self := reset_flags self3;
               final_fs :=
                 _cleanup_temp_files (remove_raises sc) download_dir fs1;
               cancel_results := (cs0 ++ cs)%list |}
        end
  end.

(** The statuses on which [update_progress] re-enables the controls: the
    terminal records. *)
Definition is_terminal (info : progress_info) : bool :=
  String.eqb (status info) "complete"
  || String.eqb (status info) "cancelled"
  || String.eqb (status info) "error".

(** A record forwarded by the hook is non-terminal unless the raw record
    had the status "error". *)
Definition from_hook (info : progress_info) : Prop :=
  status info = "downloading" \/ status info = "converting"
  \/ status info = "error".

(** Whether a step is a raw record with the status "error". *)
Definition error_step (s : lib_step) : bool :=
  match s with
  | Hook d => String.eqb (d_status d) "error"
  | CancelClick => false
  end.

(** What is left of an entry once the loop has gone through the names
    [names]. *)
Definition after_cleanup (remove_raises : string -> bool)
    (directory : string) (names : list string) (name : string)
    (e : option entry) : option entry :=
  match e with
  | Some (RegularFile c) =>
      if is_temp name && bool_decide (name ∈ names)
         && negb (remove_raises (path_join directory name))
      then None
      else Some (RegularFile c)
  | other => other
  end.

(** *** class DownloadManagerApp *)

(** The arguments a download thread is started with. *)
Record worker : Type := {
  w_url : string;
  w_download_dir : string;
  w_selected_format : string;
  w_custom_filename : option string
}.

(** The part of the window the start and cancel handlers read or write.
    A button is [true] when its state is [tk.NORMAL]. *)
Record DownloadManagerApp : Type := {
  url_entry : string;
  dir_entry : string;
  filename_entry : string;
  selected_format : string;      (* the value of get_selected_format() *)
  video_info : option string;    (* the fetched info's title *)
  custom_filename : option string;
  download_in_progress : bool;
  download_button : bool;
  fetch_button : bool;
  cancel_button : bool;
  active_downloads : list worker;      (* download threads started *)
  fetch_threads : nat;                 (* info threads started *)
  dialogs : list (string * string)     (* message boxes shown *)
}.


(** The methods of the window. *)
Module App.

(** [messagebox.showerror(title, text)] and [showinfo]. *)
Definition show (title text : string) (app : DownloadManagerApp)
  : DownloadManagerApp :=
  {| url_entry := url_entry app; dir_entry := dir_entry app;
     filename_entry := filename_entry app;
     selected_format := selected_format app;
     video_info := video_info app;
     custom_filename := custom_filename app;
     download_in_progress := download_in_progress app;
     download_button := download_button app;
     fetch_button := fetch_button app;
     cancel_button := cancel_button app;
     active_downloads := active_downloads app;
     fetch_threads := fetch_threads app;
     dialogs := (dialogs app ++ [(title, text)])%list |}.

(** [fetch_video_info(self)], up to the start of its thread. *)
Definition fetch_video_info (app : DownloadManagerApp)
  : DownloadManagerApp :=
  let url := strip (url_entry app) in
  if String.eqb url "" then
    show "Error" "Please enter a YouTube URL." app
  else if negb (is_valid_youtube_url url) then
    show "Invalid URL" "Please enter a valid YouTube URL." app
  else
    {| url_entry := url_entry app; dir_entry := dir_entry app;
       filename_entry := filename_entry app;
       selected_format := selected_format app;
       video_info := video_info app;
       custom_filename := custom_filename app;
       download_in_progress := download_in_progress app;
       download_button := false;
       fetch_button := false;
       cancel_button := cancel_button app;
       active_downloads := active_downloads app;
       fetch_threads := S (fetch_threads app);
       dialogs := dialogs app |}.

(** [download_video(self)], up to the start of the download thread. *)
Definition download_video (os : os_env) (app : DownloadManagerApp)
  : DownloadManagerApp :=
  let url := strip (url_entry app) in
  if String.eqb url "" then
    show "Error" "Please enter a YouTube URL." app
  else if negb (is_valid_youtube_url url) then
    show "Invalid URL" "Please enter a valid YouTube URL." app
  else
    let download_dir := strip (dir_entry app) in
    if negb (validate_directory os download_dir) then
      show "Invalid Directory"
           "The download directory does not exist or is not writable." app
    else if negb (is_ffmpeg_installed os) then
      show "FFmpeg Missing"
           "FFmpeg is required but not found on your system. Please install FFmpeg and try again."
           app
    else
      match video_info app with
      | None =>
          show "Info"
               "Please wait for video information to load, then try downloading again."
               (fetch_video_info app)
      | Some title =>
          let name := strip (filename_entry app) in
          let custom :=
            if negb (String.eqb name "") && negb (String.eqb name title)
            then Some name else None in
          {| url_entry := url_entry app; dir_entry := dir_entry app;
             filename_entry := filename_entry app;
             selected_format := selected_format app;
             video_info := video_info app;
             custom_filename := custom;
             download_in_progress := true;
             download_button := false;
             fetch_button := false;
             cancel_button := true;
             active_downloads :=
               (active_downloads app ++
                [{| w_url := url; w_download_dir := download_dir;
                    w_selected_format := selected_format app;
                    w_custom_filename := custom |}])%list;
             fetch_threads := fetch_threads app;
             dialogs := dialogs app |}
      end.






(** [update_progress(self, progress_info)], the progress callback: on a
    terminal record it clears [download_in_progress] and resets the
    buttons. The progress bar and the labels it also sets are left out. *)
Definition update_progress (app : DownloadManagerApp) (info : progress_info)
  : DownloadManagerApp :=
  if is_terminal info then
    {| url_entry := url_entry app; dir_entry := dir_entry app;
       filename_entry := filename_entry app;
       selected_format := selected_format app;
       video_info := video_info app;
       custom_filename := custom_filename app;
       download_in_progress := false;
       download_button := true;
       fetch_button := true;
       cancel_button := false;
       active_downloads := active_downloads app;
       fetch_threads := fetch_threads app;
       dialogs := dialogs app |}
  else app.

End App.

End TP.

(** ** [YTDownloader2025v7.1.py] *)

Module V71.

Import PyStr.
Local Open Scope string_scope.

(** [YoutubeDownloader.progress_hook(self, d)] of this variant: as in
    [TP], with a placeholder of 50 when bytes were received and the total
    is unknown. *)
Definition progress_hook (self : TP.YoutubeDownloader) (d : TP.hook_dict)
  : list TP.progress_info * option TP.exn :=
  if negb (TP.downloading self) || TP.cancel_requested self then
    if TP.cancel_requested self && String.eqb (TP.d_status d) "downloading"
    then ([], Some TP.DownloadCancelledError)
    else ([], None)
  else if String.eqb (TP.d_status d) "downloading" then
    let total_bytes :=
      TP.py_or (TP.d_total_bytes d) (TP.d_total_bytes_estimate d) in
    let downloaded_bytes := TP.d_downloaded_bytes d in
    if TP.truthy total_bytes && TP.truthy downloaded_bytes then
      match PyFloat.percent_of (default 0%Z downloaded_bytes)
                               (default 0%Z total_bytes) with
      | Some p =>
          (TP.emit self {| TP.percent := p; TP.status := "downloading";
                           TP.error := None |}, None)
      | None => ([], Some (TP.OtherException "OverflowError"))
      end
    else if TP.truthy (TP.d_downloaded_bytes d) then
      (TP.emit self {| TP.percent := 50; TP.status := "downloading";
                       TP.error := None |}, None)
    else
      (TP.emit self {| TP.percent := 0; TP.status := "downloading";
                       TP.error := None |}, None)
  else if String.eqb (TP.d_status d) "finished" then
    (TP.emit self {| TP.percent := 95; TP.status := "converting";
                     TP.error := None |}, None)
  else if String.eqb (TP.d_status d) "error" then
    (TP.emit self
       {| TP.percent := 0; TP.status := "error";
          TP.error := Some (default "Unknown error" (TP.d_error d)) |},
     None)
  else ([], None).

(** *** Moving the finished file into the download directory *)

(** [os.path.exists(path)], on a file system that maps each existing path
    to a regular file or a directory. *)
Definition path_exists (fs : gmap string TP.entry) (path : string) : bool :=
  bool_decide (is_Some (fs !! path)).

(** The file name tried for a given value of [counter]. *)
Definition numbered_filename (base_filename final_ext : string)
    (counter : nat) : string :=
  if String.eqb final_ext "mp3"
  then base_filename ++ " (" ++ str_of_nat counter ++ ") (Audio)."
                     ++ final_ext
  else base_filename ++ " (" ++ str_of_nat counter ++ ") (Video)."
                     ++ final_ext.

(** The loop [while os.path.exists(final_path): ...], started with the
    current [final_path] and [counter]; [fuel] bounds the number of
    iterations. *)
Fixpoint free_path (fs : gmap string TP.entry)
    (download_dir base_filename final_ext : string)
    (fuel : nat) (final_path : string) (counter : nat) : option string :=
  match fuel with
  | O => None
  | S fuel' =>
      if path_exists fs final_path then
        free_path fs download_dir base_filename final_ext fuel'
          (path_join download_dir
             (numbered_filename base_filename final_ext counter))
          (S counter)
      else Some final_path
  end.

(** The destination chosen for [final_filename]. *)
Definition choose_final_path (fs : gmap string TP.entry)
    (download_dir final_filename final_ext : string) (fuel : nat)
  : option string :=
  let final_path := path_join download_dir final_filename in
  let counter := 1%nat in
  let base_filename :=
    drop_last (String.length final_ext + 1) final_filename in
  free_path fs download_dir base_filename final_ext fuel final_path counter.

(** [shutil.move(source_path, final_path)] onto a path that does not
    exist: the entry is renamed. [None] stands for the exception raised
    when the source is missing. *)
Definition shutil_move (fs : gmap string TP.entry)
    (source_path final_path : string) : option (gmap string TP.entry) :=
  match fs !! source_path with
  | Some e => Some (<[final_path := e]> (delete source_path fs))
  | None => None
  end.

(** The candidate path for each value of the counter. *)
Definition candidate (download_dir base_filename final_ext : string)
    (counter : nat) : string :=
  path_join download_dir (numbered_filename base_filename final_ext counter).

End V71.

(** ** [YTDownloader2025.py] *)

Module V2025.

Local Open Scope string_scope.

(** [progress_hook(d)] inside [download_video_with_progress]: the values
    passed to [progress_callback] and the exception raised, if any. *)
Definition progress_hook (d : TP.hook_dict) : list Z * option TP.exn :=
  if String.eqb (TP.d_status d) "downloading" then
    let total_bytes :=
      TP.py_or (TP.d_total_bytes d) (TP.d_total_bytes_estimate d) in
    let downloaded_bytes := TP.d_downloaded_bytes d in
    match TP.hook_percent total_bytes downloaded_bytes with
    | Some progress => ([progress], None)
    | None => ([], Some (TP.OtherException "OverflowError"))
    end
  else ([], None).

End V2025.

(** * The helpers, the list of formats and the other windows *)

(** ** Exceptions raised inside the helpers *)

Module Py.

(** The built-in exceptions the modelled code can raise. *)
Inductive exception : Type :=
| OverflowError
| ZeroDivisionError
| ValueError (msg : string)
| TypeError
| AttributeError
| KeyError (key : string)
| UnboundLocalError (name : string)
| TclError
| OSError (msg : string)
| DownloadError (msg : string).

(** The outcome of an expression that can raise. *)
Inductive result (A : Type) : Type :=
| Return (a : A)
| Raise (e : exception).

Arguments Return {A} a.
Arguments Raise {A} e.

Definition bind {A B : Type} (r : result A) (k : A -> result B) : result B :=
  match r with
  | Return a => k a
  | Raise e => Raise e
  end.

Notation "'let*' x ':=' r 'in' k" := (bind r (fun x => k))
  (at level 10, x pattern, r at level 100, k at level 200).

(** What a dictionary holds under a key: nothing, [None], or a value. *)
Inductive lookup (A : Type) : Type :=
| Absent
| Null
| Val (a : A).

Arguments Absent {A}.
Arguments Null {A}.
Arguments Val {A} a.

(** [d.get(key)] *)
Definition get {A : Type} (l : lookup A) : option A :=
  match l with
  | Val a => Some a
  | _ => None
  end.

(** [d.get(key, default)] *)
Definition get_or {A : Type} (l : lookup A) (default : A) : option A :=
  match l with
  | Absent => Some default
  | Null => None
  | Val a => Some a
  end.

(** [d[key]] *)
Definition item {A : Type} (key : string) (l : lookup A)
  : result (option A) :=
  match l with
  | Absent => Raise (KeyError key)
  | Null => Return None
  | Val a => Return (Some a)
  end.

(** [key in d] *)
Definition has_key {A : Type} (l : lookup A) : bool :=
  match l with
  | Absent => false
  | _ => true
  end.

End Py.

(** ** Python text on the ASCII range *)

Module PyText.

Import PyStr.
Local Open Scope string_scope.

(** Whether every character of [s] is an ASCII character. On such text
    [unicodedata.normalize('NFKD', s)] is [s], and the classes [\w],
    [str.isalnum] and [str.isdigit] are the ones defined below. *)
Fixpoint is_ascii (s : string) : bool :=
  match s with
  | EmptyString => true
  | String c s' => (nat_of_ascii c <? 128)%nat && is_ascii s'
  end.

Definition isdigit (c : ascii) : bool :=
  let n := nat_of_ascii c in (48 <=? n)%nat && (n <=? 57)%nat.

Definition isalpha (c : ascii) : bool :=
  let n := nat_of_ascii c in
  ((65 <=? n) && (n <=? 90) || (97 <=? n) && (n <=? 122))%nat.

(** [c.isalnum()] *)
Definition isalnum (c : ascii) : bool := isalpha c || isdigit c.

(** The class [\w]. *)
Definition is_word (c : ascii) : bool := isalnum c || Ascii.eqb c "_".

Fixpoint all_chars (f : ascii -> bool) (s : string) : bool :=
  match s with
  | EmptyString => true
  | String c s' => f c && all_chars f s'
  end.

(** [s.isdigit()] *)
Definition str_isdigit (s : string) : bool :=
  negb (String.eqb s "") && all_chars isdigit s.

(** ["".join(c for c in s if f(c))], and [re.sub] of the complement of a
    character class by the empty string. *)
Fixpoint filter_chars (f : ascii -> bool) (s : string) : string :=
  match s with
  | EmptyString => EmptyString
  | String c s' =>
      if f c then String c (filter_chars f s') else filter_chars f s'
  end.

(** [s.replace(a, b)] for single characters [a] and [b]. *)
Fixpoint replace_char (a b : ascii) (s : string) : string :=
  match s with
  | EmptyString => EmptyString
  | String c s' =>
      String (if Ascii.eqb c a then b else c) (replace_char a b s')
  end.

(** [s.rstrip(a)] for a single character [a]. *)
Fixpoint rstrip_char (a : ascii) (s : string) : string :=
  match s with
  | EmptyString => EmptyString
  | String c s' =>
      match rstrip_char a s' with
      | EmptyString => if Ascii.eqb c a then EmptyString
                       else String c EmptyString
      | r => String c r
      end
  end.

(** [str(n)] for an integer. *)
Definition str_of_Z (n : Z) : string :=
  if (n <? 0)%Z then "-" ++ str_of_nat (Z.to_nat (- n))
  else str_of_nat (Z.to_nat n).

(** [f"{n:02d}"]: at least two characters, padded with a zero. *)
Definition pad2 (n : Z) : string :=
  if ((0 <=? n) && (n <? 10))%Z then "0" ++ str_of_Z n else str_of_Z n.

Definition digit_value (c : ascii) : Z := Z.of_nat (nat_of_ascii c) - 48.

(** The digits of an integer literal: decimal digits, with single
    underscores allowed between two digits. [after_digit] tells whether
    the previous character was a digit. *)
Fixpoint parse_digits (acc : Z) (after_digit : bool) (s : string)
  : option Z :=
  match s with
  | EmptyString => if after_digit then Some acc else None
  | String c s' =>
      if isdigit c then parse_digits (10 * acc + digit_value c) true s'
      else if Ascii.eqb c "_" && after_digit then parse_digits acc false s'
      else None
  end.

(** The white space [int] skips around a literal in ASCII text: tab, line
    feed, vertical tab, form feed, carriage return and the space, the
    characters of C's [isspace]. Unlike [str.strip], [int] does not skip
    the separators 28..31. *)
Definition is_c_space (c : ascii) : bool :=
  let n := nat_of_ascii c in
  ((9 <=? n) && (n <=? 13) || (n =? 32))%nat.

Fixpoint lstrip_c (s : string) : string :=
  match s with
  | String c s' => if is_c_space c then lstrip_c s' else s
  | EmptyString => EmptyString
  end.

Fixpoint rstrip_c (s : string) : string :=
  match s with
  | String c s' =>
      match rstrip_c s' with
      | EmptyString =>
          if is_c_space c then EmptyString else String c EmptyString
      | r => String c r
      end
  | EmptyString => EmptyString
  end.

(** The number of digits of a literal. *)
Fixpoint count_digits (s : string) : nat :=
  match s with
  | EmptyString => 0%nat
  | String c s' => ((if isdigit c then 1 else 0) + count_digits s')%nat
  end.

(** [sys.int_max_str_digits] as CPython sets it by default: a decimal
    literal with more digits is not converted. *)
Definition int_max_str_digits : nat := 4300.

(** The value of a literal: an optional sign and the digits. *)
Definition int_of_literal (s : string) : option Z :=
  match s with
  | String "-" digits => option_map Z.opp (parse_digits 0 false digits)
  | String "+" digits => parse_digits 0 false digits
  | digits => parse_digits 0 false digits
  end.

(** [int(s)] for ASCII text: the literal between the surrounding white
    space. [None] stands for the [ValueError] raised for a malformed
    literal and for one with more than [int_max_str_digits] digits. *)
Definition int_of_string (s : string) : option Z :=
  let literal := rstrip_c (lstrip_c s) in
  if (int_max_str_digits <? count_digits literal)%nat then None
  else int_of_literal literal.

(** [s[:n]] *)
Definition take (n : nat) (s : string) : string := substring 0 n s.

(** [str(x)] for a value that may be [None]. *)
Definition str_of_option (x : option string) : string :=
  match x with
  | Some s => s
  | None => "None"
  end.

End PyText.

(** ** Python numbers: [int] and [float] *)

Module PyNum.

Import Py PyFloat.

(** A float: a number of [PyFloat], or a NaN. *)
Inductive float : Type :=
| F (x : pyfloat)
| NaN.

(** A number as the library reports it: an [int] or a [float]. *)
Inductive num : Type :=
| Int (n : Z)
| Flt (x : float).

(** The binary64 number nearest to [n / d] for [0 < n] and [0 < d], with
    the sign [s]; an infinity when it is out of range. *)
Definition rounded (s : bool) (n d : Z) : pyfloat :=
  let '(m, e) := round_ratio n d in
  if overflows m e then Inf s else Finite s m e.

(** [float(n)] for an integer; too large an integer raises. *)
Definition float_of_int (n : Z) : result float :=
  if n =? 0 then Return (F (Finite false 0 0))
  else
    match rounded (n <? 0) (Z.abs n) 1 with
    | Inf _ => Raise OverflowError
    | x => Return (F x)
    end.

(** [float(x)] *)
Definition to_float (x : num) : result float :=
  match x with
  | Int n => float_of_int n
  | Flt f => Return f
  end.

(** The IEEE product of two floats. *)
Definition fmul (a b : float) : float :=
  match a, b with
  | F (Finite s m e), F (Finite t m' e') =>
      if (m =? 0) || (m' =? 0) then F (Finite (xorb s t) 0 0)
      else
        F (rounded (xorb s t) (m * m' * 2 ^ Z.max 0 (e + e'))
                   (2 ^ Z.max 0 (- (e + e'))))
  | F (Finite s m _), F (Inf t) | F (Inf t), F (Finite s m _) =>
      if m =? 0 then NaN else F (Inf (xorb s t))
  | F (Inf s), F (Inf t) => F (Inf (xorb s t))
  | _, _ => NaN
  end.

(** The quotient of two floats; Python raises on a zero divisor. *)
Definition fdiv (a b : float) : result float :=
  match a, b with
  | _, F (Finite _ 0 _) => Raise ZeroDivisionError
  | F (Finite s m e), F (Finite t m' e') =>
      if m =? 0 then Return (F (Finite (xorb s t) 0 0))
      else
        Return (F (rounded (xorb s t) (m * 2 ^ Z.max 0 (e - e'))
                           (m' * 2 ^ Z.max 0 (e' - e))))
  | F (Finite s _ _), F (Inf t) => Return (F (Finite (xorb s t) 0 0))
  | F (Inf s), F (Finite t _ _) => Return (F (Inf (xorb s t)))
  | _, _ => Return NaN
  end.

(** [a * b] on numbers: exact on two integers, the float product
    otherwise. *)
Definition mul (a b : num) : result num :=
  match a, b with
  | Int m, Int n => Return (Int (m * n))
  | _, _ =>
      let* x := to_float a in
      let* y := to_float b in
      Return (Flt (fmul x y))
  end.

(** [a / b] on numbers: the correctly rounded quotient of two integers,
    the float quotient otherwise. *)
Definition truediv (a b : num) : result num :=
  match a, b with
  | Int m, Int n =>
      if n =? 0 then Raise ZeroDivisionError
      else
        match py_truediv m n with
        | Some x => Return (Flt (F x))
        | None => Raise OverflowError
        end
  | _, _ =>
      let* x := to_float a in
      let* y := to_float b in
      let* q := fdiv x y in
      Return (Flt q)
  end.

(** The sign of a float's value: [-1], [0] or [1]; a NaN has none. *)
Definition fsign (a : float) : option Z :=
  match a with
  | F (Finite s m _) => Some (if m =? 0 then 0 else if s then -1 else 1)
  | F (Inf s) => Some (if s then -1 else 1)
  | NaN => None
  end.

(** [bool(x)]: zero is false, a NaN is true. *)
Definition truthy (x : num) : bool :=
  match x with
  | Int n => negb (n =? 0)
  | Flt a => negb (bool_decide (fsign a = Some 0))
  end.

(** [bool(x)] for a value that may be [None]. *)
Definition truthy_opt (x : option num) : bool :=
  match x with
  | Some v => truthy v
  | None => false
  end.

(** [x <= 0]; a comparison with a NaN is false. *)
Definition le_zero (x : num) : bool :=
  match x with
  | Int n => n <=? 0
  | Flt a => match fsign a with
             | Some s => s <=? 0
             | None => false
             end
  end.

(** [a >= k] for a float and an integer constant [k]. *)
Definition fge_int (a : float) (k : Z) : bool :=
  match a with
  | F (Finite s m e) =>
      k * 2 ^ Z.max 0 (- e) <=? (if s then - m else m) * 2 ^ Z.max 0 e
  | F (Inf s) => negb s
  | NaN => false
  end.

(** [int(x)]: truncation toward zero. *)
Definition int_of_num (x : num) : result Z :=
  match x with
  | Int n => Return n
  | Flt (F a) =>
      match py_int a with
      | Some n => Return n
      | None => Raise OverflowError
      end
  | Flt NaN => Raise (ValueError "cannot convert float NaN to integer")
  end.

(** [f"{x:.2f}"]: the decimal number with two decimals nearest to the
    float's exact value, ties to even. *)
Definition format_2f (a : float) : string :=
  match a with
  | F (Finite s m e) =>
      let q := rne_div (m * 100 * 2 ^ Z.max 0 e) (2 ^ Z.max 0 (- e)) in
      ((if s then "-" else "")
       ++ PyText.str_of_Z (q / 100) ++ "." ++ PyText.pad2 (q mod 100))%string
  | F (Inf s) => if s then "-inf"%string else "inf"%string
  | NaN => "nan"%string
  end.

End PyNum.

(** ** The module-level helpers of [YTDownloader2025_SonnetEditsV7_TP.py]
       and [YTDownloader2025v7.1.py] *)

Module Util.

Import Py PyStr PyText PyNum.

(** The characters [sanitize_filename] keeps: [[\w\-_\.]]. *)
Definition is_safe (c : ascii) : bool :=
  is_word c || Ascii.eqb c "-" || Ascii.eqb c "_" || Ascii.eqb c ".".

(** [sanitize_filename(filename)], on ASCII text. *)
Definition sanitize_filename (filename : string) : string :=
  let filename := replace_char " " "_" filename in
  let filename := filter_chars is_safe filename in
  if (200 <? String.length filename)%nat
  then (take 197 filename ++ "...")%string
  else filename.

Definition units : list string :=
  ["B"; "KB"; "MB"; "GB"; "TB"]%string.

(** The loop of [format_filesize]:
    [while size >= 1024.0 and unit_index < len(units) - 1]. Every turn
    increases [unit_index], so [fuel = len(units) - 1] turns suffice. *)
Fixpoint scale_size (fuel : nat) (size : float) (unit_index : nat)
  : result (float * nat) :=
  match fuel with
  | O => Return (size, unit_index)
  | S fuel' =>
      if fge_int size 1024 && (unit_index <? length units - 1)%nat then
        let* size := fdiv size (F (PyFloat.Finite false 1024 0)) in
        scale_size fuel' size (S unit_index)
      else Return (size, unit_index)
  end.

(** [format_filesize(bytes_size)] *)
Definition format_filesize (bytes_size : option num) : result string :=
  match bytes_size with
  | None => Return "Unknown"%string
  | Some b =>
      if negb (truthy b) || le_zero b then Return "Unknown"%string
      else
        let* size := to_float b in
        let* scaled := scale_size (length units - 1) size 0 in
        Return (format_2f (fst scaled) ++ " "
                ++ nth (snd scaled) units "")%string
  end.

(** [format_duration(duration_seconds)] *)
Definition format_duration (duration_seconds : option num) : result string :=
  match duration_seconds with
  | None => Return "Unknown"%string
  | Some d =>
      if negb (truthy d) then Return "Unknown"%string
      else
        let* total := int_of_num d in
        let seconds := total mod 60 in
        let minutes := total / 60 in
        let hours := minutes / 60 in
        let minutes := minutes mod 60 in
        if 0 <? hours
        then Return (str_of_Z hours ++ ":" ++ pad2 minutes ++ ":"
                     ++ pad2 seconds)%string
        else Return (str_of_Z minutes ++ ":" ++ pad2 seconds)%string
  end.

(** A format as yt-dlp describes it, restricted to the keys the
    application reads. Heights and widths are integers. *)
Record ydl_format : Type := {
  format_id : lookup string;
  vcodec : lookup string;
  acodec : lookup string;
  height : lookup Z;
  width : lookup Z;
  ext : lookup string;
  format_note : lookup string;
  filesize : lookup num;
  filesize_approx : lookup num;
  tbr : lookup num;
  abr : lookup num
}.

(** [x or y] on optional numbers. *)
Definition num_or (x y : option num) : option num :=
  if truthy_opt x then x else y.

(** The bit rate assumed for a height when the format gives none. *)
Definition bitrate_for_height (height : Z) : Z :=
  if 2160 <=? height then 45000
  else if 1440 <=? height then 25000
  else if 1080 <=? height then 8000
  else if 720 <=? height then 5000
  else if 480 <=? height then 2500
  else 1500.

(** [estimate_filesize(fmt, duration_sec)] *)
Definition estimate_filesize (fmt : ydl_format) (duration_sec : option num)
  : result (option num) :=
  match duration_sec with
  | None => Return None
  | Some duration =>
      if negb (truthy duration) || le_zero duration then Return None
      else
        let tbr := num_or (num_or (get (tbr fmt)) (get (abr fmt)))
                          (Some (Int 0)) in
        let tbr :=
          if negb (truthy_opt tbr) then
            match get_or (height fmt) 0 with
            | Some h => if h =? 0 then None
                        else Some (Int (bitrate_for_height h))
            | None => None
            end
          else tbr in
        match tbr with
        | None => Return None
        | Some tbr =>
            let* a := mul tbr duration in
            let* b := mul a (Int 1000) in
            let* c := truediv b (Int 8) in
            Return (Some c)
        end
  end.

End Util.

(** ** [YoutubeDownloader]: formats and download options
       ([YTDownloader2025_SonnetEditsV7_TP.py]) *)

Module Downloader.

Import Py PyStr PyText PyNum Util.

(** *** [get_available_formats] *)

(** The information yt-dlp extracts for a video, restricted to the keys
    the application reads. *)
Record ydl_info : Type := {
  i_title : lookup string;
  i_duration : lookup num;
  i_channel : lookup string;
  i_thumbnail : lookup string;
  i_view_count : lookup num;
  i_upload_date : lookup string;
  i_uploader : lookup string;
  i_description : lookup string;
  i_webpage_url : lookup string;
  i_id : lookup string;
  i_formats : lookup (list ydl_format)
}.

(** The dictionary [video_info]; [None] is Python's [None]. *)
Record video_info : Type := {
  v_title : option string;
  v_duration : option num;
  v_channel : option string;
  v_thumbnail : option string;
  v_view_count : option num;
  v_upload_date : option string;
  v_uploader : option string;
  v_description : option string;
  v_webpage_url : option string;
  v_id : option string
}.

(** An entry of the list [formats]. The audio entry has no quality name,
    height, width, video codec or total bit rate; the video entries have
    no audio bit rate. *)
Record format_entry : Type := {
  e_id : option string;
  e_ext : option string;
  e_height : lookup Z;
  e_width : lookup Z;
  e_format_note : string;
  e_filesize : option num;
  e_resolution : string;
  e_quality_name : lookup string;
  e_is_audio : bool;
  e_vcodec : lookup string;
  e_acodec : lookup string;
  e_tbr : lookup num;
  e_abr : lookup num
}.

(** A key bound to a value that may be [None]. *)
Definition present {A : Type} (x : option A) : lookup A :=
  match x with
  | Some a => Val a
  | None => Null
  end.

(** The dictionary [{'abr': 192}]. *)
Definition abr_192 : ydl_format :=
  {| format_id := Absent; vcodec := Absent; acodec := Absent;
     height := Absent; width := Absent; ext := Absent;
     format_note := Absent; filesize := Absent; filesize_approx := Absent;
     tbr := Absent; abr := Val (Int 192) |}.

(** The entry [audio_format], with its [filesize] replaced by
    [audio_size] when that is truthy. *)
Definition audio_format (audio_size : option num) : format_entry :=
  {| e_id := Some "mp3"%string;
     e_ext := Some "mp3"%string;
     e_height := Absent;
     e_width := Absent;
     e_format_note := "Best Audio (MP3)";
     e_filesize := if truthy_opt audio_size then audio_size else None;
     e_resolution := "Audio only";
     e_quality_name := Absent;
     e_is_audio := true;
     e_vcodec := Absent;
     e_acodec := Val "mp3"%string;
     e_tbr := Absent;
     e_abr := Val (Int 192) |}.

(** The height and the width of a format that passes the two filters of
    the loop: it is not audio-only and has a resolution. *)
Definition resolution_of (fmt : ydl_format) : option (Z * Z) :=
  match get_or (vcodec fmt) "" with
  | Some "none"%string => None
  | _ =>
      match get_or (height fmt) 0, get_or (width fmt) 0 with
      | Some h, Some w => if (h =? 0) || (w =? 0) then None else Some (h, w)
      | _, _ => None
      end
  end.

(** [f"{height}p"] *)
Definition quality_id (height : Z) : string :=
  (str_of_Z height ++ "p")%string.

(** The body of [for fmt in info.get('formats', [])], on the pair of
    [video_formats] and [seen_qualities]. *)
Definition add_format (duration_sec : option num)
    (acc : list format_entry * gset string) (fmt : ydl_format)
  : result (list format_entry * gset string) :=
  let '(video_formats, seen_qualities) := acc in
  match resolution_of fmt with
  | None => Return acc
  | Some (h, w) =>
      if bool_decide (quality_id h ∈ seen_qualities) then Return acc
      else
        let seen_qualities := {[quality_id h]} ∪ seen_qualities in
        let size := get (filesize fmt) in
        let size :=
          if truthy_opt size then size else get (filesize_approx fmt) in
        let* size :=
          if truthy_opt size then Return size
          else estimate_filesize fmt duration_sec in
        let vcodec := get_or (vcodec fmt) "unknown"%string in
        let acodec := get_or (acodec fmt) "unknown"%string in
        let note :=
          match get_or (format_note fmt) ""%string with
          | Some (String c s) => String c s
          | _ => (str_of_option vcodec ++ "/" ++ str_of_option acodec)%string
          end in
        let* id := item "format_id" (format_id fmt) in
        Return
          ((video_formats ++
            [{| e_id := id;
                e_ext := get_or (ext fmt) ""%string;
                e_height := Val h;
                e_width := Val w;
                e_format_note := note;
                e_filesize := size;
                e_resolution := (str_of_Z w ++ "x" ++ str_of_Z h)%string;
                e_quality_name := Val (quality_id h);
                e_is_audio := false;
                e_vcodec := present vcodec;
                e_acodec := present acodec;
                e_tbr := present (get_or (tbr fmt) (Int 0));
                e_abr := Absent |}])%list,
           seen_qualities)
  end.

(** The loop over the formats: it stops at the first exception. *)
Fixpoint add_formats (duration_sec : option num)
    (acc : list format_entry * gset string) (fmts : list ydl_format)
  : result (list format_entry * gset string) :=
  match fmts with
  | [] => Return acc
  | fmt :: rest =>
      let* acc := add_format duration_sec acc fmt in
      add_formats duration_sec acc rest
  end.

(** The sort key [x['height']]; every entry of [video_formats] has an
    integer there. *)
Definition height_key (e : format_entry) : Z :=
  match e_height e with
  | Val h => h
  | _ => 0
  end.

(** [list.sort(key=..., reverse=True)]: a stable sort into descending
    order of the keys. *)
Fixpoint insert_desc (x : format_entry) (l : list format_entry)
  : list format_entry :=
  match l with
  | [] => [x]
  | y :: l' =>
      if height_key y <=? height_key x then x :: y :: l'
      else y :: insert_desc x l'
  end.

Definition sort_desc (l : list format_entry) : list format_entry :=
  foldr insert_desc [] l.

(** What [get_available_formats] returns. *)
Definition fetched : Type := list format_entry * option video_info.

(** The module-level [info_cache] and the downloader's [current_info]. *)
Record fetch_state : Type := {
  info_cache : gmap string fetched;
  current_info : option ydl_info
}.

(** The part of [get_available_formats] after [if not info], inside the
    [try]. *)
Definition formats_of (url : string) (info : ydl_info) : result fetched :=
  let video_info :=
    {| v_title := get_or (i_title info) "Unknown title"%string;
       v_duration := get_or (i_duration info) (Int 0);
       v_channel := get_or (i_channel info) "Unknown channel"%string;
       v_thumbnail := get (i_thumbnail info);
       v_view_count := get_or (i_view_count info) (Int 0);
       v_upload_date := get_or (i_upload_date info) "Unknown"%string;
       v_uploader := get_or (i_uploader info) "Unknown"%string;
       v_description := get_or (i_description info) ""%string;
       v_webpage_url := get_or (i_webpage_url info) url;
       v_id := get_or (i_id info) ""%string |} in
  let duration_sec := get_or (i_duration info) (Int 0) in
  let* audio_size := estimate_filesize abr_192 duration_sec in
  let* fmts :=
    match get_or (i_formats info) [] with
    | Some fmts => Return fmts
    | None => Raise TypeError
    end in
  let* acc := add_formats duration_sec ([], ∅) fmts in
  Return (audio_format audio_size :: sort_desc (fst acc), Some video_info).

(** [get_available_formats(self, url)]. [extract_info] is what the
    library call does if it is made: it returns the info (or [None]) or
    raises. An empty dictionary counts as [None]. *)
Definition get_available_formats (st : fetch_state) (url : string)
    (extract_info : result (option ydl_info)) : fetched * fetch_state :=
  match info_cache st !! url with
  | Some cached => (cached, st)
  | None =>
      match extract_info with
      | Raise _ => (([], None), st)
      | Return None =>
          (([], None),
           {| info_cache := info_cache st; current_info := None |})
      | Return (Some info) =>
          match formats_of url info with
          | Return r =>
              (r, {| info_cache := <[url := r]> (info_cache st);
                     current_info := Some info |})
          | Raise _ =>
              (([], None),
               {| info_cache := info_cache st; current_info := Some info |})
          end
      end
  end.

(** *** The options of [download_video] *)

(** The entries of [ydl_opts] that depend on the arguments; the others
    are constants. [extract_audio] stands for the post-processor
    [FFmpegExtractAudio] with the codec mp3 at 192. *)
Record ydl_options : Type := {
  o_outtmpl : string;
  o_format : string;
  o_merge_output_format : option string;
  o_extract_audio : bool;
  o_ffmpeg_location : option string
}.

(** The output template. *)
Definition outtmpl (download_dir : string) (selected_format : option string)
    (filename_template : option string) : string :=
  match filename_template with
  | Some (String c s) =>
      let name := sanitize_filename (String c s) in
      let ext :=
        match selected_format with
        | Some "mp3"%string => "mp3"%string
        | _ => "mp4"%string
        end in
      path_join download_dir (name ++ "." ++ ext)%string
  | _ => path_join download_dir "%(title)s.%(ext)s"
  end.

(** The options [download_video] assembles before the library is
    called. A selected format that is [None] has no method [isdigit]. *)
Definition ydl_opts (ffmpeg_path : option string) (download_dir : string)
    (selected_format : option string) (filename_template : option string)
  : result ydl_options :=
  let out := outtmpl download_dir selected_format filename_template in
  let video (format : string) (merge : string) :=
    Return {| o_outtmpl := out; o_format := format;
              o_merge_output_format := Some merge;
              o_extract_audio := false;
              o_ffmpeg_location := ffmpeg_path |} in
  match selected_format with
  | None => Raise AttributeError
  | Some sel =>
      if String.eqb sel "mp3" then
        Return {| o_outtmpl := out; o_format := "bestaudio/best";
                  o_merge_output_format := None;
                  o_extract_audio := true;
                  o_ffmpeg_location := ffmpeg_path |}
      else if String.eqb sel "best" then
        video "bestvideo+bestaudio/best"%string "mp4"%string
      else if str_isdigit sel then
        video (sel ++ "+bestaudio/best")%string "mp4"%string
      else if String.eqb sel "mp4" || String.eqb sel "webm"
              || String.eqb sel "mov" then
        video "bestvideo+bestaudio/best"%string sel
      else
        match int_of_string (rstrip_char "p" sel) with
        | Some height =>
            video ("bestvideo[height<=" ++ str_of_Z height
                   ++ "]+bestaudio/best[height<=" ++ str_of_Z height
                   ++ "]")%string "mp4"%string
        | None => video sel "mp4"%string
        end
  end.

End Downloader.

(** ** [DownloadManagerApp]: the list of formats
       ([YTDownloader2025_SonnetEditsV7_TP.py]) *)

Module FormatList.

Import Py PyStr PyText PyNum Util Downloader.

(** A row of the tree view: the four values of its columns. *)
Definition row : Type := (string * string * string * string)%type.

(** The part of the window the format list depends on: the radio button
    variable, the rows of the tree view, the indices of the selected
    rows, and [available_formats]. *)
Record format_panel : Type := {
  format_var : string;
  format_list : list row;
  selection : list nat;
  available_formats : list format_entry
}.

(** The row shown for an audio entry. *)
Definition audio_row (fmt : format_entry) : result row :=
  let* size := format_filesize (e_filesize fmt) in
  Return (e_resolution fmt, str_of_option (e_ext fmt), size,
          e_format_note fmt).

(** The row shown for a video entry. *)
Definition video_row (fmt : format_entry) : result row :=
  let quality := get_or (e_quality_name fmt) "Unknown"%string in
  let* size :=
    if truthy_opt (e_filesize fmt) then format_filesize (e_filesize fmt)
    else Return "Unknown"%string in
  let note :=
    match e_format_note fmt with
    | String c s => String c s
    | EmptyString =>
        ("Video: "
         ++ str_of_option (get_or (e_vcodec fmt) "unknown"%string)
         ++ ", Audio: "
         ++ str_of_option (get_or (e_acodec fmt) "unknown"%string))%string
    end in
  Return (str_of_option quality, str_of_option (e_ext fmt), size, note).

(** The rows inserted by one of the two loops. *)
Fixpoint rows_of (audio : bool) (formats : list format_entry)
  : result (list row) :=
  match formats with
  | [] => Return []
  | fmt :: rest =>
      if audio then
        if e_is_audio fmt then
          let* r := audio_row fmt in
          let* rs := rows_of audio rest in
          Return (r :: rs)
        else rows_of audio rest
      else
        if e_is_audio fmt then rows_of audio rest
        else
          let* r := video_row fmt in
          let* rs := rows_of audio rest in
          Return (r :: rs)
  end.

(** [update_format_list(self, formats)] *)
Definition update_format_list (formats : option (list format_entry))
    (panel : format_panel) : result format_panel :=
  let formats :=
    match formats with
    | Some (f :: fs) => f :: fs
    | _ => available_formats panel
    end in
  match formats with
  | [] =>
      Return {| format_var := format_var panel;
                format_list := [("No formats available", "", "", "")%string];
                selection := [];
                available_formats := available_formats panel |}
  | _ =>
      let* rows := rows_of (String.eqb (format_var panel) "mp3") formats in
      Return {| format_var := format_var panel;
                format_list := rows;
                selection := match rows with [] => [] | _ => [0%nat] end;
                available_formats := available_formats panel |}
  end.

(** The first entry of [available_formats] that the loop of
    [get_selected_format] returns the id of. *)
Fixpoint find_format (resolution : string) (formats : list format_entry)
  : option format_entry :=
  match formats with
  | [] => None
  | fmt :: rest =>
      if (bool_decide (get (e_quality_name fmt) = Some resolution)
          || String.eqb (e_resolution fmt) resolution)
         && negb (e_is_audio fmt)
      then Some fmt
      else find_format resolution rest
  end.

(** [get_selected_format(self)]; the value returned can be [None], the id
    of a format whose [format_id] was [None]. *)
Definition get_selected_format (panel : format_panel)
  : result (option string) :=
  if String.eqb (format_var panel) "mp3" then Return (Some "mp3"%string)
  else
    match selection panel with
    | [] => Return (Some "best"%string)
    | selected_item :: _ =>
        match format_list panel !! selected_item with
        | None => Raise TclError
        | Some (resolution, _, _, _) =>
            match find_format resolution (available_formats panel) with
            | Some fmt => Return (e_id fmt)
            | None => Return (Some resolution)
            end
        end
    end.

(** The user clicks on the row with the index [i]. *)
Definition select_row (i : nat) (panel : format_panel) : format_panel :=
  {| format_var := format_var panel;
     format_list := format_list panel;
     selection := [i];
     available_formats := available_formats panel |}.

End FormatList.

(** ** [YTDownloader2025v7.1.py]: one download *)

Module V71Run.

Import Py PyStr PyText PyNum Util Downloader.

(** *** The format asked of the library *)

(** The part of the window [get_selected_format] reads; a row of this
    variant's tree view has three columns. *)
Record format_panel : Type := {
  format_var : string;
  format_list : list (string * string * string);
  selection : list nat;
  available_formats : list format_entry
}.

(** The first entry whose quality name or resolution is the text of the
    selected row. *)
Fixpoint find_format (resolution : string) (formats : list format_entry)
  : option format_entry :=
  match formats with
  | [] => None
  | fmt :: rest =>
      if bool_decide (get (e_quality_name fmt) = Some resolution)
         || String.eqb (e_resolution fmt) resolution
      then Some fmt
      else find_format resolution rest
  end.

(** [DownloadManagerApp.get_selected_format(self)] *)
Definition get_selected_format (panel : format_panel) : result string :=
  if String.eqb (format_var panel) "mp3" then Return "mp3"%string
  else
    match selection panel with
    | [] => Return "bestvideo+bestaudio/best"%string
    | selected_item :: _ =>
        match format_list panel !! selected_item with
        | None => Raise TclError
        | Some (resolution, _, _) =>
            match find_format resolution (available_formats panel) with
            | Some fmt =>
                Return (str_of_option (e_id fmt) ++ "+bestaudio/best")%string
            | None =>
                Return ("bestvideo[height=" ++ rstrip_char "p" resolution
                        ++ "]+bestaudio/best[height="
                        ++ rstrip_char "p" resolution ++ "]")%string
            end
        end
    end.

(** The entry ['format'] of the options [download_video] passes to the
    library; the MP3 conversion needs ffmpeg. *)
Definition format_option (ffmpeg_path : option string)
    (selected_format : string) : result string :=
  if String.eqb selected_format "mp3" then
    match ffmpeg_path with
    | None =>
        Raise (ValueError
                 "FFmpeg is required for MP3 conversion but was not found.")
    | Some _ => Return "bestaudio/best"%string
    end
  else Return (selected_format ++ "+bestaudio/best")%string.

(** *** The name of the finished file *)

(** The characters kept by
    [c.isalnum() or c in (' ', '-', '_', '.')]. *)
Definition is_kept (c : ascii) : bool :=
  isalnum c || Ascii.eqb c " " || Ascii.eqb c "-" || Ascii.eqb c "_"
  || Ascii.eqb c ".".

(** ['mp3' if selected_format == 'mp3' else 'mp4'] *)
Definition final_ext (selected_format : string) : string :=
  if String.eqb selected_format "mp3" then "mp3"%string else "mp4"%string.

(** [final_filename] after the step called "Sanitize filename", on ASCII
    text. *)
Definition final_filename (video_title final_ext : string) : string :=
  let final_filename :=
    if String.eqb final_ext "mp3"
    then (video_title ++ " (Audio)." ++ final_ext)%string
    else (video_title ++ " (Video)." ++ final_ext)%string in
  rstrip (filter_chars is_kept final_filename).

(** [base_filename = final_filename[:-len(final_ext)-1]] *)
Definition base_filename (final_filename final_ext : string) : string :=
  drop_last (String.length final_ext + 1) final_filename.

(** *** The progress hook that is registered *)

(** The dictionary yt-dlp passes to the hook. The byte counts can be
    integers or floats. *)
Record hook_record : Type := {
  h_status : string;
  h_total_bytes : option num;
  h_total_bytes_estimate : option num;
  h_downloaded_bytes : lookup num
}.

(** [YoutubeDownloader.update_progress(self, d)]: the percentages passed
    to the callback. The local variable [percent] is bound only when the
    total is known. *)
Definition update_progress (progress_callback : bool) (d : hook_record)
  : result (list num) :=
  if String.eqb (h_status d) "downloading" then
    let total_bytes :=
      num_or (h_total_bytes d) (h_total_bytes_estimate d) in
    let downloaded_bytes := get_or (h_downloaded_bytes d) (Int 0) in
    let* percent :=
      match total_bytes with
      | Some total =>
          if truthy total then
            match downloaded_bytes with
            | Some downloaded =>
                let* q := truediv downloaded total in
                let* p := mul q (Int 100) in
                Return (Some p)
            | None => Raise TypeError
            end
          else Return None
      | None => Return None
      end in
    if progress_callback then
      match percent with
      | Some p => Return [p]
      | None => Raise (UnboundLocalError "percent")
      end
    else Return []
  else Return [].

(** [ydl.download([url])] with the hook installed: the percentages
    delivered and the exception that ends the call, if any. *)
Fixpoint ydl_download (progress_callback : bool) (steps : list hook_record)
    (download_result : option exception)
  : list num * option exception :=
  match steps with
  | [] => ([], download_result)
  | d :: rest =>
      match update_progress progress_callback d with
      | Raise e => ([], Some e)
      | Return ps =>
          let '(ps', r) := ydl_download progress_callback rest
                             download_result in
          ((ps ++ ps')%list, r)
      end
  end.

(** *** [YoutubeDownloader.download_video] *)

(** What is outside the downloader's control during one call. The
    temporary directory is a fresh one, different from the download
    directory, and the download directory exists and can be written. The
    callbacks return normally. *)
Record run_script : Type := {
  (** the exception raised while the temporary directory or the
      [YoutubeDL] object is created, if any *)
  setup_raises : option exception;
  (** what [ydl.extract_info] does: the title read from the info, as
      text, or the exception *)
  extract_info_result : result string;
  (** the records passed to the hook during [ydl.download] *)
  download_steps : list hook_record;
  (** the exception [ydl.download] raises by itself at the end, if any *)
  download_result : option exception;
  temp_dir : string;
  (** [os.listdir(temp_dir)] after the download, with the entries *)
  downloaded_files : list (string * TP.entry)
}.

(** What [download_video] returns first: the title, or [str(e)] for the
    exception [e]. *)
Inductive returned_text : Type :=
| Title (video_title : string)
| Message (e : exception).

Record run_outcome : Type := {
  returned : returned_text * bool;
  percents : list num;              (* passed to the progress callback *)
  completed : list string;          (* passed to complete_callback *)
  failed : list exception;          (* [e] for each error_callback(str(e)) *)
  files : gmap string TP.entry      (* the files afterwards *)
}.

(** The [except Exception] clause; the temporary directory is gone. *)
Definition fail (error_callback : bool) (e : exception)
    (ps : list num) (fs : gmap string TP.entry) : run_outcome :=
  {| returned := (Message e, false);
     percents := ps;
     completed := [];
     failed := if error_callback then [e] else [];
     files := fs |}.

(** The files of the temporary directory, as paths. *)
Definition temp_paths (sc : run_script) : list (string * TP.entry) :=
  map (fun f => (path_join (temp_dir sc) (fst f), snd f))
      (downloaded_files sc).

(** The files once the library has filled the temporary directory. *)
Definition with_temp_files (sc : run_script) (fs : gmap string TP.entry)
  : gmap string TP.entry :=
  list_to_map (temp_paths sc) ∪ fs.

(** Leaving the [with tempfile.TemporaryDirectory()] block removes what
    is left of the temporary directory. *)
Definition without_temp_files (sc : run_script) (fs : gmap string TP.entry)
  : gmap string TP.entry :=
  foldr (fun f m => delete (fst f) m) fs (temp_paths sc).

(** [download_video(self, url, download_dir, selected_format,
    complete_callback, error_callback)]. [fuel] bounds the turns of the
    loop that looks for a free name; [None] means that it ran out. *)
Definition download_video (ffmpeg_path : option string)
    (progress_callback : bool) (download_dir selected_format : string)
    (complete_callback error_callback : bool) (sc : run_script)
    (fs : gmap string TP.entry) (fuel : nat) : option run_outcome :=
  match format_option ffmpeg_path selected_format with
  | Raise e => Some (fail error_callback e [] fs)
  | Return _ =>
      match setup_raises sc, extract_info_result sc with
      | Some e, _ | None, Raise e => Some (fail error_callback e [] fs)
      | None, Return video_title =>
          match ydl_download progress_callback (download_steps sc)
                  (download_result sc) with
          | (ps, Some e) => Some (fail error_callback e ps fs)
          | (ps, None) =>
              match downloaded_files sc with
              | [] =>
                  Some {| returned := (Title video_title, true);
                          percents := ps; completed := []; failed := [];
                          files := fs |}
              | (main_file, _) :: _ =>
                  let fs1 := with_temp_files sc fs in
                  let source_path := path_join (temp_dir sc) main_file in
                  let ext := final_ext selected_format in
                  match V71.choose_final_path fs1 download_dir
                          (final_filename video_title ext) ext fuel with
                  | None => None
                  | Some final_path =>
                      match V71.shutil_move fs1 source_path final_path with
                      | None =>
                          Some (fail error_callback
                                  (OSError "No such file or directory")
                                  ps fs)
                      | Some fs2 =>
                          Some
                            {| returned := (Title video_title, true);
                               percents := ps;
                               completed :=
                                 if complete_callback then [video_title]
                                 else [];
                               failed := [];
                               files := without_temp_files sc fs2 |}
                      end
                  end
              end
          end
      end
  end.

End V71Run.

(** ** [YTDownloader2025.py]: the window *)

Module V2025App.

Import Py PyStr PyText.

(** The configuration file, by the JSON object it holds: the values
    under the two keys, [None] for a key that is missing. A value that is
    there has the type [save_config] writes, a string or a boolean. *)
Record config : Type := {
  c_download_directory : option string;
  c_dark_mode : option bool
}.

(** The part of the window and of its surroundings the methods use. *)
Record app : Type := {
  download_directory : string;
  dark_mode : bool;
  background : option string;      (* set by root.configure(bg=...) *)
  input_entry : string;
  format_var : string;
  config_file : option config;     (* [None]: the file does not exist *)
  dialogs : list (string * string)
}.

(** [config.get(key, default)] *)
Definition config_get {A : Type} (value : option A) (default : A) : A :=
  match value with
  | Some a => a
  | None => default
  end.

(** [load_config()]; [downloads] is what
    [os.path.expanduser('~\\Downloads')] returns. *)
Definition load_config (downloads : string) (file : option config)
  : string * bool :=
  match file with
  | Some c =>
      (config_get (c_download_directory c) downloads,
       config_get (c_dark_mode c) false)
  | None => (downloads, false)
  end.

(** [save_config(download_directory, dark_mode)]: the file afterwards. *)
Definition save_config (download_directory : string) (dark_mode : bool)
  : option config :=
  Some {| c_download_directory := Some download_directory;
          c_dark_mode := Some dark_mode |}.

(** [toggle_dark_mode(self)] *)
Definition toggle_dark_mode (a : app) : app :=
  let bg_color :=
    if negb (dark_mode a) then "#2E2E2E"%string else "white"%string in
  let dark := negb (dark_mode a) in
  {| download_directory := download_directory a;
     dark_mode := dark;
     background := Some bg_color;
     input_entry := input_entry a;
     format_var := format_var a;
     config_file := save_config (download_directory a) dark;
     dialogs := dialogs a |}.

(** [DownloadManagerApp.__init__(self, root)] *)
Definition init (downloads : string) (file : option config) : app :=
  let '(directory, dark) := load_config downloads file in
  let a :=
    {| download_directory := directory;
       dark_mode := dark;
       background := None;
       input_entry := "";
       format_var := "mp4";
       config_file := file;
       dialogs := [] |} in
  if dark then toggle_dark_mode a else a.

(** [messagebox.showerror] and [showinfo]. *)
Definition show (title text : string) (a : app) : app :=
  {| download_directory := download_directory a;
     dark_mode := dark_mode a;
     background := background a;
     input_entry := input_entry a;
     format_var := format_var a;
     config_file := config_file a;
     dialogs := (dialogs a ++ [(title, text)])%list |}.

(** What the library does during one call of [download_video]. *)
Record run_script : Type := {
  (** [get_video_title]: the title found, as text, or the exception
      raised *)
  title_result : result string;
  (** the records passed to the hook, and how [ydl.download] ends *)
  download_steps : list TP.hook_dict;
  download_result : option TP.exn
}.

(** [download_video_with_progress]: the values passed to the callback.
    The handler [except Exception] logs whatever the hook or the library
    raises, and the function returns normally. *)
Fixpoint download_video_with_progress (steps : list TP.hook_dict)
    (download_result : option TP.exn) : list Z :=
  match steps with
  | [] => []
  | d :: rest =>
      match V2025.progress_hook d with
      | (values, Some _) => values
      | (values, None) =>
          (values ++ download_video_with_progress rest download_result)%list
      end
  end.

(** [download_video(self)]: the window afterwards and the values the
    progress bar was set to, or the exception that leaves the method. *)
Definition download_video (path_exists : string -> bool) (sc : run_script)
    (a : app) : result (app * list Z) :=
  let user_input := input_entry a in
  if negb (TP.is_valid_youtube_url user_input) then
    Return (show "Invalid URL" "Please enter a valid YouTube URL." a, [])
  else
    let output_format := format_var a in
    let* video_title := title_result sc in
    let output_file :=
      path_join (download_directory a)
                (video_title ++ "." ++ output_format)%string in
    if path_exists output_file then
      Return (show "File Already Downloaded"
                   ("The video '" ++ video_title
                    ++ "' has already been downloaded.")%string a, [])
    else
      Return (show "Download Complete"
                   "The video has been downloaded successfully." a,
              download_video_with_progress (download_steps sc)
                                           (download_result sc)).

End V2025App.

(** * Sample data and auxiliary definitions *)

(** A raw progress record of the transfer phase. *)
Definition downloading_record (downloaded total : option Z) : TP.hook_dict :=
  {| TP.d_status := "downloading"; TP.d_total_bytes := total;
     TP.d_total_bytes_estimate := None; TP.d_downloaded_bytes := downloaded;
     TP.d_error := None |}.

(** The raw record that announces the end of the transfer. *)
Definition finished_record : TP.hook_dict :=
  {| TP.d_status := "finished"; TP.d_total_bytes := Some 100;
     TP.d_total_bytes_estimate := None; TP.d_downloaded_bytes := Some 100;
     TP.d_error := None |}.

(** The raw record by which the library reports an error. *)
Definition error_record : TP.hook_dict :=
  {| TP.d_status := "error"; TP.d_total_bytes := None;
     TP.d_total_bytes_estimate := None; TP.d_downloaded_bytes := None;
     TP.d_error := Some "HTTP Error 403"%string |}.

(** The record delivered for a percentage of the transfer phase. *)
Definition downloading_info (p : Z) : TP.progress_info :=
  {| TP.percent := p; TP.status := "downloading"; TP.error := None |}.

(** A downloader in the middle of a transfer, used in the examples. *)
Definition busy_downloader : TP.YoutubeDownloader :=
  {| TP.progress_callback := true; TP.downloading := true;
     TP.cancel_requested := false; TP.ydl_instance := true;
     TP.current_info := None; TP.interrupts := 0 |}.

(** A downloader between two operations. *)
Definition idle_downloader : TP.YoutubeDownloader :=
  {| TP.progress_callback := true; TP.downloading := false;
     TP.cancel_requested := false; TP.ydl_instance := false;
     TP.current_info := None; TP.interrupts := 0 |}.

(** A run in which the library performs [steps] and returns normally. *)
Definition plain_run (steps : list TP.lib_step) : TP.run_script :=
  {| TP.setup_raises := None; TP.cancel_before_download := false;
     TP.extract_info_result := inl "clip"%string;
     TP.download_steps := steps; TP.download_result := None;
     TP.library_writes := fun fs => fs;
     TP.remove_raises := fun _ => false |}.

(** A run in which the library delivers one progress record and then
    raises an exception that none of the specific handlers names. *)
Definition crashing_run : TP.run_script :=
  {| TP.setup_raises := None; TP.cancel_before_download := false;
     TP.extract_info_result := inl "clip"%string;
     TP.download_steps :=
       [TP.Hook (downloading_record (Some 50) (Some 100))];
     TP.download_result := Some (TP.OtherException "KeyError");
     TP.library_writes := fun fs => fs;
     TP.remove_raises := fun _ => false |}.

(** A run in which the library reports an error through the hook and then
    raises its [DownloadError]. *)
Definition failing_run : TP.run_script :=
  {| TP.setup_raises := None; TP.cancel_before_download := false;
     TP.extract_info_result := inl "clip"%string;
     TP.download_steps := [TP.Hook error_record];
     TP.download_result := Some (TP.DownloadError "HTTP Error 403");
     TP.library_writes := fun fs => fs;
     TP.remove_raises := fun _ => false |}.

(** A run that succeeds while the operating system refuses to remove one
    of the temporary files of [/dl] (the file is still in use). *)
Definition locked_run : TP.run_script :=
  {| TP.setup_raises := None; TP.cancel_before_download := false;
     TP.extract_info_result := inl "clip"%string;
     TP.download_steps := []; TP.download_result := None;
     TP.library_writes := fun fs => fs;
     TP.remove_raises := fun path => String.eqb path "/dl/clip.f137.mp4" |}.

(** A run in which the cancel request arrives after the last raw
    "downloading" record, while the library is finishing its work. *)
Definition late_cancel_run : TP.run_script :=
  plain_run [TP.Hook (downloading_record (Some 50) (Some 100));
             TP.CancelClick;
             TP.Hook finished_record].

(** A run in which the cancel request arrives between two raw
    "downloading" records. *)
Definition cancelled_run : TP.run_script :=
  plain_run [TP.Hook (downloading_record (Some 50) (Some 100));
             TP.CancelClick;
             TP.Hook (downloading_record (Some 60) (Some 100))].





(** The record the hook forwards for [error_record]. *)
Definition error_info : TP.progress_info :=
  {| TP.percent := 0; TP.status := "error";
     TP.error := Some "HTTP Error 403"%string |}.


(** A download directory with the finished file, two leftovers of the
    current download, a file that was there before, and a subdirectory
    whose name looks like a partial download. *)
Definition sample_fs : TP.filesystem :=
  {[ "/dl"%string :=
       {[ "clip.mp4"%string := TP.RegularFile "video";
          "clip.f137.mp4"%string := TP.RegularFile "video stream";
          "clip.f140.m4a"%string := TP.RegularFile "audio stream";
          "holiday.webm"%string := TP.RegularFile "an older download";
          "queue.part"%string := TP.Directory ]};
     "/home"%string := {[ "notes.part"%string := TP.RegularFile "notes" ]} ]}.

(** The percentages delivered for a run of raw "downloading" records with
    the byte counts [downloaded] and the total [total]: the run stops at
    the first record on which the hook raises. *)
Fixpoint percent_run (total : Z) (downloaded : list Z) : list Z :=
  match downloaded with
  | [] => []
  | d :: rest =>
      match TP.hook_percent (Some total) (Some d) with
      | Some p => p :: percent_run total rest
      | None => []
      end
  end.

(** Whether [PyFloat.percent_of] and the evaluation with the Standard
    Library's binary64 operations agree on given byte counts. *)
Definition agree_with_SpecFloat (downloaded total : Z) : bool :=
  match PyFloat.percent_of downloaded total,
        PyFloat.sf_percent_of downloaded total with
  | Some a, Some b => a =? b
  | _, _ => false
  end.

(** Whether [PyFloat.py_truediv] and [SFdiv] give the same number, and
    [PyFloat.py_mul] and [SFmul] the same product with 100. *)
Definition same_value (x : PyFloat.pyfloat) (y : spec_float) : bool :=
  match x, y with
  | PyFloat.Finite s m e, S754_finite s' m' e' =>
      Bool.eqb s s'
      && (m * 2 ^ (e - Z.min e e') =? Zpos m' * 2 ^ (e' - Z.min e e'))
  | PyFloat.Finite _ m _, S754_zero _ => m =? 0
  | PyFloat.Inf s, S754_infinity s' => Bool.eqb s s'
  | _, _ => false
  end.

Definition agree_on_floats (downloaded total : Z) : bool :=
  let q := SFdiv PyFloat.prec PyFloat.emax (PyFloat.sf_of_int downloaded)
                 (PyFloat.sf_of_int total) in
  match PyFloat.py_truediv downloaded total with
  | Some x =>
      same_value x q
      && same_value (PyFloat.py_mul x 100)
           (SFmul PyFloat.prec PyFloat.emax q (PyFloat.sf_of_int 100))
  | None => false
  end.

(** The byte counts of the cross-check: the small ones, and large ones
    below [2 ^ 53]. *)
Definition sample_counts : list Z :=
  map Z.of_nat (seq 1 50)
  ++ map (fun k => Z.of_nat k * 90071992547409 + 7) (seq 1 14).

(** ** Auxiliary definitions for the helpers and the format list *)

Section HelperNotions.

Import Py PyFloat PyStr PyText PyNum Util Downloader.

(** A positive finite float with the value [V * 2 ^ emin]. *)
Definition has_value (x : float) (V : Z) : Prop :=
  exists m e : Z,
    x = F (Finite false m e) /\ emin <= e /\ scaled m e = V.

(** What every video entry of the list looks like. *)
Definition video_entry (e : format_entry) : Prop :=
  e_is_audio e = false
  /\ exists h w : Z,
       e_height e = Val h /\ e_width e = Val w /\ h <> 0 /\ w <> 0
       /\ e_quality_name e = Val (quality_id h)
       /\ e_resolution e = (str_of_Z w ++ "x" ++ str_of_Z h)%string.

(** The entry [e] was made from the first format of [fmts] that passes
    the filters with the height of [e]. *)
Definition made_from (fmts : list ydl_format) (e : format_entry) : Prop :=
  exists (pre post : list ydl_format) (fmt : ydl_format) (w : Z),
    fmts = (pre ++ fmt :: post)%list
    /\ resolution_of fmt = Some (height_key e, w)
    /\ e_width e = Val w
    /\ e_id e = get (format_id fmt)
    /\ e_ext e = get_or (ext fmt) ""%string
    /\ Forall (fun f => forall w', resolution_of f <> Some (height_key e, w'))
              pre.

(** The invariant of the loop, after the formats [done]. *)
Definition loop_invariant (done : list ydl_format)
    (acc : list format_entry * gset string) : Prop :=
  (forall q, q ∈ snd acc
             <-> exists e, e ∈ fst acc /\ q = quality_id (height_key e))
  /\ NoDup (map height_key (fst acc))
  /\ Forall video_entry (fst acc)
  /\ Forall (made_from done) (fst acc)
  /\ (forall f h w, f ∈ done -> resolution_of f = Some (h, w) ->
                    exists e, e ∈ fst acc /\ height_key e = h).

(** The characters of a quality name: digits, a minus sign and [p]. *)
Definition quality_char (c : ascii) : bool :=
  isdigit c || Ascii.eqb c "-" || Ascii.eqb c "p".

End HelperNotions.

Section RunNotions.

Import TP.
Local Open Scope string_scope.

(** The ways a run of [download_video] can end: with an exception before
    the library downloads, with one during the download, or well. *)
Inductive run_end (self : YoutubeDownloader) (download_dir : string)
    (sc : run_script) (fs : filesystem) (out : run_outcome) : Prop :=
| ended_before_download (self' : YoutubeDownloader) (e : exn)
    (title : string) (cs : list bool) :
    out = failed_run (remove_raises sc) self' download_dir e fs [] title cs ->
    progress_callback self' = progress_callback self ->
    Forall (fun c => c = true) cs ->
    run_end self download_dir sc fs out
| ended_in_download (self' : YoutubeDownloader) (e : exn)
    (evs : list progress_info) (title : string) (cs : list bool) :
    out = failed_run (remove_raises sc) self' download_dir e
            (library_writes sc fs) evs title cs ->
    progress_callback self' = progress_callback self ->
    Forall (fun c => c = true) cs ->
    run_end self download_dir sc fs out
| ended_well (self' : YoutubeDownloader) (evs : list progress_info) :
    success out = true ->
    events out
    = (evs ++ emit self' {| percent := 100; status := "complete";
                            error := None |})%list ->
    final_self out = reset_flags self' ->
    final_fs out
    = _cleanup_temp_files (remove_raises sc) download_dir
        (library_writes sc fs) ->
    progress_callback self' = progress_callback self ->
    Forall (fun c => c = true) (cancel_results out) ->
    run_end self download_dir sc fs out.

End RunNotions.

(** ** Sample data for the formats and the windows *)

Section Samples.

Import Py PyStr PyText PyNum Util Downloader.

(** A format as the library lists it, with the keys a video stream
    has. *)
Definition video_stream (id codec : string) (h w : Z) : ydl_format :=
  {| format_id := Val id; vcodec := Val codec; acodec := Val "none"%string;
     height := Val h; width := Val w; ext := Val "mp4"%string;
     format_note := Absent; filesize := Null; filesize_approx := Absent;
     tbr := Null; abr := Absent |}.

(** An audio-only format. *)
Definition audio_stream : ydl_format :=
  {| format_id := Val "140"%string; vcodec := Val "none"%string;
     acodec := Val "mp4a"%string; height := Null; width := Null;
     ext := Val "m4a"%string; format_note := Val "medium"%string;
     filesize := Val (Int 960000); filesize_approx := Absent;
     tbr := Val (Int 128); abr := Val (Int 128) |}.

(** A video stream that lacks its [format_id]. *)
Definition nameless_stream : ydl_format :=
  {| format_id := Absent; vcodec := Val "vp9"%string; acodec := Absent;
     height := Val 480; width := Val 854; ext := Val "webm"%string;
     format_note := Absent; filesize := Absent; filesize_approx := Absent;
     tbr := Absent; abr := Absent |}.

(** The information for a video of one minute. *)
Definition info_with (fmts : list ydl_format) : ydl_info :=
  {| i_title := Val "clip"%string; i_duration := Val (Int 60);
     i_channel := Absent; i_thumbnail := Absent; i_view_count := Absent;
     i_upload_date := Absent; i_uploader := Absent;
     i_description := Absent; i_webpage_url := Absent;
     i_id := Val "demo"%string; i_formats := Val fmts |}.

(** Two streams of height 720, one of 1080 between them, after an audio
    stream. *)
Definition sample_streams : list ydl_format :=
  [audio_stream; video_stream "136" "avc1" 720 1280;
   video_stream "137" "avc1" 1080 1920; video_stream "22" "avc1" 720 1280].

Definition sample_info : ydl_info := info_with sample_streams.

Definition broken_info : ydl_info :=
  info_with [audio_stream; nameless_stream;
             video_stream "137" "avc1" 1080 1920].

Definition sample_url : string := "https://youtu.be/demo".

(** Nothing cached, nothing fetched. *)
Definition fresh_state : fetch_state :=
  {| info_cache := ∅; current_info := None |}.

(** The [video_info] made from [sample_info]. *)
Definition sample_video_info : video_info :=
  {| v_title := Some "clip"%string; v_duration := Some (Int 60);
     v_channel := Some "Unknown channel"%string; v_thumbnail := None;
     v_view_count := Some (Int 0); v_upload_date := Some "Unknown"%string;
     v_uploader := Some "Unknown"%string; v_description := Some ""%string;
     v_webpage_url := Some sample_url; v_id := Some "demo"%string |}.

(** The first fetch of [sample_url]. *)
Definition sample_fetch : fetched * fetch_state :=
  get_available_formats fresh_state sample_url (Return (Some sample_info)).

Definition sample_formats : list format_entry := fst (fst sample_fetch).

(** The entry listed for the height 720. *)
Definition entry_720 : format_entry :=
  {| e_id := Some "136"%string;
     e_ext := Some "mp4"%string;
     e_height := Val 720;
     e_width := Val 1280;
     e_format_note := "avc1/none";
     e_filesize :=
       Some (Flt (F (PyFloat.Finite false 5033164800000000 (-27))));
     e_resolution := "1280x720";
     e_quality_name := Val "720p"%string;
     e_is_audio := false;
     e_vcodec := Val "avc1"%string;
     e_acodec := Val "none"%string;
     e_tbr := Null;
     e_abr := Absent |}.

(** The window of the TP variant before the formats are listed, set to
    video download. *)
Definition sample_panel : FormatList.format_panel :=
  {| FormatList.format_var := "mp4";
     FormatList.format_list := [];
     FormatList.selection := [];
     FormatList.available_formats := sample_formats |}.

(** The rows that [update_format_list] shows for [sample_formats]. *)
Definition sample_rows : list FormatList.row :=
  [("1080p", "mp4", "57.22 MB", "avc1/none");
   ("720p", "mp4", "35.76 MB", "avc1/none")]%string.

Definition listed_panel : FormatList.format_panel :=
  {| FormatList.format_var := "mp4";
     FormatList.format_list := sample_rows;
     FormatList.selection := [0%nat];
     FormatList.available_formats := sample_formats |}.

(** The window of v7.1 with the second of its rows selected. *)
Definition sample_panel_71 : V71Run.format_panel :=
  {| V71Run.format_var := "mp4";
     V71Run.format_list :=
       [("1080p", "mp4", "57.22 MB"); ("720p", "mp4", "35.76 MB")]%string;
     V71Run.selection := [1%nat];
     V71Run.available_formats := sample_formats |}.

(** A run of v7.1 in which the library leaves two files in the temporary
    directory. *)
Definition two_files_run : V71Run.run_script :=
  {| V71Run.setup_raises := None;
     V71Run.extract_info_result := Return "clip"%string;
     V71Run.download_steps := [];
     V71Run.download_result := None;
     V71Run.temp_dir := "/tmp/job";
     V71Run.downloaded_files :=
       [("clip.f137.mp4"%string, TP.RegularFile "video stream");
        ("clip.mp4"%string, TP.RegularFile "video")] |}.


(** A download directory that holds an earlier download of the same
    title. *)
Definition taken_fs : gmap string TP.entry :=
  {[ "/dl/clip Video.mp4"%string := TP.RegularFile "an older download" ]}.


(** The window of [YTDownloader2025.py] with a URL entered. *)
Definition sample_window : V2025App.app :=
  {| V2025App.download_directory := "/dl";
     V2025App.dark_mode := false;
     V2025App.background := None;
     V2025App.input_entry := "https://youtu.be/demo";
     V2025App.format_var := "mp4";
     V2025App.config_file := None;
     V2025App.dialogs := [] |}.

(** A run in which the download fails at once. *)
Definition failing_download : V2025App.run_script :=
  {| V2025App.title_result := Return "clip"%string;
     V2025App.download_steps := [];
     V2025App.download_result := Some (TP.DownloadError "HTTP Error 403") |}.

End Samples.

(** * Properties *)

(** ** The helpers on concrete inputs *)

Example strip_entry : PyStr.strip "  /home/me/Downloads  " = "/home/me/Downloads"%string.
Proof. reflexivity. Qed.

Example endswith_part :
  PyStr.endswith "clip.mp4.part" ".part" = true
  /\ PyStr.endswith "part" ".part" = false.
Proof. split; reflexivity. Qed.

Example drop_last_extension :
  PyStr.drop_last 4 "Song Audio.mp3" = "Song Audio"%string
  /\ PyStr.drop_last 4 "mp3" = ""%string.
Proof. split; reflexivity. Qed.

Example path_join_cases :
  PyStr.path_join "/dl" "clip.mp4" = "/dl/clip.mp4"%string
  /\ PyStr.path_join "/dl/" "clip.mp4" = "/dl/clip.mp4"%string
  /\ PyStr.path_join "" "clip.mp4" = "clip.mp4"%string
  /\ PyStr.path_join "/dl" "/abs/clip.mp4" = "/abs/clip.mp4"%string.
Proof. repeat split; reflexivity. Qed.

Example valid_urls :
  TP.is_valid_youtube_url "https://www.youtube.com/watch?v=abc" = true
  /\ TP.is_valid_youtube_url "youtu.be/abc" = true
  /\ TP.is_valid_youtube_url "http://youtube/abc" = true.
Proof. repeat split; reflexivity. Qed.

Example invalid_urls :
  TP.is_valid_youtube_url "https://youtu.be/" = false
  /\ TP.is_valid_youtube_url "https://example.com/watch?v=abc" = false
  /\ TP.is_valid_youtube_url "ftp://www.youtube.com/watch" = false
  /\ TP.is_valid_youtube_url "" = false.
Proof. repeat split; reflexivity. Qed.

Example numbered_filenames :
  V71.numbered_filename "Song Audio" "mp3" 1
  = "Song Audio (1) (Audio).mp3"%string
  /\ V71.numbered_filename "Clip Video" "mp4" 12
     = "Clip Video (12) (Video).mp4"%string.
Proof. split; reflexivity. Qed.

Example percent_examples :
  PyFloat.percent_of 50 100 = Some 50
  /\ PyFloat.percent_of 1 3 = Some 33
  /\ PyFloat.percent_of 29 100 = Some 28
  /\ PyFloat.percent_of 57 100 = Some 56
  /\ PyFloat.percent_of 100 100 = Some 100
  /\ PyFloat.percent_of 150 100 = Some 150.
Proof. vm_compute. repeat split; reflexivity. Qed.

(** ** Cancellation requests ([cancel_download]) *)

Section Cancel.

Import TP.

Lemma cancel_download_idle (self : YoutubeDownloader) :
  downloading self = false -> cancel_download self = (false, self).
Proof. intros H. unfold cancel_download. now rewrite H. Qed.

Lemma cancel_download_active (self : YoutubeDownloader) :
  downloading self = true ->
  fst (cancel_download self) = true
  /\ downloading (snd (cancel_download self)) = true
  /\ cancel_requested (snd (cancel_download self)) = true
  /\ progress_callback (snd (cancel_download self)) = progress_callback self
  /\ ydl_instance (snd (cancel_download self)) = ydl_instance self
  /\ current_info (snd (cancel_download self)) = current_info self.
Proof. intros H. unfold cancel_download. rewrite H. cbn. tauto. Qed.

End Cancel.

(** C7, as stated, fails: while the download is still running the second
    call of [cancel_download] returns [True] again, not [False]. *)
Lemma C7_second_cancel_returns_true :
  fst (TP.cancel_download busy_downloader) = true
  /\ fst (TP.cancel_download (snd (TP.cancel_download busy_downloader)))
     = true.
Proof. split; reflexivity. Qed.

(** C7 (amended): while a download is running, a second call of
    [cancel_download] changes none of the downloader's flags
    ([cancel_requested] stays set, as the first call left it) and, like the
    first call, returns [True]; it only tries to interrupt the library once
    more. *)
Theorem C7_cancel_twice (self : TP.YoutubeDownloader) :
  TP.downloading self = true ->
  let first := TP.cancel_download self in
  let second := TP.cancel_download (snd first) in
  fst first = true
  /\ fst second = true
  /\ TP.cancel_requested (snd first) = true
  /\ TP.cancel_requested (snd second) = true
  /\ TP.downloading (snd second) = TP.downloading (snd first)
  /\ TP.ydl_instance (snd second) = TP.ydl_instance (snd first)
  /\ TP.progress_callback (snd second) = TP.progress_callback (snd first)
  /\ TP.current_info (snd second) = TP.current_info (snd first)
  /\ TP.interrupts (snd second)
     = if TP.ydl_instance self then S (TP.interrupts (snd first))
       else TP.interrupts (snd first).
Proof.
  intros Hd first second. subst first second.
  unfold TP.cancel_download. rewrite Hd. cbn.
  repeat split; reflexivity.
Qed.

Lemma C7_cancel_twice_witness :
  let first := TP.cancel_download busy_downloader in
  let second := TP.cancel_download (snd first) in
  fst first = true
  /\ fst second = true
  /\ TP.cancel_requested (snd first) = true
  /\ TP.cancel_requested (snd second) = true
  /\ TP.downloading (snd second) = TP.downloading (snd first)
  /\ TP.ydl_instance (snd second) = TP.ydl_instance (snd first)
  /\ TP.progress_callback (snd second) = TP.progress_callback (snd first)
  /\ TP.current_info (snd second) = TP.current_info (snd first)
  /\ TP.interrupts (snd second)
     = if TP.ydl_instance busy_downloader then S (TP.interrupts (snd first))
       else TP.interrupts (snd first).
Proof. apply (C7_cancel_twice busy_downloader). reflexivity. Defined.

(** *** Cancelling without a handle *)

(** C8, as stated, fails: [cancel_download] takes no handle. After a first
    operation has finished and a second one has started, a cancel request
    that was meant for the first one is accepted and turns the second
    operation's [complete] into [cancelled]. *)
Lemma C8_stale_cancel_hits_running_operation :
  let first := TP.download_video idle_downloader "/dl" (plain_run []) ∅ in
  let second_alone :=
    TP.download_video (TP.final_self first) "/dl"
      (plain_run [TP.Hook (downloading_record (Some 50) (Some 100))]) ∅ in
  let second_with_stale_cancel :=
    TP.download_video (TP.final_self first) "/dl"
      (plain_run [TP.CancelClick;
                  TP.Hook (downloading_record (Some 50) (Some 100))]) ∅ in
  TP.success first = true
  /\ TP.cancel_results second_with_stale_cancel = [true]
  /\ map TP.status (TP.events second_alone)
     = ["downloading"; "complete"]%string
  /\ map TP.status (TP.events second_with_stale_cancel)
     = ["cancelled"%string].
Proof. vm_compute. repeat split; reflexivity. Qed.

(** C8 (amended): [cancel_download] takes no handle. Called while no
    operation is running, it returns [False] and changes nothing, so
    whatever runs later emits the same records; called while an operation
    is running, the request is accepted (it returns [True] and sets
    [cancel_requested]) whichever operation the caller had in mind. *)
Theorem C8_cancel_without_handle (self : TP.YoutubeDownloader)
    (download_dir : string) (sc : TP.run_script) (fs : TP.filesystem) :
  if TP.downloading self then
    fst (TP.cancel_download self) = true
    /\ TP.cancel_requested (snd (TP.cancel_download self)) = true
  else
    TP.cancel_download self = (false, self)
    /\ TP.download_video (snd (TP.cancel_download self)) download_dir sc fs
       = TP.download_video self download_dir sc fs.
Proof.
  destruct (TP.downloading self) eqn:H.
  - destruct (cancel_download_active self H) as (? & ? & ? & _). tauto.
  - rewrite (cancel_download_idle self H). split; reflexivity.
Qed.

(** ** Starting a download from the window ([DownloadManagerApp]) *)

Section Start.

Import PyStr TP.

Lemma validate_directory_false (os : os_env) (directory : string) :
  validate_directory os directory = false
  <-> isdir os directory = false \/ access_w os directory = false.
Proof. unfold validate_directory. apply andb_false_iff. Qed.






End Start.






(** ** Progress records when the total size is unknown *)

(** C5, as stated, fails: with no total size the hooks of
    [YTDownloader2025.py] and of the TP variant still hand a numeric
    percentage to the callback, the default 0. *)
Lemma C5_placeholder_percent_emitted :
  V2025.progress_hook (downloading_record (Some 1000) None) = ([0], None)
  /\ TP.progress_hook busy_downloader (downloading_record (Some 1000) None)
     = ([{| TP.percent := 0; TP.status := "downloading"; TP.error := None |}],
        None).
Proof. split; reflexivity. Qed.

(** C5 (amended): for a raw "downloading" record whose total size is
    unknown, the hook of [YTDownloader2025.py] calls the callback with the
    number 0, and so does the hook of the TP variant while a download runs
    and no cancel request is pending: a placeholder, not a measurement.
    In [YTDownloader2025v7.1.py] no record is delivered: [progress_hook],
    whose placeholder would be 50, is not registered with the library and
    returns at once in the only state the program reaches ([downloading]
    is never set), and the hook that is registered, [update_progress],
    raises [UnboundLocalError] before it reaches the callback when one is
    installed and does nothing otherwise. No record has a total-size
    field. *)
Theorem C5_unknown_total_placeholder (tp v71 : TP.YoutubeDownloader)
    (d : TP.hook_dict) (r : V71Run.hook_record) (callback : bool) :
  TP.d_status d = "downloading"%string ->
  TP.d_total_bytes d = None ->
  TP.d_total_bytes_estimate d = None ->
  TP.progress_callback tp = true ->
  TP.downloading tp = true ->
  TP.cancel_requested tp = false ->
  TP.downloading v71 = false ->
  TP.cancel_requested v71 = false ->
  V71Run.h_status r = "downloading"%string ->
  V71Run.h_total_bytes r = None ->
  V71Run.h_total_bytes_estimate r = None ->
  V2025.progress_hook d = ([0], None)
  /\ TP.progress_hook tp d
     = ([{| TP.percent := 0; TP.status := "downloading"; TP.error := None |}],
        None)
  /\ V71.progress_hook v71 d = ([], None)
  /\ V71Run.update_progress callback r
     = (if callback then Py.Raise (Py.UnboundLocalError "percent")
        else Py.Return []).
Proof.
  intros Hst Ht He Hcb Hdl Hcr Hdl' Hcr' Hst' Ht' He'.
  split; [|split; [|split]].
  - unfold V2025.progress_hook, TP.hook_percent, TP.py_or.
    rewrite Hst, Ht, He. reflexivity.
  - unfold TP.progress_hook, TP.emit, TP.hook_percent, TP.py_or.
    rewrite Hcb, Hdl, Hcr, Hst, Ht, He. reflexivity.
  - unfold V71.progress_hook. rewrite Hdl', Hcr'. reflexivity.
  - unfold V71Run.update_progress, Util.num_or.
    rewrite Hst', Ht', He'. cbn. destruct callback; reflexivity.
Qed.

Lemma C5_unknown_total_placeholder_witness :
  let r := {| V71Run.h_status := "downloading";
              V71Run.h_total_bytes := None;
              V71Run.h_total_bytes_estimate := None;
              V71Run.h_downloaded_bytes := Py.Val (PyNum.Int 1000) |} in
  V2025.progress_hook (downloading_record (Some 1000) None) = ([0], None)
  /\ TP.progress_hook busy_downloader (downloading_record (Some 1000) None)
     = ([{| TP.percent := 0; TP.status := "downloading"; TP.error := None |}],
        None)
  /\ V71.progress_hook idle_downloader (downloading_record (Some 1000) None)
     = ([], None)
  /\ V71Run.update_progress true r
     = Py.Raise (Py.UnboundLocalError "percent").
Proof.
  apply (C5_unknown_total_placeholder busy_downloader idle_downloader
           (downloading_record (Some 1000) None)
           {| V71Run.h_status := "downloading";
              V71Run.h_total_bytes := None;
              V71Run.h_total_bytes_estimate := None;
              V71Run.h_downloaded_bytes := Py.Val (PyNum.Int 1000) |} true);
    reflexivity.
Defined.

(** ** One run of the worker ([YoutubeDownloader.download_video]) *)

Section Worker.

Import TP.
Local Open Scope string_scope.

Lemma emit_Forall (P : progress_info -> Prop) (self : YoutubeDownloader)
    (info : progress_info) :
  P info -> Forall P (emit self info).
Proof.
  intros H. unfold emit. destruct (progress_callback self); auto.
Qed.

Lemma progress_hook_events (self : YoutubeDownloader) (d : hook_dict) :
  Forall (fun info =>
            TP.from_hook info
            /\ (is_terminal info = true -> d_status d = "error"))
         (fst (progress_hook self d)).
Proof.
  unfold progress_hook.
  destruct (negb (downloading self) || cancel_requested self).
  { destruct (_ && _); constructor. }
  destruct (String.eqb_spec (d_status d) "downloading") as [E1|E1].
  { destruct (hook_percent _ _); [|constructor].
    apply emit_Forall. unfold TP.from_hook, is_terminal. cbn.
    split; [tauto | discriminate]. }
  destruct (String.eqb_spec (d_status d) "finished") as [E2|E2].
  { apply emit_Forall. unfold TP.from_hook, is_terminal. cbn.
    split; [tauto | discriminate]. }
  destruct (String.eqb_spec (d_status d) "error") as [E3|E3].
  { apply emit_Forall. unfold TP.from_hook. cbn. tauto. }
  constructor.
Qed.

Lemma ydl_download_events (steps : list lib_step) :
  forall (self : YoutubeDownloader) (result : option exn),
    Forall (fun info =>
              TP.from_hook info
              /\ (is_terminal info = true ->
                  existsb TP.error_step steps = true))
           (fst (fst (fst (ydl_download self steps result)))).
Proof.
  induction steps as [|s steps IH]; intros self result; cbn.
  - constructor.
  - destruct s as [d|].
    + pose proof (progress_hook_events self d) as Hh.
      destruct (progress_hook self d) as [evs [e|]]; cbn in *.
      * eapply Forall_impl; [exact Hh|]. cbn. intros a [H1 H2].
        split; [exact H1|]. intros Ht. rewrite (H2 Ht). reflexivity.
      * specialize (IH self result).
        destruct (ydl_download self steps result) as [[[evs' r] s'] cs].
        cbn in *. apply Forall_app. split.
        -- eapply Forall_impl; [exact Hh|]. cbn. intros a [H1 H2].
           split; [exact H1|]. intros Ht. rewrite (H2 Ht). reflexivity.
        -- eapply Forall_impl; [exact IH|]. cbn. intros a [H1 H2].
           split; [exact H1|]. intros Ht. rewrite (H2 Ht).
           apply orb_true_r.
    + destruct (cancel_download self) as [c self1].
      specialize (IH self1 result).
      destruct (ydl_download self1 steps result) as [[[evs' r] s'] cs].
      exact IH.
Qed.

(** The library call keeps the callback and the [downloading] flag. *)
Lemma ydl_download_state (steps : list lib_step) :
  forall (self : YoutubeDownloader) (result : option exn),
    let self' := snd (fst (ydl_download self steps result)) in
    progress_callback self' = progress_callback self
    /\ downloading self' = downloading self.
Proof.
  induction steps as [|s steps IH]; intros self result; cbn.
  - split; reflexivity.
  - destruct s as [d|].
    + destruct (progress_hook self d) as [evs [e|]]; cbn; [tauto|].
      specialize (IH self result).
      destruct (ydl_download self steps result) as [[[evs' r] s'] cs].
      exact IH.
    + unfold cancel_download.
      destruct (downloading self) eqn:Hd.
      * match goal with
        | |- context [ydl_download ?s1 steps result] =>
            specialize (IH s1 result);
            destruct (ydl_download s1 steps result) as [[[evs' r] s'] cs]
        end.
        cbn in *. rewrite ?Hd in *. exact IH.
      * specialize (IH self result).
        destruct (ydl_download self steps result) as [[[evs' r] s'] cs].
        cbn in *. rewrite Hd in IH. exact IH.
Qed.

(** Each handler delivers one terminal record, never "complete". *)
Lemma handle_exception_events (rr : string -> bool)
    (self : YoutubeDownloader) (download_dir : string) (e : exn)
    (fs : filesystem) :
  progress_callback self = true ->
  exists last,
    fst (handle_exception rr self download_dir e fs) = [last]
    /\ (status last = "cancelled" \/ status last = "error")
    /\ (e = DownloadCancelledError -> status last = "cancelled")
    /\ (e <> DownloadCancelledError -> status last = "error").
Proof.
  intros Hcb. unfold handle_exception, emit. rewrite Hcb.
  destruct e; eexists; cbn; (split; [reflexivity|]);
    repeat split; intros; try tauto; try congruence.
Qed.

End Worker.

(** C1, as stated, fails: while no cancel request is pending, a raw
    record with the status "error" is forwarded by the hook as an "error"
    record while the library call goes on. Whether the call then returns
    or raises, [download_video] delivers its own terminal record as well:
    two terminal records, the second after the first. *)
Lemma C1_error_record_then_second_terminal :
  map TP.status
      (TP.events (TP.download_video idle_downloader "/dl"
                    (plain_run [TP.Hook error_record]) ∅))
  = ["error"; "complete"]%string
  /\ map TP.status
       (TP.events (TP.download_video idle_downloader "/dl"
                     failing_run ∅))
     = ["error"; "error"]%string
  /\ forallb TP.is_terminal
       (TP.events (TP.download_video idle_downloader "/dl"
                     (plain_run [TP.Hook error_record]) ∅))
     = true.
Proof. vm_compute. repeat split; reflexivity. Qed.

(** C1 (amended): every call of [download_video] on a downloader with a
    callback delivers a terminal record as its last record: "complete" when
    it succeeds, "cancelled" or "error" otherwise, also when the library
    raises an exception of any class (the catch-all handler reports
    "error"). The records delivered before it come from the progress hook
    and have the status "downloading", "converting" or "error"; one of
    them can be terminal only when the library passed a raw record with
    the status "error" to the hook, which the hook of a running download
    forwards as an "error" record while no cancel request is pending and
    drops once one is. When the library reports no error through the
    hook, exactly one terminal record is delivered and nothing follows
    it. *)
Theorem C1_terminal_record_last (self : TP.YoutubeDownloader)
    (download_dir : string) (sc : TP.run_script) (fs : TP.filesystem) :
  TP.progress_callback self = true ->
  let out := TP.download_video self download_dir sc fs in
  exists earlier last,
    TP.events out = earlier ++ [last]
    /\ TP.is_terminal last = true
    /\ (TP.success out = true -> TP.status last = "complete"%string)
    /\ (TP.success out = false ->
        TP.status last = "cancelled"%string \/ TP.status last = "error"%string)
    /\ Forall TP.from_hook earlier
    /\ (existsb TP.error_step (TP.download_steps sc) = false ->
        Forall (fun info => TP.is_terminal info = false) earlier)
    /\ (forall running d,
          TP.progress_callback running = true ->
          TP.downloading running = true ->
          TP.d_status d = "error"%string ->
          TP.progress_hook running d
          = (if TP.cancel_requested running then []
             else [{| TP.percent := 0; TP.status := "error";
                      TP.error :=
                        Some (default "Unknown error"%string
                                (TP.d_error d)) |}],
             None)).
Proof.
  intros Hcb out. subst out.
  assert (Hhook : forall running d,
            TP.progress_callback running = true ->
            TP.downloading running = true ->
            TP.d_status d = "error"%string ->
            TP.progress_hook running d
            = (if TP.cancel_requested running then []
               else [{| TP.percent := 0; TP.status := "error";
                        TP.error :=
                          Some (default "Unknown error"%string
                                  (TP.d_error d)) |}],
               None)).
  { intros running d Hc Hd Hs. unfold TP.progress_hook, TP.emit.
    rewrite Hc, Hd, Hs. cbn [negb orb].
    destruct (TP.cancel_requested running); reflexivity. }
  assert (Hmain : let out := TP.download_video self download_dir sc fs in
    exists earlier last,
    TP.events out = earlier ++ [last]
    /\ TP.is_terminal last = true
    /\ (TP.success out = true -> TP.status last = "complete"%string)
    /\ (TP.success out = false ->
        TP.status last = "cancelled"%string \/ TP.status last = "error"%string)
    /\ Forall TP.from_hook earlier
    /\ (existsb TP.error_step (TP.download_steps sc) = false ->
        Forall (fun info => TP.is_terminal info = false) earlier));
    [|destruct Hmain as (earlier & last & H1 & H2 & H3 & H4 & H5 & H6);
      exists earlier, last; repeat split; auto].
  unfold TP.download_video.
  set (self1 := TP.set_flags (TP.set_flags self true false _) true false true).
  assert (Hcb1 : TP.progress_callback self1 = true) by exact Hcb.
  assert (Hcb2 : TP.progress_callback (snd (TP.early_cancel sc self1))
                 = true).
  { unfold TP.early_cancel. destruct (TP.cancel_before_download sc); cbn;
      exact Hcb1. }
  destruct (TP.early_cancel sc self1) as [cs0 self2].
  cbn [snd] in Hcb2.
  assert (Hfail : forall self' e fs' evs title cs,
            TP.progress_callback self' = true ->
            Forall TP.from_hook evs ->
            (existsb TP.error_step (TP.download_steps sc) = false ->
             Forall (fun info => TP.is_terminal info = false) evs) ->
            let out := TP.failed_run (TP.remove_raises sc) self' download_dir
                         e fs' evs title cs in
            exists earlier last,
              TP.events out = earlier ++ [last]
              /\ TP.is_terminal last = true
              /\ (TP.success out = true -> TP.status last = "complete"%string)
              /\ (TP.success out = false ->
                  TP.status last = "cancelled"%string
                  \/ TP.status last = "error"%string)
              /\ Forall TP.from_hook earlier
              /\ (existsb TP.error_step (TP.download_steps sc) = false ->
                  Forall (fun info => TP.is_terminal info = false) earlier)).
  { intros self' e fs' evs title cs Hcb' Hfrom Hnone.
    destruct (handle_exception_events (TP.remove_raises sc) self'
                download_dir e fs' Hcb')
      as (last & Hev & Hst & _).
    exists evs, last. cbn. rewrite Hev.
    repeat split; auto; try discriminate.
    unfold TP.is_terminal. destruct Hst as [-> | ->]; reflexivity. }
  destruct (match TP.setup_raises sc with
            | Some e => inr e
            | None => match TP.current_info self2 with
                      | Some title => inl title
                      | None => TP.extract_info_result sc
                      end
            end) as [title|e].
  2:{ apply Hfail; auto. }
  destruct (TP.cancel_requested self2).
  { apply Hfail; auto. }
  pose proof (ydl_download_events (TP.download_steps sc) self2
                (TP.download_result sc)) as Hevs.
  pose proof (ydl_download_state (TP.download_steps sc) self2
                (TP.download_result sc)) as [Hcb3 _].
  destruct (TP.ydl_download self2 (TP.download_steps sc)
              (TP.download_result sc)) as [[[evs raised] self3] cs].
  cbn in Hevs, Hcb3. rewrite Hcb2 in Hcb3.
  assert (Hearlier : Forall TP.from_hook evs
                     /\ (existsb TP.error_step (TP.download_steps sc) = false ->
                         Forall (fun info => TP.is_terminal info = false)
                                evs)).
  { split.
    - eapply Forall_impl; [exact Hevs|]. cbn. tauto.
    - intros Hno. eapply Forall_impl; [exact Hevs|]. cbn.
      intros a [_ H]. destruct (TP.is_terminal a); [|reflexivity].
      rewrite Hno in H. symmetry. apply H. reflexivity. }
  destruct raised as [e|].
  - apply Hfail; tauto.
  - unfold TP.emit. rewrite Hcb3. eexists evs, _. cbn.
    repeat split; try tauto; try discriminate.
Qed.

Lemma C1_terminal_record_last_witness :
  let out := TP.download_video idle_downloader "/dl" crashing_run ∅ in
  (exists earlier last,
     TP.events out = earlier ++ [last]
     /\ TP.is_terminal last = true
     /\ (TP.success out = true -> TP.status last = "complete"%string)
     /\ (TP.success out = false ->
         TP.status last = "cancelled"%string
         \/ TP.status last = "error"%string)
     /\ Forall TP.from_hook earlier
     /\ (existsb TP.error_step (TP.download_steps crashing_run) = false ->
         Forall (fun info => TP.is_terminal info = false) earlier))
  /\ TP.success out = false
  /\ existsb TP.error_step (TP.download_steps crashing_run) = false
  /\ TP.progress_hook busy_downloader error_record = ([error_info], None)
  /\ TP.progress_hook (snd (TP.cancel_download busy_downloader)) error_record
     = ([], None).
Proof.
  destruct (C1_terminal_record_last idle_downloader "/dl" crashing_run ∅
              eq_refl)
    as (earlier & last & H1 & H2 & H3 & H4 & H5 & H6 & Hhook).
  split; [exists earlier, last; repeat split; assumption|].
  split; [reflexivity|]. split; [reflexivity|]. split.
  - apply (Hhook busy_downloader error_record); reflexivity.
  - apply (Hhook (snd (TP.cancel_download busy_downloader)) error_record);
      reflexivity.
Defined.

Section CancelDuringRun.

Import TP.
Local Open Scope string_scope.

(** Once a cancel request is recorded, the next raw "downloading" record
    makes the hook raise, which ends the library call. *)
Lemma ydl_download_cancelled (steps : list lib_step) :
  forall (self : YoutubeDownloader) (result : option exn) (d : hook_dict),
    downloading self = true ->
    cancel_requested self = true ->
    In (Hook d) steps ->
    d_status d = "downloading" ->
    exists e, snd (fst (fst (ydl_download self steps result))) = Some e.
Proof.
  induction steps as [|s steps IH]; intros self result d Hdl Hcr Hin Hst.
  - destruct Hin.
  - cbn. destruct s as [d'|].
    + unfold progress_hook. rewrite Hdl, Hcr. cbn.
      destruct (String.eqb_spec (d_status d') "downloading") as [E|E].
      * eexists. reflexivity.
      * destruct Hin as [Heq|Hin]; [congruence|].
        destruct (IH self result d Hdl Hcr Hin Hst) as [e He].
        destruct (ydl_download self steps result) as [[[evs' r] s'] cs].
        exists e. exact He.
    + destruct Hin as [Heq|Hin]; [discriminate|].
      destruct (cancel_download_active self Hdl) as (_ & Hdl1 & Hcr1 & _).
      destruct (cancel_download self) as [c self1]. cbn in Hdl1, Hcr1.
      destruct (IH self1 result d Hdl1 Hcr1 Hin Hst) as [e He].
      destruct (ydl_download self1 steps result) as [[[evs' r] s'] cs].
      exists e. exact He.
Qed.

Lemma ydl_download_cancel_click (pre : list lib_step) :
  forall (self : YoutubeDownloader) (result : option exn)
         (post : list lib_step) (d : hook_dict),
    downloading self = true ->
    In (Hook d) post ->
    d_status d = "downloading" ->
    exists e,
      snd (fst (fst (ydl_download self (pre ++ CancelClick :: post)%list
                       result)))
      = Some e.
Proof.
  induction pre as [|s pre IH]; intros self result post d Hdl Hin Hst.
  - cbn.
    destruct (cancel_download_active self Hdl) as (_ & Hdl1 & Hcr1 & _).
    destruct (cancel_download self) as [c self1]. cbn in Hdl1, Hcr1.
    destruct (ydl_download_cancelled post self1 result d Hdl1 Hcr1 Hin Hst)
      as [e He].
    destruct (ydl_download self1 post result) as [[[evs' r] s'] cs].
    exists e. exact He.
  - cbn. destruct s as [d'|].
    + destruct (progress_hook self d') as [evs [e|]].
      * exists e. reflexivity.
      * destruct (IH self result post d Hdl Hin Hst) as [e He].
        destruct (ydl_download self (pre ++ CancelClick :: post) result)
          as [[[evs' r] s'] cs].
        exists e. exact He.
    + destruct (cancel_download_active self Hdl) as (_ & Hdl1 & _).
      destruct (cancel_download self) as [c self1]. cbn in Hdl1.
      destruct (IH self1 result post d Hdl1 Hin Hst) as [e He].
      destruct (ydl_download self1 (pre ++ CancelClick :: post) result)
        as [[[evs' r] s'] cs].
      exists e. exact He.
Qed.

(** A failed run ends with "cancelled" or "error" and, when the records
    before the handler came from the hook, contains no "complete". *)
Lemma failed_run_not_complete (rr : string -> bool)
    (self : YoutubeDownloader)
    (download_dir : string) (e : exn) (fs : filesystem)
    (evs : list progress_info) (title : string) (cs : list bool) :
  progress_callback self = true ->
  Forall TP.from_hook evs ->
  let out := failed_run rr self download_dir e fs evs title cs in
  success out = false
  /\ Forall (fun info => status info <> "complete") (events out)
  /\ exists earlier last,
       events out = (earlier ++ [last])%list
       /\ (status last = "cancelled" \/ status last = "error").
Proof.
  intros Hcb Hfrom.
  destruct (handle_exception_events rr self download_dir e fs Hcb)
    as (last & Hev & Hst & _).
  cbn. rewrite Hev. split; [reflexivity|]. split.
  - apply Forall_app. split.
    + eapply Forall_impl; [exact Hfrom|]. unfold TP.from_hook.
      intros a [H|[H|H]]; rewrite H; discriminate.
    + constructor; [|constructor].
      destruct Hst as [H|H]; rewrite H; discriminate.
  - exists evs, last. split; [reflexivity | exact Hst].
Qed.

End CancelDuringRun.

(** C4, as stated, fails: the hook raises the cancellation only on a raw
    "downloading" record. A request accepted after the last such record is
    never acted upon, and the run ends with "complete". *)
Lemma C4_late_cancel_completes :
  let out := TP.download_video idle_downloader "/dl" late_cancel_run ∅ in
  TP.cancel_results out = [true]
  /\ map TP.status (TP.events out) = ["downloading"; "complete"]%string
  /\ TP.success out = true.
Proof. vm_compute. repeat split; reflexivity. Qed.

(** C4 (amended): when a cancel request is made before the transfer starts,
    or during the transfer and the library delivers at least one more raw
    "downloading" record after it, the run fails, its last record is
    "cancelled" or "error", and no "complete" record is delivered. A
    request that no raw "downloading" record follows does not stop the
    run. *)
Theorem C4_cancel_followed_by_downloading_record
    (self : TP.YoutubeDownloader) (download_dir : string)
    (sc : TP.run_script) (fs : TP.filesystem) :
  TP.progress_callback self = true ->
  (TP.cancel_before_download sc = true
   \/ exists pre post d,
        TP.download_steps sc = pre ++ TP.CancelClick :: post
        /\ In (TP.Hook d) post
        /\ TP.d_status d = "downloading"%string) ->
  let out := TP.download_video self download_dir sc fs in
  TP.success out = false
  /\ Forall (fun info => TP.status info <> "complete"%string) (TP.events out)
  /\ exists earlier last,
       TP.events out = earlier ++ [last]
       /\ (TP.status last = "cancelled"%string
           \/ TP.status last = "error"%string).
Proof.
  intros Hcb Hcancel out. subst out. unfold TP.download_video.
  set (self1 := TP.set_flags (TP.set_flags self true false _) true false true).
  assert (H2 : TP.progress_callback (snd (TP.early_cancel sc self1)) = true
               /\ TP.downloading (snd (TP.early_cancel sc self1)) = true
               /\ (TP.cancel_before_download sc = true ->
                   TP.cancel_requested (snd (TP.early_cancel sc self1))
                   = true)).
  { unfold TP.early_cancel.
    destruct (TP.cancel_before_download sc); cbn;
      repeat split; auto; discriminate. }
  destruct (TP.early_cancel sc self1) as [cs0 self2]. cbn [snd] in H2.
  destruct H2 as (Hcb2 & Hdl2 & Hcr2).
  destruct (match TP.setup_raises sc with
            | Some e => inr e
            | None => match TP.current_info self2 with
                      | Some title => inl title
                      | None => TP.extract_info_result sc
                      end
            end) as [title|e].
  2:{ apply failed_run_not_complete; auto. }
  destruct (TP.cancel_requested self2) eqn:Hcr.
  { apply failed_run_not_complete; auto. }
  destruct Hcancel as [Hearly | (pre & post & d & Hsteps & Hin & Hst)].
  { specialize (Hcr2 Hearly). congruence. }
  pose proof (ydl_download_events (TP.download_steps sc) self2
                (TP.download_result sc)) as Hevs.
  pose proof (ydl_download_state (TP.download_steps sc) self2
                (TP.download_result sc)) as [Hcb3 _].
  pose proof (ydl_download_cancel_click pre self2 (TP.download_result sc)
                post d Hdl2 Hin Hst) as [e He].
  rewrite <- Hsteps in He.
  destruct (TP.ydl_download self2 (TP.download_steps sc)
              (TP.download_result sc)) as [[[evs raised] self3] cs].
  cbn in Hevs, Hcb3, He. subst raised. rewrite Hcb2 in Hcb3.
  apply failed_run_not_complete; [exact Hcb3|].
  eapply Forall_impl; [exact Hevs|]. cbn. tauto.
Qed.

Lemma C4_cancel_followed_by_downloading_record_witness :
  let out := TP.download_video idle_downloader "/dl" cancelled_run ∅ in
  TP.success out = false
  /\ Forall (fun info => TP.status info <> "complete"%string) (TP.events out)
  /\ exists earlier last,
       TP.events out = earlier ++ [last]
       /\ (TP.status last = "cancelled"%string
           \/ TP.status last = "error"%string).
Proof.
  apply (C4_cancel_followed_by_downloading_record idle_downloader "/dl"
           cancelled_run ∅).
  - reflexivity.
  - right.
    exists [TP.Hook (downloading_record (Some 50) (Some 100))],
           [TP.Hook (downloading_record (Some 60) (Some 100))],
           (downloading_record (Some 60) (Some 100)).
    split; [reflexivity|]. split; [left; reflexivity | reflexivity].
Defined.

(** ** Cleaning up temporary files ([_cleanup_temp_files]) *)

Section Cleanup.

Import PyStr TP.
Local Open Scope string_scope.

Lemma append_cons (c : ascii) (a b : string) :
  String c a ++ b = String c (a ++ b).
Proof. reflexivity. Qed.

Lemma substring_all (s : string) : substring 0 (String.length s) s = s.
Proof. induction s as [|c s IH]; cbn; congruence. Qed.

Lemma substring_split (s : string) :
  forall k : nat,
    (k <= String.length s)%nat ->
    s = substring 0 k s ++ substring k (String.length s - k) s.
Proof.
  induction s as [|c s IH]; intros k Hk.
  - destruct k; [reflexivity | cbn in Hk; lia].
  - destruct k as [|k].
    + rewrite Nat.sub_0_r, substring_all. reflexivity.
    + cbn in Hk. cbn. rewrite append_cons. f_equal. apply IH. lia.
Qed.

Lemma substring_append_tail (p suffix : string) :
  substring (String.length p) (String.length suffix) (p ++ suffix) = suffix.
Proof.
  induction p as [|c p IH].
  - apply substring_all.
  - rewrite append_cons. exact IH.
Qed.

Lemma length_append (a b : string) :
  String.length (a ++ b) = (String.length a + String.length b)%nat.
Proof.
  induction a as [|c a IH]; [reflexivity|].
  rewrite append_cons. cbn. congruence.
Qed.

(** [endswith] holds exactly when the string is some stem followed by the
    suffix. *)
Lemma endswith_spec (s suffix : string) :
  endswith s suffix = true <-> exists stem, s = stem ++ suffix.
Proof.
  unfold endswith. split.
  - intros H. apply andb_true_iff in H as [Hlen Heq].
    apply Nat.leb_le in Hlen. apply String.eqb_eq in Heq.
    exists (substring 0 (String.length s - String.length suffix) s).
    pose proof (substring_split s
                  (String.length s - String.length suffix)) as Hs.
    replace (String.length s - (String.length s - String.length suffix))%nat
      with (String.length suffix) in Hs by lia.
    rewrite Heq in Hs. apply Hs. lia.
  - intros [stem ->]. rewrite length_append.
    apply andb_true_iff. split.
    + apply Nat.leb_le. lia.
    + replace (String.length stem + String.length suffix
               - String.length suffix)%nat
        with (String.length stem) by lia.
      rewrite substring_append_tail. apply String.eqb_refl.
Qed.

Lemma is_temp_spec (file : string) :
  is_temp file = true
  <-> exists stem ext, In ext temp_extensions /\ file = stem ++ ext.
Proof.
  unfold is_temp. rewrite existsb_exists. split.
  - intros (ext & Hin & He). apply endswith_spec in He as [stem ->].
    exists stem, ext. auto.
  - intros (stem & ext & Hin & ->). exists ext. split; [exact Hin|].
    apply endswith_spec. exists stem. reflexivity.
Qed.

Lemma cleanup_step_lookup (rr : string -> bool) (directory : string)
    (files : gmap string entry) (file name : string) :
  cleanup_step rr directory files file !! name
  = TP.after_cleanup rr directory [file] name (files !! name).
Proof.
  unfold cleanup_step, try_remove, TP.after_cleanup.
  destruct (decide (name = file)) as [->|Hne].
  - rewrite bool_decide_eq_true_2 by apply list_elem_of_here.
    rewrite andb_true_r.
    destruct (is_temp file); cbn [andb].
    + destruct (files !! file) as [[c|]|] eqn:E;
        [|rewrite E; reflexivity..].
      destruct (rr (path_join directory file)); cbn [negb];
        [exact E|apply lookup_delete_eq].
    + destruct (files !! file) as [[c|]|]; reflexivity.
  - rewrite bool_decide_eq_false_2
      by (rewrite list_elem_of_singleton; exact Hne).
    rewrite andb_false_r. cbn [andb].
    assert (H : (if is_temp file
                 then match files !! file with
                      | Some (RegularFile _) =>
                          if rr (path_join directory file) then files
                          else delete file files
                      | _ => files
                      end
                 else files) !! name = files !! name).
    { destruct (is_temp file); [|reflexivity].
      destruct (files !! file) as [[c|]|]; try reflexivity.
      destruct (rr (path_join directory file)); [reflexivity|].
      apply lookup_delete_ne. congruence. }
    rewrite H. destruct (files !! name) as [[c|]|]; reflexivity.
Qed.

Lemma foldl_cleanup_lookup (rr : string -> bool) (directory : string)
    (names : list string) :
  forall (files : gmap string entry) (name : string),
    foldl (cleanup_step rr directory) files names !! name
    = TP.after_cleanup rr directory names name (files !! name).
Proof.
  induction names as [|file names IH]; intros files name; cbn [foldl].
  - unfold TP.after_cleanup.
    rewrite bool_decide_eq_false_2 by apply not_elem_of_nil.
    rewrite andb_false_r. cbn [andb].
    destruct (files !! name) as [[c|]|]; reflexivity.
  - rewrite IH, cleanup_step_lookup. unfold TP.after_cleanup.
    destruct (files !! name) as [[c|]|]; try reflexivity.
    destruct (is_temp name); cbn [andb]; [|reflexivity].
    destruct (rr (path_join directory name)); cbn [negb];
      rewrite ?andb_false_r, ?andb_true_r; [reflexivity|].
    destruct (decide (name = file)) as [->|Hne].
    + rewrite !bool_decide_eq_true_2 by apply list_elem_of_here.
      reflexivity.
    + rewrite (bool_decide_eq_false_2 (name ∈ [file]))
        by (rewrite list_elem_of_singleton; exact Hne).
      destruct (decide (name ∈ names)) as [Hin|Hnin].
      * rewrite (bool_decide_eq_true_2 (name ∈ names)) by exact Hin.
        rewrite (bool_decide_eq_true_2 (name ∈ file :: names))
          by (apply list_elem_of_further; exact Hin).
        reflexivity.
      * rewrite (bool_decide_eq_false_2 (name ∈ names)) by exact Hnin.
        rewrite (bool_decide_eq_false_2 (name ∈ file :: names))
          by (apply not_elem_of_cons; split; assumption).
        reflexivity.
Qed.

Lemma listdir_complete (files : gmap string entry) (name : string) :
  is_Some (files !! name) -> name ∈ map fst (map_to_list files).
Proof.
  intros [e He]. apply list_elem_of_In, in_map_iff.
  exists (name, e). split; [reflexivity|].
  apply list_elem_of_In, elem_of_map_to_list. exact He.
Qed.

End Cleanup.

(** C10, as stated, fails: a file with one of the suffixes stays when
    [os.remove] raises on it, since the handler inside the loop only logs
    the failure. Here the operating system refuses to remove one of the
    three temporary files of the download directory: a successful
    download ends with that file still there. *)
Lemma C10_file_stays_when_remove_raises :
  let out := TP.download_video idle_downloader "/dl" locked_run sample_fs in
  TP.is_temp "clip.f137.mp4" = true
  /\ TP.success out = true
  /\ TP.final_fs out
     = TP._cleanup_temp_files (TP.remove_raises locked_run) "/dl" sample_fs
  /\ (TP.final_fs out !! "/dl"%string
        ≫= fun files => files !! "clip.f137.mp4"%string)
     = Some (TP.RegularFile "video stream")
  /\ (TP.final_fs out !! "/dl"%string
        ≫= fun files => files !! "clip.f140.m4a"%string)
     = None.
Proof. vm_compute. repeat split; reflexivity. Qed.

(** C10 (amended): [_cleanup_temp_files] goes through the directory it is
    given and calls [os.remove] on every name that ends with one of the
    eight suffixes. A regular file with such a name is removed, whether
    or not the current download produced it, unless [os.remove] raises
    for it: then it stays as it was. Nothing else changes: files with
    other names, subdirectories (also those with such a name) and other
    directories stay as they are. After a successful download it has
    been applied to the download directory itself. *)
Theorem C10_cleanup_removes_files_by_suffix (remove_raises : string -> bool)
    (fs : TP.filesystem) (directory : string)
    (files : gmap string TP.entry) :
  fs !! directory = Some files ->
  exists files',
    TP._cleanup_temp_files remove_raises directory fs !! directory = Some files'
    /\ (forall name content,
          files !! name = Some (TP.RegularFile content) ->
          TP.is_temp name = true ->
          files' !! name
          = if remove_raises (PyStr.path_join directory name)
            then Some (TP.RegularFile content) else None)
    /\ (forall name, TP.is_temp name = false -> files' !! name = files !! name)
    /\ (forall name,
          files !! name = Some TP.Directory ->
          files' !! name = Some TP.Directory)
    /\ (forall name, files !! name = None -> files' !! name = None)
    /\ (forall other,
          other <> directory ->
          TP._cleanup_temp_files remove_raises directory fs !! other
          = fs !! other)
    /\ (forall name,
          TP.is_temp name = true
          <-> exists stem ext,
                In ext [".part"; ".temp"; ".f140.mp4"; ".f137.mp4";
                        ".f401.mp4"; ".m4a"; ".webm"; ".ytdl"]%string
                /\ name = (stem ++ ext)%string)
    /\ (forall self sc fs0,
          TP.remove_raises sc = remove_raises ->
          TP.library_writes sc fs0 = fs ->
          TP.success (TP.download_video self directory sc fs0) = true ->
          TP.final_fs (TP.download_video self directory sc fs0)
          = TP._cleanup_temp_files remove_raises directory fs).
Proof.
  intros Hdir. unfold TP._cleanup_temp_files at 1 2. rewrite Hdir.
  eexists. split; [apply lookup_insert_eq|].
  split; [|split; [|split; [|split; [|split; [|split]]]]].
  - intros name content Hfile Htemp. rewrite foldl_cleanup_lookup, Hfile.
    unfold TP.after_cleanup. rewrite Htemp.
    rewrite bool_decide_eq_true_2
      by (apply listdir_complete; rewrite Hfile; eexists; reflexivity).
    cbn [andb].
    destruct (remove_raises (PyStr.path_join directory name)); reflexivity.
  - intros name Htemp. rewrite foldl_cleanup_lookup. unfold TP.after_cleanup.
    rewrite Htemp. destruct (files !! name) as [[c|]|]; reflexivity.
  - intros name Hd. rewrite foldl_cleanup_lookup, Hd. reflexivity.
  - intros name Hn. rewrite foldl_cleanup_lookup, Hn. reflexivity.
  - intros other Hne. apply lookup_insert_ne. congruence.
  - intros name. apply is_temp_spec.
  - intros self sc fs0 Hrr Hw. unfold TP.download_video.
    destruct (TP.early_cancel sc _) as [cs0 self2].
    destruct (match TP.setup_raises sc with
              | Some e => inr e
              | None => match TP.current_info self2 with
                        | Some title => inl title
                        | None => TP.extract_info_result sc
                        end
              end) as [title|e]; [|discriminate].
    destruct (TP.cancel_requested self2); [discriminate|].
    destruct (TP.ydl_download self2 (TP.download_steps sc)
                (TP.download_result sc)) as [[[evs raised] self3] cs].
    destruct raised; [discriminate|]. cbn. rewrite Hw, Hrr. reflexivity.
Qed.

Lemma C10_cleanup_removes_files_by_suffix_witness :
  exists files',
    TP._cleanup_temp_files (TP.remove_raises locked_run) "/dl" sample_fs
      !! "/dl"%string = Some files'
    /\ files' !! "clip.f137.mp4"%string
       = Some (TP.RegularFile "video stream")
    /\ files' !! "clip.f140.m4a"%string = None
    /\ files' !! "holiday.webm"%string = None
    /\ files' !! "clip.mp4"%string = Some (TP.RegularFile "video")
    /\ files' !! "queue.part"%string = Some TP.Directory
    /\ TP._cleanup_temp_files (TP.remove_raises locked_run) "/dl" sample_fs
         !! "/home"%string
       = sample_fs !! "/home"%string
    /\ TP.final_fs (TP.download_video idle_downloader "/dl" locked_run
                      sample_fs) !! "/dl"%string
       = Some files'.
Proof.
  destruct (C10_cleanup_removes_files_by_suffix (TP.remove_raises locked_run)
              sample_fs "/dl"
              {[ "clip.mp4"%string := TP.RegularFile "video";
                 "clip.f137.mp4"%string := TP.RegularFile "video stream";
                 "clip.f140.m4a"%string := TP.RegularFile "audio stream";
                 "holiday.webm"%string := TP.RegularFile "an older download";
                 "queue.part"%string := TP.Directory ]} eq_refl)
    as (files' & Hdir & Hdel & Hkeep & Hsub & _ & Hother & _ & Hrun).
  exists files'. split; [exact Hdir|].
  split; [rewrite (Hdel "clip.f137.mp4" "video stream")%string
            by reflexivity; reflexivity|].
  split; [rewrite (Hdel "clip.f140.m4a" "audio stream")%string
            by reflexivity; reflexivity|].
  split; [rewrite (Hdel "holiday.webm" "an older download")%string
            by reflexivity; reflexivity|].
  split; [rewrite Hkeep; reflexivity|].
  split; [apply Hsub; reflexivity|].
  split; [apply Hother; discriminate|].
  rewrite (Hrun idle_downloader locked_run sample_fs eq_refl eq_refl eq_refl).
  exact Hdir.
Defined.

(** ** Choosing a free destination name ([YTDownloader2025v7.1.py]) *)

Section Collision.

Import PyStr V71.
Local Open Scope string_scope.

Lemma str_of_nat_inj (n m : nat) : str_of_nat n = str_of_nat m -> n = m.
Proof.
  unfold str_of_nat. intros H.
  assert (Hu : Some (Nat.to_uint n) = Some (Nat.to_uint m)).
  { rewrite <- !NilEmpty.usu. rewrite H. reflexivity. }
  injection Hu as Hu.
  rewrite <- (Unsigned.of_to n), <- (Unsigned.of_to m), Hu. reflexivity.
Qed.

Lemma append_inv_head (a b c : string) : a ++ b = a ++ c -> b = c.
Proof.
  induction a as [|x a IH]; intros H; [exact H|].
  rewrite !append_cons in H. injection H as H. auto.
Qed.

Lemma append_inv_tail (c : string) :
  forall a b : string, a ++ c = b ++ c -> a = b.
Proof.
  induction a as [|x a IH]; intros b H.
  - destruct b as [|y b]; [reflexivity|].
    apply (f_equal String.length) in H. rewrite !length_append in H.
    cbn in H. lia.
  - destruct b as [|y b].
    + apply (f_equal String.length) in H. rewrite !length_append in H.
      cbn in H. lia.
    + rewrite !append_cons in H. injection H as Hx H.
      rewrite Hx, (IH b H). reflexivity.
Qed.

Lemma numbered_filename_inj (base_filename final_ext : string)
    (i j : nat) :
  numbered_filename base_filename final_ext i
  = numbered_filename base_filename final_ext j ->
  i = j.
Proof.
  unfold numbered_filename.
  destruct (String.eqb final_ext "mp3"); intros H;
    apply append_inv_head in H; apply append_inv_head in H;
    apply append_inv_tail in H; apply str_of_nat_inj; exact H.
Qed.

Lemma numbered_filename_absolute (base_filename final_ext : string)
    (i j : nat) :
  is_absolute (numbered_filename base_filename final_ext i)
  = is_absolute (numbered_filename base_filename final_ext j).
Proof.
  unfold numbered_filename.
  destruct (String.eqb final_ext "mp3"); destruct base_filename;
    reflexivity.
Qed.

Lemma candidate_inj (download_dir base_filename final_ext : string)
    (i j : nat) :
  V71.candidate download_dir base_filename final_ext i
  = V71.candidate download_dir base_filename final_ext j ->
  i = j.
Proof.
  unfold V71.candidate, path_join.
  rewrite (numbered_filename_absolute base_filename final_ext i j).
  destruct (is_absolute (numbered_filename base_filename final_ext j)).
  - apply numbered_filename_inj.
  - destruct (String.eqb download_dir "" || endswith download_dir "/");
      intros H; apply append_inv_head in H;
      try apply append_inv_head in H;
      apply numbered_filename_inj in H; exact H.
Qed.

End Collision.

Section FreePath.

Import PyStr V71.
Local Open Scope string_scope.

Variable fs : gmap string TP.entry.
Variables download_dir base_filename final_ext : string.

Let cand := V71.candidate download_dir base_filename final_ext.
Let loop := free_path fs download_dir base_filename final_ext.

Lemma free_path_step (fuel : nat) (final_path : string) (counter : nat) :
  loop (S fuel) final_path counter
  = if path_exists fs final_path
    then loop fuel (cand counter) (S counter)
    else Some final_path.
Proof. reflexivity. Qed.

Lemma path_exists_false (path : string) :
  path_exists fs path = false <-> fs !! path = None.
Proof.
  unfold path_exists. rewrite bool_decide_eq_false.
  rewrite <- eq_None_not_Some. reflexivity.
Qed.

(** The result of the loop is a path that does not exist: either the
    first one, or the candidate of the first counter value whose
    candidate is free. *)
Lemma free_path_some (fuel : nat) :
  forall (final_path : string) (counter : nat) (r : string),
    loop fuel final_path counter = Some r ->
    fs !! r = None
    /\ ((path_exists fs final_path = false /\ r = final_path)
        \/ (path_exists fs final_path = true
            /\ exists k : nat,
                 (counter <= k)%nat /\ r = cand k
                 /\ forall i : nat,
                      (counter <= i < k)%nat ->
                      path_exists fs (cand i) = true)).
Proof.
  induction fuel as [|fuel IH]; intros final_path counter r H.
  - discriminate.
  - rewrite free_path_step in H.
    destruct (path_exists fs final_path) eqn:E.
    + apply IH in H as [Hfree Hr]. split; [exact Hfree|]. right.
      split; [reflexivity|].
      destruct Hr as [[Hc ->] | (Hc & k & Hk & -> & Hall)].
      * exists counter. split; [lia|]. split; [reflexivity|].
        intros i Hi. lia.
      * exists k. split; [lia|]. split; [reflexivity|].
        intros i Hi. destruct (decide (i = counter)) as [->|Hne].
        -- exact Hc.
        -- apply Hall. lia.
    + injection H as <-. split; [apply path_exists_false; exact E|].
      left. split; reflexivity.
Qed.

(** When the loop runs out of fuel, every candidate it tried exists. *)
Lemma free_path_none (fuel : nat) :
  forall (final_path : string) (counter : nat),
    loop (S fuel) final_path counter = None ->
    forall i : nat,
      (counter <= i < counter + fuel)%nat ->
      path_exists fs (cand i) = true.
Proof.
  induction fuel as [|fuel IH]; intros final_path counter H i Hi.
  - lia.
  - rewrite free_path_step in H.
    destruct (path_exists fs final_path); [|discriminate].
    destruct (decide (i = counter)) as [->|Hne].
    + rewrite free_path_step in H.
      destruct (path_exists fs (cand counter)); [reflexivity|discriminate].
    + apply (IH (cand counter) (S counter)); [exact H | lia].
Qed.

(** More fuel does not change a result. *)
Lemma free_path_more_fuel (fuel : nat) :
  forall (fuel' : nat) (final_path : string) (counter : nat) (r : string),
    (fuel <= fuel')%nat ->
    loop fuel final_path counter = Some r ->
    loop fuel' final_path counter = Some r.
Proof.
  induction fuel as [|fuel IH]; intros fuel' final_path counter r Hle H.
  - discriminate.
  - destruct fuel' as [|fuel']; [lia|]. rewrite free_path_step in *.
    destruct (path_exists fs final_path); [|exact H].
    apply IH; [lia | exact H].
Qed.

(** Distinct counters give distinct candidates, and only finitely many
    paths exist: the loop ends within [size fs + 2] iterations. *)
Lemma free_path_terminates (final_path : string) (counter : nat) :
  exists r, loop (size fs + 2) final_path counter = Some r.
Proof.
  destruct (loop (size fs + 2) final_path counter) as [r|] eqn:E;
    [eexists; reflexivity|].
  exfalso. replace (size fs + 2)%nat with (S (S (size fs))) in E by lia.
  pose proof (free_path_none _ _ _ E) as Hall.
  set (l := map cand (seq counter (S (size fs)))).
  assert (Hnd : NoDup l).
  { apply NoDup_fmap_2.
    - intros i j Hij. eapply candidate_inj. exact Hij.
    - apply NoDup_ListNoDup, seq_NoDup. }
  assert (Hsub : l ⊆+ (map_to_list fs).*1).
  { apply NoDup_submseteq; [exact Hnd|].
    intros p Hp. apply list_elem_of_fmap in Hp as (i & -> & Hi).
    apply list_elem_of_In, in_seq in Hi.
    specialize (Hall i ltac:(lia)).
    unfold path_exists in Hall. apply bool_decide_eq_true in Hall.
    destruct Hall as [e He].
    apply list_elem_of_fmap. exists (cand i, e).
    split; [reflexivity|]. apply elem_of_map_to_list. exact He. }
  apply submseteq_length in Hsub.
  unfold l in Hsub.
  rewrite length_map, length_seq, length_fmap, length_map_to_list in Hsub.
  lia.
Qed.

End FreePath.

Section V71Files.

Import Py PyStr PyText PyNum Util Downloader V71Run.

Lemma without_temp_files_lookup (sc : run_script)
    (m : gmap string TP.entry) (p : string) :
  without_temp_files sc m !! p
  = if bool_decide (p ∈ map fst (temp_paths sc)) then None else m !! p.
Proof.
  unfold without_temp_files.
  induction (temp_paths sc) as [|[k v] l IH]; cbn [foldr map fst].
  - rewrite bool_decide_eq_false_2 by apply not_elem_of_nil. reflexivity.
  - destruct (decide (p = k)) as [->|Hne].
    + rewrite lookup_delete_eq.
      rewrite bool_decide_eq_true_2 by apply list_elem_of_here. reflexivity.
    + rewrite lookup_delete_ne by congruence. rewrite IH.
      destruct (decide (p ∈ map fst l)) as [Hin|Hnin].
      * rewrite !bool_decide_eq_true_2;
          [reflexivity|now apply list_elem_of_further|exact Hin].
      * rewrite !bool_decide_eq_false_2;
          [reflexivity| |exact Hnin].
        apply not_elem_of_cons. split; assumption.
Qed.

Lemma with_temp_files_lookup (sc : run_script)
    (fs : gmap string TP.entry) (p : string) :
  p ∉ map fst (temp_paths sc) -> with_temp_files sc fs !! p = fs !! p.
Proof.
  intros Hp. unfold with_temp_files.
  apply lookup_union_r. now apply not_elem_of_list_to_map.
Qed.

Lemma with_temp_files_temp (sc : run_script)
    (fs : gmap string TP.entry) (p : string) :
  p ∈ map fst (temp_paths sc) -> is_Some (with_temp_files sc fs !! p).
Proof.
  intros Hp. unfold with_temp_files.
  destruct ((list_to_map (temp_paths sc) : gmap string TP.entry) !! p)
    as [e|] eqn:E.
  - exists e. now apply lookup_union_Some_l.
  - now apply not_elem_of_list_to_map in E.
Qed.

End V71Files.




(** ** Floating-point percentages *)

Section FloatFacts.

Import PyFloat.

Section Rounding.

(** *** Rounding a quotient to the nearest integer *)

Lemma rne_div_bounds (a b : Z) :
  0 < b -> a / b <= rne_div a b <= a / b + 1.
Proof.
  intros Hb. unfold rne_div.
  destruct (2 * (a mod b) ?= b); [destruct (Z.even (a / b))| |]; lia.
Qed.

(** An integer below the quotient stays below the rounded quotient. *)
Lemma rne_div_lower (a b M : Z) :
  0 < b -> M * b <= a -> M <= rne_div a b.
Proof.
  intros Hb H. pose proof (rne_div_bounds a b Hb).
  assert (M <= a / b) by (apply Z.div_le_lower_bound; lia). lia.
Qed.

(** An integer above the quotient stays above the rounded quotient. *)
Lemma rne_div_upper (a b M : Z) :
  0 < b -> a <= M * b -> rne_div a b <= M.
Proof.
  intros Hb H.
  pose proof (Z.div_mod a b ltac:(lia)) as Hdm.
  pose proof (Z.mod_pos_bound a b Hb) as Hr.
  unfold rne_div.
  assert (Hq : a / b <= M).
  { apply Z.div_le_upper_bound; lia. }
  destruct (Z.eq_dec (a / b) M) as [Heq|Hne].
  - assert (a mod b = 0) by nia.
    replace (2 * (a mod b) ?= b) with Lt; [lia|].
    symmetry. apply Z.compare_lt_iff. lia.
  - destruct (2 * (a mod b) ?= b); [destruct (Z.even (a / b))| |]; lia.
Qed.

Lemma rne_div_mono (a a' b : Z) :
  0 < b -> a <= a' -> rne_div a b <= rne_div a' b.
Proof.
  intros Hb Hle.
  pose proof (Z.div_mod a b ltac:(lia)) as Hdm.
  pose proof (Z.div_mod a' b ltac:(lia)) as Hdm'.
  pose proof (Z.mod_pos_bound a b Hb) as Hr.
  pose proof (Z.mod_pos_bound a' b Hb) as Hr'.
  pose proof (Z.div_le_mono a a' b Hb Hle) as Hq.
  pose proof (rne_div_bounds a b Hb) as B.
  pose proof (rne_div_bounds a' b Hb) as B'.
  destruct (Z.eq_dec (a / b) (a' / b)) as [Heq|Hne]; [|lia].
  assert (Hrr : a mod b <= a' mod b) by nia.
  unfold rne_div. rewrite <- Heq.
  destruct (Z.compare_spec (2 * (a mod b)) b) as [E|E|E];
    destruct (Z.compare_spec (2 * (a' mod b)) b) as [E'|E'|E'];
    destruct (Z.even (a / b)); lia.
Qed.

Lemma rne_div_scale (a b c : Z) :
  0 < b -> 0 < c -> rne_div (a * c) (b * c) = rne_div a b.
Proof.
  intros Hb Hc. unfold rne_div.
  rewrite Z.div_mul_cancel_r by lia.
  rewrite Z.mul_mod_distr_r by lia.
  replace (2 * (a mod b * c) ?= b * c) with (2 * (a mod b) ?= b);
    [reflexivity|].
  destruct (Z.compare_spec (2 * (a mod b)) b) as [E|E|E]; symmetry.
  - apply Z.compare_eq_iff. nia.
  - apply Z.compare_lt_iff. nia.
  - apply Z.compare_gt_iff. nia.
Qed.

(** The rounded quotient is within half a unit of the quotient. *)
Lemma rne_div_error (a b : Z) :
  0 < b -> Z.abs (2 * (rne_div a b * b - a)) <= b.
Proof.
  intros Hb.
  pose proof (Z.div_mod a b ltac:(lia)) as Hdm.
  pose proof (Z.mod_pos_bound a b Hb) as Hr.
  unfold rne_div.
  destruct (Z.compare_spec (2 * (a mod b)) b) as [E|E|E];
    [destruct (Z.even (a / b))| |]; nia.
Qed.

End Rounding.

Section Exponent.

Lemma pow2_pos (k : Z) : 0 <= k -> 0 < 2 ^ k.
Proof. intros. apply Z.pow_pos_nonneg; lia. Qed.

Lemma pow2_split (a b : Z) : 0 <= a -> 0 <= b -> 2 ^ (a + b) = 2 ^ a * 2 ^ b.
Proof. intros. apply Z.pow_add_r; lia. Qed.

Lemma pow2_le (a b : Z) : 0 <= a <= b -> 2 ^ a <= 2 ^ b.
Proof. intros. apply Z.pow_le_mono_r; lia. Qed.

(** Comparing [A] with [B * 2 ^ k] for an exponent [k] of either sign,
    and the same comparison after scaling by [2 ^ K]. *)
Lemma shift_lt (A B k K : Z) :
  0 <= K -> 0 <= k + K ->
  (A * 2 ^ Z.max 0 (- k) < B * 2 ^ Z.max 0 k
   <-> A * 2 ^ K < B * 2 ^ (k + K)).
Proof.
  intros HK HkK. destruct (Z_le_gt_dec 0 k) as [Hk|Hk].
  - rewrite (Z.max_l 0 (- k)) by lia. rewrite (Z.max_r 0 k) by lia.
    rewrite (pow2_split k K) by lia.
    pose proof (pow2_pos K HK). pose proof (pow2_pos k Hk).
    change (2 ^ 0) with 1. rewrite Z.mul_1_r. split; intros; nia.
  - rewrite (Z.max_r 0 (- k)) by lia. rewrite (Z.max_l 0 k) by lia.
    replace K with (- k + (k + K)) at 1 by lia.
    rewrite (pow2_split (- k) (k + K)) by lia.
    pose proof (pow2_pos (k + K) HkK). pose proof (pow2_pos (- k) ltac:(lia)).
    change (2 ^ 0) with 1. rewrite Z.mul_1_r. split; intros; nia.
Qed.

Lemma ilog2_ratio_spec (n d K : Z) :
  0 < n -> 0 < d -> 0 <= K ->
  let g := ilog2_ratio n d in
  (0 <= g + K -> d * 2 ^ (g + K) <= n * 2 ^ K)
  /\ (0 <= g + 1 + K -> n * 2 ^ K < d * 2 ^ (g + 1 + K)).
Proof.
  intros Hn Hd HK g. subst g. unfold ilog2_ratio.
  pose proof (Z.log2_spec n Hn) as [Ha1 Ha2].
  pose proof (Z.log2_spec d Hd) as [Hb1 Hb2].
  pose proof (Z.log2_nonneg n) as Ha0.
  pose proof (Z.log2_nonneg d) as Hb0.
  set (a := Z.log2 n) in *. set (b := Z.log2 d) in *.
  replace (Z.succ a) with (a + 1) in Ha2 by lia.
  replace (Z.succ b) with (b + 1) in Hb2 by lia.
  pose proof (pow2_pos K HK) as HpK.
  destruct (Z.ltb_spec (n * 2 ^ Z.max 0 (- (a - b)))
                       (d * 2 ^ Z.max 0 (a - b))) as [T|T].
  - split.
    + intros Hg.
      assert (E : 2 ^ (b + 1) * 2 ^ (a - b - 1 + K) = 2 ^ a * 2 ^ K).
      { rewrite <- !pow2_split by lia. f_equal. lia. }
      pose proof (pow2_pos (a - b - 1 + K) Hg). nia.
    + intros Hg. replace (a - b - 1 + 1 + K) with (a - b + K) by lia.
      apply (shift_lt n d (a - b) K); [lia | lia | exact T].
  - split.
    + intros Hg.
      destruct (Z_le_gt_dec (d * 2 ^ (a - b + K)) (n * 2 ^ K)) as [H|H];
        [exact H|].
      exfalso. apply Z.gt_lt in H.
      apply (shift_lt n d (a - b) K) in H; lia.
    + intros Hg.
      assert (E : 2 ^ b * 2 ^ (a - b + 1 + K) = 2 ^ (a + 1) * 2 ^ K).
      { rewrite <- !pow2_split by lia. f_equal. lia. }
      pose proof (pow2_pos (a - b + 1 + K) Hg). nia.
Qed.

(** The grid exponent, counted from [emin]: the spacing [2 ^ E] leaves
    at most 53 significant bits, and exactly 53 unless [E = 0]. *)
Lemma ulp_exp_spec (n d : Z) :
  0 < n -> 0 < d ->
  let E := ulp_exp n d - emin in
  0 <= E
  /\ n * 2 ^ 1074 < d * 2 ^ (E + 53)
  /\ (E = 0 \/ d * 2 ^ (E + 52) <= n * 2 ^ 1074).
Proof.
  intros Hn Hd E. subst E. unfold ulp_exp, prec, emin.
  set (g := ilog2_ratio n d).
  split; [lia|]. split.
  - destruct (Z_le_gt_dec 0 (g + 1075)) as [Hg|Hg].
    + destruct (ilog2_ratio_spec n d 1074 Hn Hd ltac:(lia)) as [_ Hup].
      fold g in Hup. specialize (Hup ltac:(lia)).
      assert (2 ^ (g + 1 + 1074)
              <= 2 ^ (Z.max (g - (53 - 1)) (-1074) - -1074 + 53))
        by (apply pow2_le; lia).
      nia.
    + destruct (ilog2_ratio_spec n d (- (g + 1)) Hn Hd ltac:(lia))
        as [_ Hup].
      fold g in Hup. specialize (Hup ltac:(lia)).
      replace (g + 1 + - (g + 1)) with 0 in Hup by lia.
      change (2 ^ 0) with 1 in Hup.
      assert (2 ^ 1074 <= 2 ^ (- (g + 1))) by (apply pow2_le; lia).
      pose proof (pow2_pos (Z.max (g - (53 - 1)) (-1074) - -1074 + 53)
                    ltac:(lia)).
      nia.
  - destruct (Z_le_gt_dec (g - 52) (-1074)) as [Hg|Hg].
    + left. lia.
    + right.
      destruct (ilog2_ratio_spec n d 1074 Hn Hd ltac:(lia)) as [Hlo _].
      fold g in Hlo. specialize (Hlo ltac:(lia)).
      replace (Z.max (g - (53 - 1)) (-1074) - -1074 + 52) with (g + 1074)
        by lia.
      exact Hlo.
Qed.

End Exponent.

Section RoundRatio.

(** [round_ratio] on the grid of multiples of [2 ^ emin]. *)
Lemma round_ratio_grid (n d : Z) :
  0 < n -> 0 < d ->
  let E := snd (round_ratio n d) - emin in
  0 <= E
  /\ fst (round_ratio n d) = rne_div (n * 2 ^ 1074) (d * 2 ^ E)
  /\ n * 2 ^ 1074 < d * 2 ^ (E + 53)
  /\ (E = 0 \/ d * 2 ^ (E + 52) <= n * 2 ^ 1074).
Proof.
  intros Hn Hd E. subst E. unfold round_ratio. cbn [fst snd].
  destruct (ulp_exp_spec n d Hn Hd) as (HE & Hup & Hlo).
  set (e := ulp_exp n d) in *.
  split; [exact HE|]. split; [|split; assumption].
  unfold emin in *.
  rewrite <- (rne_div_scale (n * 2 ^ Z.max 0 (- e)) (d * 2 ^ Z.max 0 e)
                (2 ^ (1074 - Z.max 0 (- e)))).
  - f_equal.
    + rewrite <- Z.mul_assoc, <- pow2_split by lia. do 2 f_equal. lia.
    + rewrite <- Z.mul_assoc, <- pow2_split by lia. do 2 f_equal. lia.
  - pose proof (pow2_pos (Z.max 0 e) ltac:(lia)). nia.
  - apply pow2_pos. lia.
Qed.

Lemma round_ratio_mono (n d n' d' : Z) :
  0 < n -> 0 < d -> 0 < n' -> 0 < d' ->
  n * d' <= n' * d ->
  snd (round_ratio n d) <= snd (round_ratio n' d')
  /\ scaled (fst (round_ratio n d)) (snd (round_ratio n d))
     <= scaled (fst (round_ratio n' d')) (snd (round_ratio n' d')).
Proof.
  intros Hn Hd Hn' Hd' Hle. unfold scaled.
  destruct (round_ratio_grid n d Hn Hd) as (HE & Hm & Hup & Hlo).
  destruct (round_ratio_grid n' d' Hn' Hd') as (HE' & Hm' & Hup' & Hlo').
  set (E := snd (round_ratio n d) - emin) in *.
  set (E' := snd (round_ratio n' d') - emin) in *.
  rewrite Hm, Hm'. clear Hm Hm'.
  set (N := n * 2 ^ 1074) in *. set (N' := n' * 2 ^ 1074) in *.
  assert (HN : N * d' <= N' * d).
  { subst N N'. pose proof (pow2_pos 1074 ltac:(lia)). nia. }
  assert (HEE : E <= E').
  { destruct (Z_le_gt_dec E E') as [H|H]; [exact H|]. exfalso.
    destruct Hlo as [Hlo|Hlo]; [lia|].
    assert (2 ^ (E' + 53) <= 2 ^ (E + 52)) by (apply pow2_le; lia).
    pose proof (pow2_pos (E' + 53) ltac:(lia)). nia. }
  split; [lia|].
  pose proof (pow2_pos E HE) as HpE. pose proof (pow2_pos E' HE') as HpE'.
  destruct (Z.eq_dec E E') as [Heq|Hne].
  - rewrite <- Heq.
    apply Z.mul_le_mono_nonneg_r; [lia|].
    rewrite <- (rne_div_scale N (d * 2 ^ E) d') by nia.
    rewrite <- (rne_div_scale N' (d' * 2 ^ E) d) by nia.
    replace (d' * 2 ^ E * d) with (d * 2 ^ E * d') by ring.
    apply rne_div_mono; nia.
  - assert (Hm : rne_div N (d * 2 ^ E) <= 2 ^ 53).
    { apply rne_div_upper; [nia|].
      rewrite (pow2_split E 53) in Hup by lia. nia. }
    assert (Hm' : 2 ^ 52 <= rne_div N' (d' * 2 ^ E')).
    { apply rne_div_lower; [nia|].
      destruct Hlo' as [Hlo'|Hlo']; [lia|].
      rewrite (pow2_split E' 52) in Hlo' by lia. nia. }
    assert (Hp : 2 ^ 53 * 2 ^ E <= 2 ^ 52 * 2 ^ E').
    { rewrite <- !pow2_split by lia. apply pow2_le. lia. }
    nia.
Qed.

(** [int] of a non-negative float, from its value on the grid. *)
Lemma py_int_scaled (m e : Z) :
  emin <= e ->
  py_int (Finite false m e) = Some (scaled m e / 2 ^ 1074).
Proof.
  intros He. unfold py_int, scaled, emin in *. f_equal.
  destruct (Z.leb_spec 0 e) as [H|H].
  - replace (e - -1074) with (e + 1074) by lia.
    rewrite pow2_split by lia. rewrite Z.mul_assoc.
    rewrite Z.div_mul; [reflexivity|].
    pose proof (pow2_pos 1074 ltac:(lia)). lia.
  - replace (2 ^ 1074) with (2 ^ (- e) * 2 ^ (e - -1074))
      by (rewrite <- pow2_split by lia; f_equal; lia).
    rewrite Z.div_mul_cancel_r; [reflexivity| |].
    + pose proof (pow2_pos (- e) ltac:(lia)). lia.
    + pose proof (pow2_pos (e - -1074) ltac:(lia)). lia.
Qed.

End RoundRatio.

Section Percent.

Lemma round_ratio_nonneg (n d : Z) :
  0 < n -> 0 < d -> 0 <= fst (round_ratio n d).
Proof.
  intros Hn Hd.
  destruct (round_ratio_grid n d Hn Hd) as (HE & Hm & _).
  rewrite Hm. pose proof (pow2_pos _ HE). pose proof (pow2_pos 1074 ltac:(lia)).
  apply rne_div_lower; nia.
Qed.

Lemma round_ratio_emin (n d : Z) :
  0 < n -> 0 < d -> emin <= snd (round_ratio n d).
Proof.
  intros Hn Hd. destruct (round_ratio_grid n d Hn Hd) as (HE & _). lia.
Qed.

Lemma times100_mono (m e m' e' : Z) :
  0 < m -> 0 < m' -> emin <= e -> emin <= e' ->
  scaled m e <= scaled m' e' ->
  snd (times100 m e) <= snd (times100 m' e')
  /\ times100_grid m e <= times100_grid m' e'.
Proof.
  intros Hm Hm' He He' Hle. unfold times100_grid.
  replace (m =? 0) with false by (symmetry; apply Z.eqb_neq; lia).
  replace (m' =? 0) with false by (symmetry; apply Z.eqb_neq; lia).
  unfold times100. unfold scaled, emin in Hle, He, He'.
  pose proof (pow2_pos (Z.max 0 e) ltac:(lia)) as P1.
  pose proof (pow2_pos (Z.max 0 (- e)) ltac:(lia)) as P2.
  pose proof (pow2_pos (Z.max 0 e') ltac:(lia)) as P1'.
  pose proof (pow2_pos (Z.max 0 (- e')) ltac:(lia)) as P2'.
  pose proof (pow2_pos 1074 ltac:(lia)) as P.
  assert (I : 2 ^ Z.max 0 e * 2 ^ 1074
              = 2 ^ (e - -1074) * 2 ^ Z.max 0 (- e)).
  { rewrite <- !pow2_split by lia. f_equal. lia. }
  assert (I' : 2 ^ Z.max 0 e' * 2 ^ 1074
               = 2 ^ (e' - -1074) * 2 ^ Z.max 0 (- e')).
  { rewrite <- !pow2_split by lia. f_equal. lia. }
  change (Z.abs 100) with 100.
  apply round_ratio_mono; [nia | lia | nia | lia |].
  set (a := 2 ^ Z.max 0 e) in *. set (b := 2 ^ Z.max 0 (- e)) in *.
  set (a' := 2 ^ Z.max 0 e') in *. set (b' := 2 ^ Z.max 0 (- e')) in *.
  set (s := 2 ^ (e - -1074)) in *. set (s' := 2 ^ (e' - -1074)) in *.
  set (k := 2 ^ 1074) in *.
  assert (H1 : (m * 100 * a * b') * k = 100 * (m * s) * (b * b'))
    by (replace (m * 100 * a * b' * k) with (100 * m * b' * (a * k)) by ring;
        rewrite I; ring).
  assert (H2 : (m' * 100 * a' * b) * k = 100 * (m' * s') * (b * b'))
    by (replace (m' * 100 * a' * b * k) with (100 * m' * b * (a' * k))
          by ring;
        rewrite I'; ring).
  assert (H3 : 100 * (m * s) * (b * b') <= 100 * (m' * s') * (b * b'))
    by (apply Z.mul_le_mono_nonneg_r; nia).
  rewrite <- H1, <- H2 in H3.
  apply Z.mul_le_mono_pos_r in H3; [exact H3 | exact P].
Qed.

Lemma times100_grid_nonneg (m e : Z) :
  0 <= m -> 0 <= times100_grid m e.
Proof.
  intros Hm. unfold times100_grid.
  destruct (Z.eqb_spec m 0) as [E|E]; [lia|].
  unfold scaled, times100.
  pose proof (pow2_pos (Z.max 0 e) ltac:(lia)) as P1.
  pose proof (pow2_pos (Z.max 0 (- e)) ltac:(lia)) as P2.
  assert (Hn : 0 < m * Z.abs 100 * 2 ^ Z.max 0 e)
    by (change (Z.abs 100) with 100; nia).
  pose proof (round_ratio_nonneg _ _ Hn P2) as Hm2.
  pose proof (round_ratio_emin _ _ Hn P2) as He2.
  apply Z.mul_nonneg_nonneg; [exact Hm2|].
  apply Z.lt_le_incl, pow2_pos. lia.
Qed.

(** The percentage of positive byte counts, when it is defined, is the
    integer part of the rounded product. *)
Lemma percent_of_grid (d t p : Z) :
  0 < d -> 0 < t ->
  percent_of d t = Some p ->
  p = times100_grid (fst (round_ratio d t)) (snd (round_ratio d t))
      / 2 ^ 1074.
Proof.
  intros Hd Ht. unfold percent_of, py_truediv.
  replace (t =? 0) with false by (symmetry; apply Z.eqb_neq; lia).
  replace (d =? 0) with false by (symmetry; apply Z.eqb_neq; lia).
  rewrite (Z.abs_eq d), (Z.abs_eq t) by lia.
  pose proof (round_ratio_nonneg d t Hd Ht) as Hm.
  pose proof (round_ratio_emin d t Hd Ht) as He.
  destruct (round_ratio d t) as [m e]. cbn [fst snd] in *.
  destruct (overflows m e); [discriminate|].
  rewrite (Z.sgn_pos d), (Z.sgn_pos t) by lia. cbn [Z.eqb negb Pos.eqb].
  unfold py_mul, times100_grid. cbn [orb Z.eqb Z.ltb Z.compare xorb].
  destruct (Z.eqb_spec m 0) as [E|E].
  - cbn. intros H. injection H as <-. reflexivity.
  - cbn [orb]. fold (times100 m e).
    pose proof (pow2_pos (Z.max 0 e) ltac:(lia)) as P1.
    pose proof (pow2_pos (Z.max 0 (- e)) ltac:(lia)) as P2.
    assert (Hn : 0 < m * Z.abs 100 * 2 ^ Z.max 0 e)
      by (change (Z.abs 100) with 100; nia).
    pose proof (round_ratio_emin _ _ Hn P2) as He2.
    fold (times100 m e) in He2.
    destruct (times100 m e) as [m2 e2]. cbn [fst snd] in *.
    destruct (overflows m2 e2); [discriminate|].
    rewrite py_int_scaled by exact He2.
    intros H. injection H as <-. reflexivity.
Qed.

End Percent.

Section PercentTheorems.

Lemma round_ratio_same (t : Z) : 0 < t -> round_ratio t t = (2 ^ 52, -52).
Proof.
  intros Ht.
  assert (Hg : ilog2_ratio t t = 0).
  { unfold ilog2_ratio. rewrite Z.sub_diag.
    change (Z.max 0 (- 0)) with 0. change (Z.max 0 0) with 0.
    rewrite Z.ltb_irrefl. reflexivity. }
  assert (He : ulp_exp t t = -52).
  { unfold ulp_exp. rewrite Hg. reflexivity. }
  unfold round_ratio. rewrite He.
  change (Z.max 0 (- -52)) with 52. change (Z.max 0 (-52)) with 0.
  f_equal. change (2 ^ 0) with 1. rewrite Z.mul_1_r.
  apply Z.le_antisymm.
  - apply rne_div_upper; lia.
  - apply rne_div_lower; lia.
Qed.

Lemma percent_of_same (t : Z) : 0 < t -> percent_of t t = Some 100.
Proof.
  intros Ht. unfold percent_of, py_truediv.
  replace (t =? 0) with false by (symmetry; apply Z.eqb_neq; lia).
  rewrite (Z.abs_eq t) by lia. rewrite (round_ratio_same t Ht).
  rewrite Z.eqb_refl. vm_compute. reflexivity.
Qed.

Lemma grid_mono (d d' t : Z) :
  0 < t -> 0 < d <= d' ->
  times100_grid (fst (round_ratio d t)) (snd (round_ratio d t))
  <= times100_grid (fst (round_ratio d' t)) (snd (round_ratio d' t))
  /\ snd (round_ratio d t) <= snd (round_ratio d' t)
  /\ (0 < fst (round_ratio d t) ->
      0 < fst (round_ratio d' t)
      /\ snd (times100 (fst (round_ratio d t)) (snd (round_ratio d t)))
         <= snd (times100 (fst (round_ratio d' t))
                          (snd (round_ratio d' t)))).
Proof.
  intros Ht Hd.
  destruct (round_ratio_mono d t d' t) as [He Hs]; try nia.
  pose proof (round_ratio_nonneg d t ltac:(lia) Ht) as Hm.
  pose proof (round_ratio_nonneg d' t ltac:(lia) Ht) as Hm'.
  pose proof (round_ratio_emin d t ltac:(lia) Ht) as Hemin.
  pose proof (round_ratio_emin d' t ltac:(lia) Ht) as Hemin'.
  destruct (round_ratio d t) as [m e], (round_ratio d' t) as [m' e'].
  cbn [fst snd] in *.
  assert (Hpos : 0 < m -> 0 < m').
  { intros H. unfold scaled in Hs.
    pose proof (pow2_pos (e - emin) ltac:(lia)).
    pose proof (pow2_pos (e' - emin) ltac:(lia)). nia. }
  split; [|split; [exact He|]].
  - destruct (Z.eq_dec m 0) as [->|Hne].
    + unfold times100_grid at 1. cbn [Z.eqb].
      apply times100_grid_nonneg. exact Hm'.
    + apply times100_mono; lia.
  - intros H. split; [auto|].
    apply times100_mono; lia.
Qed.

(** The percentage does not decrease when more bytes are received. *)
Lemma percent_of_mono (d d' t p p' : Z) :
  0 < t -> 0 < d <= d' ->
  percent_of d t = Some p -> percent_of d' t = Some p' ->
  p <= p'.
Proof.
  intros Ht Hd Hp Hp'.
  rewrite (percent_of_grid d t p ltac:(lia) Ht Hp).
  rewrite (percent_of_grid d' t p' ltac:(lia) Ht Hp').
  apply Z.div_le_mono; [apply pow2_pos; lia|].
  apply grid_mono; assumption.
Qed.

Lemma percent_of_nonneg (d t p : Z) :
  0 < t -> 0 < d -> percent_of d t = Some p -> 0 <= p.
Proof.
  intros Ht Hd Hp. rewrite (percent_of_grid d t p Hd Ht Hp).
  apply Z.div_pos; [|apply pow2_pos; lia].
  apply times100_grid_nonneg, round_ratio_nonneg; assumption.
Qed.

Lemma percent_of_le_100 (d t p : Z) :
  0 < d <= t -> percent_of d t = Some p -> p <= 100.
Proof.
  intros Hd Hp.
  apply (percent_of_mono d t t p 100); try lia; [exact Hp|].
  apply percent_of_same. lia.
Qed.

(** Below the total size the percentage is always defined. *)
Lemma percent_of_defined (d t : Z) :
  0 < d <= t -> exists p, percent_of d t = Some p.
Proof.
  intros Hd.
  destruct (grid_mono d t t ltac:(lia) ltac:(lia)) as (_ & He & Hprod).
  pose proof (round_ratio_emin d t ltac:(lia) ltac:(lia)) as Hemin.
  pose proof (round_ratio_nonneg d t ltac:(lia) ltac:(lia)) as Hm0.
  unfold percent_of, py_truediv.
  replace (t =? 0) with false by (symmetry; apply Z.eqb_neq; lia).
  replace (d =? 0) with false by (symmetry; apply Z.eqb_neq; lia).
  rewrite (Z.abs_eq d), (Z.abs_eq t) by lia.
  rewrite (round_ratio_same t ltac:(lia)) in He, Hprod.
  destruct (round_ratio d t) as [m e]. cbn [fst snd] in *.
  unfold overflows at 1.
  replace (0 <=? e) with false by (symmetry; apply Z.leb_gt; lia).
  cbn [andb]. unfold py_mul.
  destruct (Z.eqb_spec m 0) as [E|E]; cbn [orb Z.eqb].
  - eexists. reflexivity.
  - fold (times100 m e).
    assert (Hm : 0 < m) by lia.
    destruct (Hprod Hm) as [_ He2].
    assert (Hc : snd (times100 (2 ^ 52) (-52)) = -46)
      by (vm_compute; reflexivity).
    rewrite Hc in He2.
    destruct (times100 m e) as [m2 e2]. cbn [snd] in He2.
    unfold overflows.
    replace (0 <=? e2) with false by (symmetry; apply Z.leb_gt; lia).
    cbn [andb]. eexists. reflexivity.
Qed.

End PercentTheorems.


Section Accuracy.

(** In the normal range the rounded value is within a relative distance
    of [2 ^ -53] of the quotient. *)
Lemma round_ratio_error (n d : Z) :
  0 < n -> 0 < d ->
  d * 2 ^ 53 <= n * 2 ^ 1074 ->
  Z.abs (scaled (fst (round_ratio n d)) (snd (round_ratio n d)) * d
         - n * 2 ^ 1074) * 2 ^ 53
  <= n * 2 ^ 1074.
Proof.
  intros Hn Hd Hnormal. unfold scaled.
  destruct (round_ratio_grid n d Hn Hd) as (HE & Hm & Hup & Hlo).
  set (E := snd (round_ratio n d) - emin) in *.
  rewrite Hm. set (N := n * 2 ^ 1074) in *.
  pose proof (pow2_pos E HE) as HpE.
  pose proof (rne_div_error N (d * 2 ^ E) ltac:(nia)) as Herr.
  set (m := rne_div N (d * 2 ^ E)) in *.
  assert (HE1 : d * 2 ^ (E + 52) <= N).
  { destruct Hlo as [E0|H]; [|exact H]. exfalso.
    rewrite E0 in Hup. cbn [Z.add] in Hup. lia. }
  rewrite (pow2_split E 52) in HE1 by lia.
  replace (m * 2 ^ E * d - N) with (m * (d * 2 ^ E) - N) by ring.
  change (2 ^ 53) with (2 * 2 ^ 52).
  rewrite Z.abs_mul in Herr. change (Z.abs 2) with 2 in Herr.
  set (x := Z.abs (m * (d * 2 ^ E) - N)) in *.
  assert (0 <= x) by (subst x; apply Z.abs_nonneg).
  assert (x * (2 * 2 ^ 52) <= d * 2 ^ E * 2 ^ 52); [|lia].
  replace (x * (2 * 2 ^ 52)) with (2 * x * 2 ^ 52) by ring.
  apply Z.mul_le_mono_nonneg_r; lia.
Qed.

End Accuracy.

Section Floor.

Lemma floor_upper_arith (S1 S2 d t F K u : Z) :
  0 < t -> 0 < K -> 0 < u -> 0 <= S1 ->
  S1 * t * u <= d * K * (u + 1) ->
  S2 * u <= 100 * S1 * (u + 1) ->
  100 * d <= (F + 1) * t - 1 ->
  ((F + 1) * t - 1) * ((u + 1) * (u + 1)) < (F + 1) * t * (u * u) ->
  S2 < (F + 1) * K.
Proof.
  intros Ht HK Hu HS1 Ha Hb Hd Hnum.
  assert (s3 : S2 * u * (t * u) <= 100 * (u + 1) * (d * K * (u + 1))).
  { apply Z.le_trans with (100 * S1 * (u + 1) * (t * u)).
    - apply Z.mul_le_mono_nonneg_r; [nia | exact Hb].
    - replace (100 * S1 * (u + 1) * (t * u))
        with (100 * (u + 1) * (S1 * t * u)) by ring.
      apply Z.mul_le_mono_nonneg_l; [lia | exact Ha]. }
  assert (s4 : 100 * (u + 1) * (d * K * (u + 1))
               <= ((F + 1) * t - 1) * ((u + 1) * (u + 1)) * K).
  { replace (100 * (u + 1) * (d * K * (u + 1)))
      with (100 * d * ((u + 1) * (u + 1) * K)) by ring.
    replace (((F + 1) * t - 1) * ((u + 1) * (u + 1)) * K)
      with (((F + 1) * t - 1) * ((u + 1) * (u + 1) * K)) by ring.
    apply Z.mul_le_mono_nonneg_r; [nia | exact Hd]. }
  assert (s5 : ((F + 1) * t - 1) * ((u + 1) * (u + 1)) * K
               < (F + 1) * t * (u * u) * K).
  { apply Z.mul_lt_mono_pos_r; assumption. }
  assert (s6 : S2 * (u * (t * u)) < (F + 1) * K * (u * (t * u))).
  { replace (S2 * (u * (t * u))) with (S2 * u * (t * u)) by ring.
    replace ((F + 1) * K * (u * (t * u))) with ((F + 1) * t * (u * u) * K)
      by ring.
    lia. }
  apply Z.mul_lt_mono_pos_r in s6; [exact s6 | nia].
Qed.

Lemma floor_lower_arith (S1 S2 d t F K u : Z) :
  0 < t -> 0 < K -> 1 <= u -> 0 <= S1 -> 0 <= d ->
  d * K * (u - 1) <= S1 * t * u ->
  100 * S1 * (u - 1) <= S2 * u ->
  F * t <= 100 * d ->
  (F - 1) * (u * u) <= F * ((u - 1) * (u - 1)) ->
  (F - 1) * K <= S2.
Proof.
  intros Ht HK Hu HS1 Hd0 Ha Hb Hd Hnum.
  assert (s3 : 100 * (u - 1) * (d * K * (u - 1)) <= S2 * u * (t * u)).
  { apply Z.le_trans with (100 * S1 * (u - 1) * (t * u)).
    - replace (100 * S1 * (u - 1) * (t * u))
        with (100 * (u - 1) * (S1 * t * u)) by ring.
      apply Z.mul_le_mono_nonneg_l; [lia | exact Ha].
    - apply Z.mul_le_mono_nonneg_r; [nia | exact Hb]. }
  assert (s4 : F * t * ((u - 1) * (u - 1) * K)
               <= 100 * (u - 1) * (d * K * (u - 1))).
  { replace (100 * (u - 1) * (d * K * (u - 1)))
      with (100 * d * ((u - 1) * (u - 1) * K)) by ring.
    apply Z.mul_le_mono_nonneg_r; [|exact Hd].
    apply Z.mul_nonneg_nonneg; [|lia].
    apply Z.mul_nonneg_nonneg; lia. }
  assert (s5 : (F - 1) * (u * u) * (t * K)
               <= F * ((u - 1) * (u - 1)) * (t * K)).
  { apply Z.mul_le_mono_nonneg_r; [nia | exact Hnum]. }
  assert (s6 : (F - 1) * K * (u * (t * u)) <= S2 * (u * (t * u))).
  { replace ((F - 1) * K * (u * (t * u))) with ((F - 1) * (u * u) * (t * K))
      by ring.
    replace (S2 * (u * (t * u))) with (S2 * u * (t * u)) by ring.
    replace (F * ((u - 1) * (u - 1)) * (t * K))
      with (F * t * ((u - 1) * (u - 1) * K)) in s5 by ring.
    lia. }
  apply Z.mul_le_mono_pos_r in s6; [exact s6 | nia].
Qed.

(** For sizes below 32 TiB the percentage is the floor of the exact
    percentage, or one less. *)
Lemma percent_of_floor (d t p : Z) :
  0 < d <= t -> t < 2 ^ 45 ->
  percent_of d t = Some p ->
  100 * d / t - 1 <= p <= 100 * d / t.
Proof.
  intros Hd Ht Hp.
  rewrite (percent_of_grid d t p ltac:(lia) ltac:(lia) Hp). clear Hp.
  pose proof (pow2_pos 1074 ltac:(lia)) as HK.
  assert (Hnormal : t * 2 ^ 53 <= d * 2 ^ 1074).
  { apply Z.le_trans with (2 ^ 45 * 2 ^ 53); [lia|].
    apply Z.le_trans with (1 * 2 ^ 1074); [|nia].
    rewrite Z.mul_1_l, <- pow2_split by lia. apply pow2_le. lia. }
  pose proof (round_ratio_error d t ltac:(lia) ltac:(lia) Hnormal) as Ha.
  pose proof (round_ratio_nonneg d t ltac:(lia) ltac:(lia)) as Hm.
  pose proof (round_ratio_emin d t ltac:(lia) ltac:(lia)) as He.
  destruct (round_ratio d t) as [m e]. cbn [fst snd] in *.
  set (S1 := scaled m e) in *.
  assert (HS1 : 2 ^ 53 <= S1).
  { destruct (Z_le_gt_dec (2 ^ 53) S1) as [H|H]; [exact H|]. exfalso.
    assert (0 <= S1).
    { unfold S1, scaled. apply Z.mul_nonneg_nonneg; [exact Hm|].
      apply Z.lt_le_incl, pow2_pos. lia. }
    assert (S1 * t < 2 ^ 53 * 2 ^ 45) by nia.
    assert (2 ^ 53 * 2 ^ 45 * 2 <= 2 ^ 1074)
      by (apply Z.leb_le; vm_compute; reflexivity).
    assert (1 * 2 ^ 1074 <= d * 2 ^ 1074)
      by (apply Z.mul_le_mono_nonneg_r; lia).
    set (K := 2 ^ 1074) in *. set (c := 2 ^ 53 * 2 ^ 45) in *.
    assert (Hc : 0 < c) by (apply Z.ltb_lt; vm_compute; reflexivity).
    assert (Hu : 2 <= 2 ^ 53) by (apply Z.leb_le; vm_compute; reflexivity).
    set (u := 2 ^ 53) in *.
    assert (Hx : (d * K - S1 * t) * u <= d * K) by lia.
    assert (Hy : (d * K - S1 * t) * 2 <= (d * K - S1 * t) * u)
      by (apply Z.mul_le_mono_nonneg_l; lia).
    lia. }
  assert (Hm1 : 0 < m).
  { destruct (Z.eq_dec m 0) as [E|E]; [|lia]. exfalso.
    unfold S1, scaled in HS1. rewrite E in HS1. cbn in HS1. lia. }
  unfold times100_grid.
  replace (m =? 0) with false by (symmetry; apply Z.eqb_neq; lia).
  unfold times100. change (Z.abs 100) with 100.
  pose proof (pow2_pos (Z.max 0 e) ltac:(lia)) as P1.
  pose proof (pow2_pos (Z.max 0 (- e)) ltac:(lia)) as P2.
  assert (I : m * 100 * 2 ^ Z.max 0 e * 2 ^ 1074
              = 100 * S1 * 2 ^ Z.max 0 (- e)).
  { unfold S1, scaled, emin in *.
    replace (m * 100 * 2 ^ Z.max 0 e * 2 ^ 1074)
      with (100 * m * (2 ^ Z.max 0 e * 2 ^ 1074)) by ring.
    replace (100 * (m * 2 ^ (e - -1074)) * 2 ^ Z.max 0 (- e))
      with (100 * m * (2 ^ (e - -1074) * 2 ^ Z.max 0 (- e))) by ring.
    f_equal. rewrite <- !pow2_split by lia. f_equal. lia. }
  assert (Hnormal2 : 2 ^ Z.max 0 (- e) * 2 ^ 53
                     <= m * 100 * 2 ^ Z.max 0 e * 2 ^ 1074).
  { rewrite I. nia. }
  pose proof (round_ratio_error (m * 100 * 2 ^ Z.max 0 e)
                (2 ^ Z.max 0 (- e)) ltac:(nia) P2 Hnormal2) as Hb.
  set (S2 := scaled (fst (round_ratio (m * 100 * 2 ^ Z.max 0 e)
                                      (2 ^ Z.max 0 (- e))))
                    (snd (round_ratio (m * 100 * 2 ^ Z.max 0 e)
                                      (2 ^ Z.max 0 (- e))))) in *.
  rewrite I in Hb.
  replace (S2 * 2 ^ Z.max 0 (- e) - 100 * S1 * 2 ^ Z.max 0 (- e))
    with ((S2 - 100 * S1) * 2 ^ Z.max 0 (- e)) in Hb by ring.
  rewrite Z.abs_mul, (Z.abs_eq (2 ^ Z.max 0 (- e))) in Hb by lia.
  assert (Hb' : Z.abs (S2 - 100 * S1) * 2 ^ 53 <= 100 * S1).
  { apply Z.mul_le_mono_pos_r with (p := 2 ^ Z.max 0 (- e)); [exact P2|].
    lia. }
  clear Hb I Hnormal2.
  set (K := 2 ^ 1074) in *. set (u := 2 ^ 53) in *.
  set (F := 100 * d / t).
  assert (HF1 : F * t <= 100 * d).
  { unfold F. pose proof (Z.mul_div_le (100 * d) t ltac:(lia)). lia. }
  assert (HF2 : 100 * d < (F + 1) * t).
  { unfold F. pose proof (Z.mul_succ_div_gt (100 * d) t ltac:(lia)). lia. }
  assert (HF3 : 0 <= F <= 100).
  { unfold F. split; [apply Z.div_pos; lia|].
    apply Z.div_le_upper_bound; lia. }
  assert (Hu : u = 2 ^ 53) by reflexivity.
  split.
  - apply Z.div_le_lower_bound; [exact HK|]. rewrite Z.mul_comm.
    apply (floor_lower_arith S1 S2 d t F K u); lia.
  - apply Z.lt_succ_r. apply Z.div_lt_upper_bound; [exact HK|].
    rewrite Z.mul_comm. unfold Z.succ.
    apply (floor_upper_arith S1 S2 d t F K u); lia.
Qed.

End Floor.

End FloatFacts.

Section PercentRun.

Import PyFloat TP.

Variable total : Z.
Hypothesis total_pos : 0 < total.

Lemma hook_percent_known (d : Z) :
  0 <= d ->
  hook_percent (Some total) (Some d)
  = if d =? 0 then Some 0 else percent_of d total.
Proof.
  intros Hd. unfold hook_percent, truthy.
  replace (total =? 0) with false by (symmetry; apply Z.eqb_neq; lia).
  destruct (d =? 0); reflexivity.
Qed.

Lemma hook_percent_nonneg (d p : Z) :
  0 <= d -> hook_percent (Some total) (Some d) = Some p -> 0 <= p.
Proof.
  intros Hd. rewrite hook_percent_known by exact Hd.
  destruct (Z.eqb_spec d 0) as [E|E]; intros H.
  - injection H as <-. lia.
  - apply (percent_of_nonneg d total p); [exact total_pos | lia | exact H].
Qed.

Lemma hook_percent_mono (d d' p p' : Z) :
  0 <= d <= d' ->
  hook_percent (Some total) (Some d) = Some p ->
  hook_percent (Some total) (Some d') = Some p' ->
  p <= p'.
Proof.
  intros Hd Hp Hp'.
  pose proof (hook_percent_nonneg d' p' ltac:(lia) Hp') as Hnn.
  rewrite hook_percent_known in Hp, Hp' by lia.
  destruct (Z.eqb_spec d 0) as [E|E].
  - injection Hp as <-. exact Hnn.
  - destruct (Z.eqb_spec d' 0) as [E'|E']; [lia|].
    apply (percent_of_mono d d' total p p'); (assumption || lia).
Qed.

Lemma hook_percent_below_total (d : Z) :
  0 <= d <= total ->
  exists p, hook_percent (Some total) (Some d) = Some p /\ p <= 100.
Proof.
  intros Hd. rewrite hook_percent_known by lia.
  destruct (Z.eqb_spec d 0) as [E|E].
  - exists 0. split; [reflexivity | lia].
  - destruct (percent_of_defined d total ltac:(lia)) as [p Hp].
    exists p. split; [exact Hp|].
    apply (percent_of_le_100 d total p); [lia | exact Hp].
Qed.

Lemma hook_percent_floor (d p : Z) :
  0 <= d <= total -> total < 2 ^ 45 ->
  hook_percent (Some total) (Some d) = Some p ->
  100 * d / total - 1 <= p <= 100 * d / total.
Proof.
  intros Hd Ht. rewrite hook_percent_known by lia.
  destruct (Z.eqb_spec d 0) as [E|E]; intros H.
  - injection H as <-. subst d. rewrite Z.mul_0_r, Z.div_0_l by lia. lia.
  - apply (percent_of_floor d total p); (assumption || lia).
Qed.

(** The hook on a record of the transfer phase with both counters. *)
Lemma progress_hook_downloading (self : YoutubeDownloader) (d : Z) :
  progress_callback self = true ->
  downloading self = true ->
  cancel_requested self = false ->
  progress_hook self (downloading_record (Some d) (Some total))
  = match hook_percent (Some total) (Some d) with
    | Some p => ([downloading_info p], None)
    | None => ([], Some (OtherException "OverflowError"))
    end.
Proof.
  intros Hcb Hdl Hcr. unfold progress_hook. rewrite Hdl, Hcr.
  cbn [negb orb downloading_record d_status d_total_bytes
       d_total_bytes_estimate d_downloaded_bytes].
  change (String.eqb "downloading" "downloading") with true.
  cbv iota.
  replace (py_or (Some total) None) with (Some total).
  - unfold emit. rewrite Hcb.
    destruct (hook_percent (Some total) (Some d)); reflexivity.
  - unfold py_or, truthy.
    replace (total =? 0) with false by (symmetry; apply Z.eqb_neq; lia).
    reflexivity.
Qed.

Lemma ydl_download_percent_run (self : YoutubeDownloader)
    (downloaded : list Z) :
  progress_callback self = true ->
  downloading self = true ->
  cancel_requested self = false ->
  fst (fst (fst (ydl_download self
                   (map (fun d => Hook (downloading_record (Some d)
                                                           (Some total)))
                        downloaded)
                   None)))
  = map downloading_info (percent_run total downloaded).
Proof.
  intros Hcb Hdl Hcr.
  induction downloaded as [|d rest IH]; [reflexivity|].
  cbn [map ydl_download percent_run].
  rewrite (progress_hook_downloading self d Hcb Hdl Hcr).
  destruct (hook_percent (Some total) (Some d)) as [p|]; [|reflexivity].
  destruct (ydl_download self _ None) as [[[evs r] s] cs].
  cbn in IH |- *. rewrite IH. reflexivity.
Qed.

(** Every percentage of the run belongs to one of the byte counts. *)
Lemma percent_run_elements (downloaded : list Z) :
  Forall (fun p => exists d,
              In d downloaded /\ hook_percent (Some total) (Some d) = Some p)
         (percent_run total downloaded).
Proof.
  induction downloaded as [|d rest IH]; cbn [percent_run];
    [constructor|].
  destruct (hook_percent (Some total) (Some d)) as [p|] eqn:E;
    [|constructor].
  constructor.
  - exists d. split; [left; reflexivity | exact E].
  - eapply Forall_impl; [exact IH|]. cbn.
    intros a (d' & Hin & H). exists d'. split; [right; exact Hin | exact H].
Qed.

Lemma percent_run_sorted (downloaded : list Z) :
  Forall (fun d => 0 <= d) downloaded ->
  Sorted Z.le downloaded ->
  Sorted Z.le (percent_run total downloaded).
Proof.
  intros Hnn Hs. apply StronglySorted_Sorted.
  apply Sorted_StronglySorted in Hs; [|exact Z.le_trans].
  induction downloaded as [|d rest IH]; cbn [percent_run];
    [constructor|].
  apply StronglySorted_inv in Hs as [Hs Hd].
  apply Forall_cons_1 in Hnn as [Hd0 Hnn].
  destruct (hook_percent (Some total) (Some d)) as [p|] eqn:E;
    [|constructor].
  constructor; [apply IH; assumption|].
  eapply Forall_impl; [apply percent_run_elements|]. cbn.
  intros p' (d' & Hin & Hp').
  apply (hook_percent_mono d d' p p'); try assumption.
  split; [exact Hd0|].
  rewrite List.Forall_forall in Hd. apply Hd. exact Hin.
Qed.

Lemma percent_run_values (downloaded : list Z) :
  Forall (fun d => 0 <= d) downloaded ->
  Forall2 (fun d p =>
             (if d =? 0 then Some 0 else percent_of d total) = Some p)
          (firstn (length (percent_run total downloaded)) downloaded)
          (percent_run total downloaded).
Proof.
  induction downloaded as [|d rest IH]; intros Hnn; cbn [percent_run];
    [constructor|].
  apply Forall_cons_1 in Hnn as [Hd Hnn].
  destruct (hook_percent (Some total) (Some d)) as [p|] eqn:E;
    [|constructor].
  cbn [length firstn]. constructor; [|apply IH; exact Hnn].
  rewrite <- (hook_percent_known d Hd). exact E.
Qed.

Lemma percent_run_nonneg (downloaded : list Z) :
  Forall (fun d => 0 <= d) downloaded ->
  Forall (fun p => 0 <= p) (percent_run total downloaded).
Proof.
  intros Hnn. eapply Forall_impl; [apply percent_run_elements|]. cbn.
  intros p (d & Hin & Hp). apply (hook_percent_nonneg d p); [|exact Hp].
  rewrite List.Forall_forall in Hnn. apply Hnn. exact Hin.
Qed.

Lemma percent_run_below_total (downloaded : list Z) :
  Forall (fun d => 0 <= d <= total) downloaded ->
  length (percent_run total downloaded) = length downloaded
  /\ Forall (fun p => p <= 100) (percent_run total downloaded).
Proof.
  induction downloaded as [|d rest IH]; intros H; cbn [percent_run].
  - split; [reflexivity | constructor].
  - apply Forall_cons_1 in H as [Hd H].
    destruct (hook_percent_below_total d Hd) as (p & Hp & Hle).
    rewrite Hp. destruct (IH H) as [Hlen Hall].
    split; [cbn; congruence | constructor; assumption].
Qed.

Lemma percent_run_floor (downloaded : list Z) :
  Forall (fun d => 0 <= d <= total) downloaded ->
  total < 2 ^ 45 ->
  Forall2 (fun d p => 100 * d / total - 1 <= p <= 100 * d / total)
          downloaded (percent_run total downloaded).
Proof.
  intros H Ht.
  induction downloaded as [|d rest IH]; cbn [percent_run]; [constructor|].
  apply Forall_cons_1 in H as [Hd H].
  destruct (hook_percent_below_total d Hd) as (p & Hp & _).
  rewrite Hp. constructor; [|apply IH; exact H].
  apply (hook_percent_floor d p Hd Ht Hp).
Qed.

(** [YTDownloader2025.py] computes the same number. *)
Lemma progress_hook_2025_downloading (d : Z) :
  V2025.progress_hook (downloading_record (Some d) (Some total))
  = match hook_percent (Some total) (Some d) with
    | Some p => ([p], None)
    | None => ([], Some (OtherException "OverflowError"))
    end.
Proof.
  unfold V2025.progress_hook.
  cbn [downloading_record d_status d_total_bytes d_total_bytes_estimate
       d_downloaded_bytes].
  change (String.eqb "downloading" "downloading") with true.
  cbv iota.
  replace (py_or (Some total) None) with (Some total); [reflexivity|].
  unfold py_or, truthy.
  replace (total =? 0) with false by (symmetry; apply Z.eqb_neq; lia).
  reflexivity.
Qed.

Lemma percent_run_2025 (downloaded : list Z) :
  Forall2 (fun d p =>
             fst (V2025.progress_hook
                    (downloading_record (Some d) (Some total)))
             = [p])
          (firstn (length (percent_run total downloaded)) downloaded)
          (percent_run total downloaded).
Proof.
  induction downloaded as [|d rest IH]; cbn [percent_run]; [constructor|].
  destruct (hook_percent (Some total) (Some d)) as [p|] eqn:E;
    [|constructor].
  cbn [length firstn]. constructor; [|exact IH].
  rewrite progress_hook_2025_downloading, E. reflexivity.
Qed.

End PercentRun.

(** The model of Python's float arithmetic computes the same quotients,
    products and percentages as [SFdiv] and [SFmul] of the Standard Library
    on all pairs of sample counts. *)
Lemma percent_of_agrees_with_SpecFloat :
  forallb (fun d =>
             forallb (fun t => agree_with_SpecFloat d t && agree_on_floats d t)
                     sample_counts)
          sample_counts
  = true.
Proof. vm_compute. reflexivity. Qed.

(** C2, as stated, fails twice. The product is formed in binary64
    arithmetic before it is truncated: 29 of 100 bytes give 28, while
    [floor (29 / 100 * 100)] is 29. And nothing clamps the value: 150 of
    100 bytes give 150. *)
Lemma C2_percent_not_floor_nor_clamped :
  map TP.percent
      (fst (TP.progress_hook busy_downloader
              (downloading_record (Some 29) (Some 100))))
  = [28]
  /\ 100 * 29 / 100 = 29
  /\ map TP.percent
       (fst (TP.progress_hook busy_downloader
               (downloading_record (Some 150) (Some 100))))
     = [150]
  /\ fst (V2025.progress_hook (downloading_record (Some 29) (Some 100)))
     = [28].
Proof. vm_compute. repeat split; reflexivity. Qed.

(** C2 (amended): for raw "downloading" records with non-negative,
    non-decreasing byte counts and a fixed total above zero, every record
    delivered has the percentage [int((downloaded / total) * 100)]
    evaluated in binary64 arithmetic (0 for a count of 0); the percentages
    are never negative and never decrease. Nothing clamps them: they stay
    at or below 100, and every raw record is answered, when no count
    exceeds the total. For totals below [2 ^ 45] each of them is then the
    floor of the exact percentage or one less. [YTDownloader2025.py]
    passes the same numbers to its callback. *)
Theorem C2_percent_sequence (self : TP.YoutubeDownloader) (total : Z)
    (downloaded : list Z) :
  TP.progress_callback self = true ->
  TP.downloading self = true ->
  TP.cancel_requested self = false ->
  0 < total ->
  Forall (fun d => 0 <= d) downloaded ->
  Sorted Z.le downloaded ->
  let records :=
    map (fun d => TP.Hook (downloading_record (Some d) (Some total)))
        downloaded in
  let delivered := fst (fst (fst (TP.ydl_download self records None))) in
  let percents := map TP.percent delivered in
  Forall (fun info => TP.status info = "downloading"%string) delivered
  /\ Forall2 (fun d p =>
                (if d =? 0 then Some 0 else PyFloat.percent_of d total)
                = Some p)
             (firstn (length percents) downloaded) percents
  /\ Sorted Z.le percents
  /\ Forall (fun p => 0 <= p) percents
  /\ (Forall (fun d => d <= total) downloaded ->
      length percents = length downloaded
      /\ Forall (fun p => p <= 100) percents
      /\ (total < 2 ^ 45 ->
          Forall2 (fun d p => 100 * d / total - 1 <= p <= 100 * d / total)
                  downloaded percents))
  /\ Forall2 (fun d p =>
                fst (V2025.progress_hook
                       (downloading_record (Some d) (Some total)))
                = [p])
             (firstn (length percents) downloaded) percents.
Proof.
  intros Hcb Hdl Hcr Ht Hnn Hsorted records delivered percents.
  assert (Hdel : delivered
                 = map downloading_info (percent_run total downloaded)).
  { apply ydl_download_percent_run; assumption. }
  assert (Hper : percents = percent_run total downloaded).
  { unfold percents. rewrite Hdel, map_map. cbn. apply map_id. }
  clearbody delivered percents. subst delivered percents. clear records.
  split; [|split; [|split; [|split; [|split]]]].
  - apply Forall_map. apply Forall_forall. intros. reflexivity.
  - apply percent_run_values; assumption.
  - apply percent_run_sorted; assumption.
  - apply percent_run_nonneg; assumption.
  - intros Hle.
    assert (Hboth : Forall (fun d => 0 <= d <= total) downloaded).
    { rewrite List.Forall_forall in *. intros d Hd. split; auto. }
    destruct (percent_run_below_total total Ht downloaded Hboth)
      as [Hlen Hall].
    split; [exact Hlen|]. split; [exact Hall|].
    intros Hsmall. apply percent_run_floor; assumption.
  - apply percent_run_2025. exact Ht.
Qed.

Lemma C2_percent_sequence_witness :
  let records :=
    map (fun d => TP.Hook (downloading_record (Some d) (Some 100)))
        [0; 29; 50; 100] in
  let delivered :=
    fst (fst (fst (TP.ydl_download busy_downloader records None))) in
  let percents := map TP.percent delivered in
  Forall (fun info => TP.status info = "downloading"%string) delivered
  /\ Forall2 (fun d p =>
                (if d =? 0 then Some 0 else PyFloat.percent_of d 100)
                = Some p)
             (firstn (length percents) [0; 29; 50; 100]) percents
  /\ Sorted Z.le percents
  /\ Forall (fun p => 0 <= p) percents
  /\ (Forall (fun d => d <= 100) [0; 29; 50; 100] ->
      length percents = length [0; 29; 50; 100]
      /\ Forall (fun p => p <= 100) percents
      /\ (100 < 2 ^ 45 ->
          Forall2 (fun d p => 100 * d / 100 - 1 <= p <= 100 * d / 100)
                  [0; 29; 50; 100] percents))
  /\ Forall2 (fun d p =>
                fst (V2025.progress_hook
                       (downloading_record (Some d) (Some 100)))
                = [p])
             (firstn (length percents) [0; 29; 50; 100]) percents.
Proof.
  apply (C2_percent_sequence busy_downloader 100 [0; 29; 50; 100]);
    try reflexivity.
  - repeat constructor; lia.
  - repeat constructor; lia.
Defined.

(** * Properties of the helpers, the formats and the other windows *)

(** ** File names ([sanitize_filename]) *)

Section Sanitize.

Import PyStr PyText Util.
Local Open Scope string_scope.

Lemma all_chars_filter (f : ascii -> bool) (s : string) :
  all_chars f (filter_chars f s) = true.
Proof.
  induction s as [|c s IH]; [reflexivity|].
  cbn. destruct (f c) eqn:E; [cbn; now rewrite E|exact IH].
Qed.

Lemma filter_chars_all (f : ascii -> bool) (s : string) :
  all_chars f s = true -> filter_chars f s = s.
Proof.
  induction s as [|c s IH]; [reflexivity|].
  cbn. intros [Hc Hs]%andb_prop. rewrite Hc. now rewrite IH.
Qed.

Lemma all_chars_impl (f g : ascii -> bool) (s : string) :
  (forall c, f c = true -> g c = true) ->
  all_chars f s = true -> all_chars g s = true.
Proof.
  intros Hfg. induction s as [|c s IH]; [reflexivity|].
  cbn. intros [Hc Hs]%andb_prop. now rewrite (Hfg _ Hc), IH.
Qed.

Lemma all_chars_app (f : ascii -> bool) (s t : string) :
  all_chars f (s ++ t) = all_chars f s && all_chars f t.
Proof.
  induction s as [|c s IH]; [reflexivity|].
  rewrite append_cons. cbn. rewrite IH. now rewrite andb_assoc.
Qed.

Lemma all_chars_substring (f : ascii -> bool) (s : string) :
  forall n m : nat,
    all_chars f s = true -> all_chars f (substring n m s) = true.
Proof.
  induction s as [|c s IH]; intros n m H.
  - destruct n, m; reflexivity.
  - cbn in H. apply andb_prop in H as [Hc Hs].
    destruct n as [|n]; cbn.
    + destruct m as [|m]; [reflexivity|]. cbn. rewrite Hc. now apply IH.
    + now apply IH.
Qed.

Lemma length_substring_0 (s : string) :
  forall n : nat,
    (n <= String.length s)%nat -> String.length (substring 0 n s) = n.
Proof.
  induction s as [|c s IH]; intros n H.
  - cbn in H. destruct n; [reflexivity|lia].
  - destruct n as [|n]; [reflexivity|]. cbn in *. rewrite IH; lia.
Qed.

Lemma replace_char_absent (a b : ascii) (s : string) :
  all_chars (fun c => negb (Ascii.eqb c a)) s = true ->
  replace_char a b s = s.
Proof.
  induction s as [|c s IH]; [reflexivity|].
  cbn. intros [Hc Hs]%andb_prop.
  apply negb_true_iff in Hc. rewrite Hc. now rewrite IH.
Qed.

Lemma is_safe_not_space (c : ascii) :
  is_safe c = true -> negb (Ascii.eqb c " ") = true.
Proof.
  destruct (Ascii.eqb_spec c " ") as [->|]; [discriminate|reflexivity].
Qed.

Lemma is_safe_not_separator (c : ascii) :
  is_safe c = true -> c <> "/"%char /\ c <> "\"%char /\ c <> "%"%char.
Proof.
  intros H. repeat split; intros ->; discriminate.
Qed.

Lemma sanitize_filename_chars (filename : string) :
  all_chars is_safe (sanitize_filename filename) = true.
Proof.
  unfold sanitize_filename.
  set (t := filter_chars is_safe (replace_char " " "_" filename)).
  assert (Ht : all_chars is_safe t = true) by apply all_chars_filter.
  destruct (200 <? String.length t)%nat; [|exact Ht].
  rewrite all_chars_app. unfold take.
  rewrite all_chars_substring by exact Ht. reflexivity.
Qed.

Lemma sanitize_filename_length (filename : string) :
  (String.length (sanitize_filename filename) <= 200)%nat.
Proof.
  unfold sanitize_filename.
  set (t := filter_chars is_safe (replace_char " " "_" filename)).
  destruct (200 <? String.length t)%nat eqn:E.
  - apply Nat.ltb_lt in E. rewrite length_append. unfold take.
    rewrite length_substring_0 by lia. cbn. lia.
  - apply Nat.ltb_ge in E. exact E.
Qed.

Lemma sanitize_filename_fixpoint (s : string) :
  all_chars is_safe s = true -> (String.length s <= 200)%nat ->
  sanitize_filename s = s.
Proof.
  intros Hs Hl. unfold sanitize_filename.
  rewrite replace_char_absent
    by (eapply all_chars_impl; [apply is_safe_not_space|exact Hs]).
  rewrite filter_chars_all by exact Hs.
  apply Nat.ltb_ge in Hl. now rewrite Hl.
Qed.

End Sanitize.

(** X1: a sanitized ASCII file name consists of letters, digits,
    underscores, hyphens and periods only and has at most 200
    characters; in particular it holds no blank, no path separator and
    no percent sign. *)
Theorem X1_sanitize_filename_safe (filename : string) :
  PyText.is_ascii filename = true ->
  PyText.all_chars Util.is_safe (Util.sanitize_filename filename) = true
  /\ (String.length (Util.sanitize_filename filename) <= 200)%nat
  /\ PyText.all_chars
       (fun c => negb (Ascii.eqb c " ") && negb (Ascii.eqb c "/")
                 && negb (Ascii.eqb c "\") && negb (Ascii.eqb c "%"))
       (Util.sanitize_filename filename) = true.
Proof.
  intros _. split; [apply sanitize_filename_chars|].
  split; [apply sanitize_filename_length|].
  eapply all_chars_impl; [|apply sanitize_filename_chars].
  intros c Hc.
  destruct (Ascii.eqb_spec c " ") as [->|]; [discriminate|].
  destruct (Ascii.eqb_spec c "/") as [->|]; [discriminate|].
  destruct (Ascii.eqb_spec c "\") as [->|]; [discriminate|].
  destruct (Ascii.eqb_spec c "%") as [->|]; [discriminate|].
  reflexivity.
Qed.

Lemma X1_sanitize_filename_safe_witness :
  PyText.all_chars Util.is_safe
    (Util.sanitize_filename "My video: part 1/2 (HD)") = true
  /\ (String.length (Util.sanitize_filename "My video: part 1/2 (HD)")
      <= 200)%nat
  /\ PyText.all_chars
       (fun c => negb (Ascii.eqb c " ") && negb (Ascii.eqb c "/")
                 && negb (Ascii.eqb c "\") && negb (Ascii.eqb c "%"))
       (Util.sanitize_filename "My video: part 1/2 (HD)") = true.
Proof.
  apply (X1_sanitize_filename_safe "My video: part 1/2 (HD)"). reflexivity.
Defined.

(** X2: sanitizing is idempotent on ASCII text: a name that went
    through [sanitize_filename] is left as it is by a second pass. *)
Theorem X2_sanitize_filename_idempotent (filename : string) :
  PyText.is_ascii filename = true ->
  Util.sanitize_filename (Util.sanitize_filename filename)
  = Util.sanitize_filename filename.
Proof.
  intros _. apply sanitize_filename_fixpoint.
  - apply sanitize_filename_chars.
  - apply sanitize_filename_length.
Qed.

Lemma X2_sanitize_filename_idempotent_witness :
  Util.sanitize_filename (Util.sanitize_filename "50% off/today.txt")
  = Util.sanitize_filename "50% off/today.txt".
Proof.
  apply (X2_sanitize_filename_idempotent "50% off/today.txt"). reflexivity.
Defined.

(** ** Decimal text ([str] and [int]) *)

Section DecimalText.

Import PyStr PyText.
Local Open Scope string_scope.

Lemma parse_digits_uint (d : Decimal.uint) :
  forall (acc : nat) (b : bool),
    d <> Decimal.Nil \/ b = true ->
    parse_digits (Z.of_nat acc) b (NilEmpty.string_of_uint d)
    = Some (Z.of_nat (Nat.of_uint_acc d acc)).
Proof.
  induction d; intros acc b Hb;
    [destruct Hb as [Hb | ->]; [congruence | reflexivity] | ..];
    cbn [NilEmpty.string_of_uint parse_digits Nat.of_uint_acc];
    (match goal with
     | |- context [isdigit ?c] =>
         change (isdigit c) with true; cbv iota;
         change (digit_value c) with
           (Z.of_nat (nat_of_ascii c - 48))
     end);
    rewrite <- (IHd _ true) by (right; reflexivity);
    apply (f_equal (fun a => parse_digits a true (NilEmpty.string_of_uint d)));
    rewrite Nat.tail_mul_spec; vm_compute (nat_of_ascii _ - 48)%nat; lia.
Qed.

Lemma to_uint_nonnil (n : nat) : Nat.to_uint n <> Decimal.Nil.
Proof.
  intros H. pose proof (Unsigned.of_to n) as E. rewrite H in E.
  cbn in E. subst n. discriminate.
Qed.

Lemma parse_digits_str_of_nat (n : nat) (b : bool) :
  parse_digits 0 b (str_of_nat n) = Some (Z.of_nat n).
Proof.
  unfold str_of_nat. change 0 with (Z.of_nat 0).
  rewrite parse_digits_uint by (left; apply to_uint_nonnil).
  change (Nat.of_uint_acc (Nat.to_uint n) 0) with (Nat.of_uint (Nat.to_uint n)).
  now rewrite Unsigned.of_to.
Qed.

Lemma all_digits_uint (d : Decimal.uint) :
  all_chars isdigit (NilEmpty.string_of_uint d) = true.
Proof. induction d; cbn; auto. Qed.

Lemma str_of_nat_digits (n : nat) : all_chars isdigit (str_of_nat n) = true.
Proof. apply all_digits_uint. Qed.

Lemma str_of_nat_nonempty (n : nat) : str_of_nat n <> "".
Proof.
  unfold str_of_nat. pose proof (to_uint_nonnil n) as H.
  destruct (Nat.to_uint n); [congruence|..]; discriminate.
Qed.

(** [int] strips nothing from a text without white space. *)
Lemma lstrip_c_nonspace (c : ascii) (s : string) :
  is_c_space c = false -> lstrip_c (String c s) = String c s.
Proof. intros H. cbn. now rewrite H. Qed.

Lemma rstrip_c_no_space (s : string) :
  all_chars (fun c => negb (is_c_space c)) s = true -> rstrip_c s = s.
Proof.
  induction s as [|c s IH]; [reflexivity|].
  cbn. intros [Hc Hs]%andb_prop. rewrite IH by exact Hs.
  apply negb_true_iff in Hc. rewrite Hc. now destruct s.
Qed.

Lemma strip_c_no_space (s : string) :
  all_chars (fun c => negb (is_c_space c)) s = true ->
  rstrip_c (lstrip_c s) = s.
Proof.
  intros H.
  assert (Hl : lstrip_c s = s).
  { destruct s as [|c s]; [reflexivity|].
    cbn in H. apply andb_prop in H as [Hc _].
    apply negb_true_iff in Hc. now apply lstrip_c_nonspace. }
  rewrite Hl. now apply rstrip_c_no_space.
Qed.

Lemma isdigit_not_c_space (c : ascii) :
  isdigit c = true -> negb (is_c_space c) = true.
Proof.
  unfold isdigit, is_c_space. intros H.
  apply andb_prop in H as [H1 H2].
  apply Nat.leb_le in H1. apply Nat.leb_le in H2.
  apply negb_true_iff. apply orb_false_iff. split.
  - apply andb_false_iff. right. apply Nat.leb_gt. lia.
  - apply Nat.eqb_neq. lia.
Qed.

Lemma str_of_Z_nonneg (n : Z) :
  0 <= n -> str_of_Z n = str_of_nat (Z.to_nat n).
Proof.
  intros H. unfold str_of_Z.
  destruct (n <? 0)%Z eqn:E; [apply Z.ltb_lt in E; lia|reflexivity].
Qed.

Lemma str_of_Z_neg (n : Z) :
  n < 0 -> str_of_Z n = String "-" (str_of_nat (Z.to_nat (- n))).
Proof.
  intros H. unfold str_of_Z.
  destruct (n <? 0)%Z eqn:E; [reflexivity|apply Z.ltb_ge in E; lia].
Qed.

Lemma str_of_Z_no_c_space (n : Z) :
  all_chars (fun c => negb (is_c_space c)) (str_of_Z n) = true.
Proof.
  destruct (Z.lt_ge_cases n 0) as [H|H].
  - rewrite str_of_Z_neg by exact H. cbn.
    eapply all_chars_impl;
      [apply isdigit_not_c_space|apply str_of_nat_digits].
  - rewrite str_of_Z_nonneg by exact H.
    eapply all_chars_impl;
      [apply isdigit_not_c_space|apply str_of_nat_digits].
Qed.

(** The literal [str(n)] has the value [n]. *)
Lemma int_of_literal_str_of_Z (n : Z) : int_of_literal (str_of_Z n) = Some n.
Proof.
  unfold int_of_literal.
  destruct (Z.lt_ge_cases n 0) as [H|H].
  - rewrite str_of_Z_neg by exact H.
    rewrite parse_digits_str_of_nat. cbn. f_equal. lia.
  - rewrite str_of_Z_nonneg by exact H.
    pose proof (str_of_nat_digits (Z.to_nat n)) as Hd.
    pose proof (str_of_nat_nonempty (Z.to_nat n)) as Hn.
    pose proof (parse_digits_str_of_nat (Z.to_nat n) false) as Hp.
    destruct (str_of_nat (Z.to_nat n)) as [|c s] eqn:E; [congruence|].
    cbn in Hd. apply andb_prop in Hd as [Hc _].
    assert (Hm : c <> "-"%char) by (intros ->; discriminate).
    assert (Hq : c <> "+"%char) by (intros ->; discriminate).
    rewrite Z2Nat.id in Hp by exact H.
    destruct c as [[] [] [] [] [] [] [] []];
      try exact Hp; exfalso; congruence.
Qed.

Lemma count_digits_all (s : string) :
  all_chars isdigit s = true -> count_digits s = String.length s.
Proof.
  induction s as [|c s IH]; [reflexivity|].
  cbn. intros [Hc Hs]%andb_prop. rewrite Hc, IH by exact Hs. reflexivity.
Qed.

(** The digits of [str(n)] are those of [str(abs(n))]. *)
Lemma count_digits_str_of_Z (n : Z) :
  count_digits (str_of_Z n) = String.length (str_of_Z (Z.abs n)).
Proof.
  rewrite (str_of_Z_nonneg (Z.abs n)) by lia.
  destruct (Z.lt_ge_cases n 0) as [H|H].
  - rewrite str_of_Z_neg by exact H. cbn [count_digits].
    change (isdigit "-") with false. cbn [Nat.add].
    rewrite count_digits_all by apply str_of_nat_digits.
    do 2 f_equal. lia.
  - rewrite str_of_Z_nonneg by exact H.
    rewrite count_digits_all by apply str_of_nat_digits.
    do 2 f_equal. lia.
Qed.

(** [int(str(n)) == n] for an integer within the digit limit. *)
Lemma int_of_string_str_of_Z (n : Z) :
  (String.length (str_of_Z (Z.abs n)) <= int_max_str_digits)%nat ->
  int_of_string (str_of_Z n) = Some n.
Proof.
  intros H. unfold int_of_string.
  rewrite strip_c_no_space by apply str_of_Z_no_c_space.
  rewrite count_digits_str_of_Z.
  replace (int_max_str_digits <? _)%nat with false
    by (symmetry; apply Nat.ltb_ge; exact H).
  apply int_of_literal_str_of_Z.
Qed.

(** [int(str(n))] raises for an integer beyond the digit limit. *)
Lemma int_of_string_over_limit (n : Z) :
  (int_max_str_digits < String.length (str_of_Z (Z.abs n)))%nat ->
  int_of_string (str_of_Z n) = None.
Proof.
  intros H. unfold int_of_string.
  rewrite strip_c_no_space by apply str_of_Z_no_c_space.
  rewrite count_digits_str_of_Z.
  replace (int_max_str_digits <? _)%nat with true
    by (symmetry; apply Nat.ltb_lt; exact H).
  reflexivity.
Qed.

Lemma str_of_Z_inj (n m : Z) : str_of_Z n = str_of_Z m -> n = m.
Proof.
  intros H. apply (f_equal int_of_literal) in H.
  rewrite !int_of_literal_str_of_Z in H. congruence.
Qed.

Lemma str_of_Z_nonempty (n : Z) : str_of_Z n <> "".
Proof.
  destruct (Z.lt_ge_cases n 0) as [H|H].
  - rewrite str_of_Z_neg by exact H. discriminate.
  - rewrite str_of_Z_nonneg by exact H. apply str_of_nat_nonempty.
Qed.

Lemma str_of_Z_nonneg_digits (n : Z) :
  0 <= n -> all_chars isdigit (str_of_Z n) = true.
Proof.
  intros H. rewrite str_of_Z_nonneg by exact H. apply str_of_nat_digits.
Qed.

(** The characters of [str(n)] are digits, after a minus sign when [n] is
    negative. *)
Lemma str_of_Z_chars (n : Z) :
  all_chars (fun c => isdigit c || Ascii.eqb c "-") (str_of_Z n) = true.
Proof.
  destruct (Z.lt_ge_cases n 0) as [H|H].
  - rewrite str_of_Z_neg by exact H. cbn.
    eapply all_chars_impl; [|apply str_of_nat_digits].
    intros c ->. reflexivity.
  - rewrite str_of_Z_nonneg by exact H.
    eapply all_chars_impl; [|apply str_of_nat_digits].
    intros c ->. reflexivity.
Qed.

(** The literal [f"{n:02d}"] has the value [n] for a natural number. *)
Lemma int_of_literal_pad2 (n : Z) : 0 <= n -> int_of_literal (pad2 n) = Some n.
Proof.
  intros H. unfold pad2.
  destruct ((0 <=? n) && (n <? 10))%Z; [|apply int_of_literal_str_of_Z].
  rewrite append_cons.
  change (parse_digits 0 true (str_of_Z n) = Some n).
  rewrite str_of_Z_nonneg by exact H.
  rewrite parse_digits_str_of_nat. f_equal. lia.
Qed.

Lemma pad2_inj (n m : Z) : 0 <= n -> 0 <= m -> pad2 n = pad2 m -> n = m.
Proof.
  intros Hn Hm H. apply (f_equal int_of_literal) in H.
  rewrite !int_of_literal_pad2 in H by assumption. congruence.
Qed.

Lemma pad2_length (n : Z) : 0 <= n < 60 -> String.length (pad2 n) = 2%nat.
Proof.
  intros H.
  assert (A : forallb
                (fun k => (String.length (pad2 (Z.of_nat k)) =? 2)%nat)
                (seq 0 60) = true) by (vm_compute; reflexivity).
  rewrite forallb_forall in A.
  specialize (A (Z.to_nat n)).
  rewrite Z2Nat.id in A by lia.
  apply Nat.eqb_eq, A. apply in_seq. lia.
Qed.

Lemma pad2_digits (n : Z) : 0 <= n -> all_chars isdigit (pad2 n) = true.
Proof.
  intros H. unfold pad2.
  destruct ((0 <=? n) && (n <? 10))%Z.
  - rewrite append_cons. cbn -[str_of_Z]. now apply str_of_Z_nonneg_digits.
  - now apply str_of_Z_nonneg_digits.
Qed.

(** Two texts with tails of the same length are equal only if the heads
    and the tails are. *)
Lemma append_eq_same_tail_length (a b t u : string) :
  a ++ t = b ++ u -> String.length t = String.length u ->
  a = b /\ t = u.
Proof.
  revert b. induction a as [|x a IH]; intros b H L.
  - destruct b as [|y b]; [auto|].
    apply (f_equal String.length) in H. rewrite !length_append in H.
    cbn in H. lia.
  - destruct b as [|y b].
    + apply (f_equal String.length) in H. rewrite !length_append in H.
      cbn in H. lia.
    + rewrite !append_cons in H. injection H as -> H.
      destruct (IH b H L) as [-> ->]. auto.
Qed.

End DecimalText.

(** ** Durations ([format_duration]) *)

Section Duration.

Import Py PyStr PyText PyNum Util.
Local Open Scope string_scope.

Lemma append_assoc (a b c : string) : (a ++ b) ++ c = a ++ (b ++ c).
Proof.
  induction a as [|x a IH]; [reflexivity|].
  rewrite !append_cons. now rewrite IH.
Qed.

(** The text for a number of seconds that is not zero. *)
Lemma format_duration_int (n : Z) :
  n <> 0 ->
  format_duration (Some (Int n))
  = Return (if (0 <? n / 60 / 60)%Z
            then str_of_Z (n / 60 / 60) ++ ":" ++ pad2 ((n / 60) mod 60)
                 ++ ":" ++ pad2 (n mod 60)
            else str_of_Z ((n / 60) mod 60) ++ ":" ++ pad2 (n mod 60)).
Proof.
  intros H. unfold format_duration. cbn [truthy].
  apply Z.eqb_neq in H. rewrite H. cbn [negb int_of_num bind].
  now destruct (0 <? n / 60 / 60)%Z.
Qed.

Lemma duration_fields (n : Z) :
  0 <= (n / 60) mod 60 < 60 /\ 0 <= n mod 60 < 60
  /\ n = 3600 * (n / 60 / 60) + 60 * ((n / 60) mod 60) + n mod 60.
Proof.
  pose proof (Z.mod_pos_bound (n / 60) 60 ltac:(lia)).
  pose proof (Z.mod_pos_bound n 60 ltac:(lia)).
  pose proof (Z.div_mod n 60 ltac:(lia)).
  pose proof (Z.div_mod (n / 60) 60 ltac:(lia)).
  lia.
Qed.

Lemma clock_tail_length (s : Z) :
  0 <= s < 60 -> String.length (":" ++ pad2 s) = 3%nat.
Proof.
  intros H. rewrite length_append, pad2_length by exact H. reflexivity.
Qed.

Lemma clock_eq (a b : string) (s s' : Z) :
  0 <= s < 60 -> 0 <= s' < 60 ->
  a ++ ":" ++ pad2 s = b ++ ":" ++ pad2 s' -> a = b /\ s = s'.
Proof.
  intros Hs Hs' H.
  apply append_eq_same_tail_length in H as [-> H];
    [|now rewrite !clock_tail_length].
  rewrite !append_cons in H. injection H as H.
  split; [reflexivity|]. apply pad2_inj in H; lia.
Qed.

Lemma colon_not_digits (a b : string) :
  all_chars isdigit (a ++ ":" ++ b) = false.
Proof.
  rewrite all_chars_app, append_cons. cbn. apply andb_false_r.
Qed.

Lemma clock_regroup (h pm t : string) :
  h ++ ":" ++ pm ++ t = (h ++ ":" ++ pm) ++ t.
Proof. now rewrite (append_assoc h), (append_assoc ":"). Qed.

End Duration.

(** X3: on positive whole numbers of seconds [format_duration] loses
    nothing: two different durations are never shown as the same text. *)
Theorem X3_format_duration_injective (n m : Z) :
  0 < n -> 0 < m -> n <> m ->
  Util.format_duration (Some (PyNum.Int n))
  <> Util.format_duration (Some (PyNum.Int m)).
Proof.
  intros Hn Hm Hnm H. apply Hnm.
  rewrite !format_duration_int in H by lia.
  injection H as H.
  destruct (duration_fields n) as (Hmi & Hs & En).
  destruct (duration_fields m) as (Hmi' & Hs' & Em).
  assert (Hh : 0 <= n / 60 / 60).
  { apply Z.div_pos; [apply Z.div_pos|]; lia. }
  assert (Hh' : 0 <= m / 60 / 60).
  { apply Z.div_pos; [apply Z.div_pos|]; lia. }
  destruct (0 <? n / 60 / 60) eqn:E; destruct (0 <? m / 60 / 60) eqn:E'.
  - rewrite !clock_regroup in H.
    apply clock_eq in H as [H Hq']; [|lia|lia].
    apply clock_eq in H as [H Hq]; [|lia|lia].
    apply str_of_Z_inj in H. lia.
  - exfalso. rewrite clock_regroup in H.
    apply clock_eq in H as [H _]; [|lia|lia].
    apply (f_equal (PyText.all_chars PyText.isdigit)) in H.
    rewrite colon_not_digits in H.
    rewrite str_of_Z_nonneg_digits in H by lia. discriminate.
  - exfalso. rewrite clock_regroup in H.
    apply clock_eq in H as [H _]; [|lia|lia].
    apply (f_equal (PyText.all_chars PyText.isdigit)) in H.
    rewrite colon_not_digits in H.
    rewrite str_of_Z_nonneg_digits in H by lia. discriminate.
  - apply clock_eq in H as [H Hq]; [|lia|lia].
    apply str_of_Z_inj in H.
    apply Z.ltb_ge in E, E'. lia.
Qed.

Lemma X3_format_duration_injective_witness :
  Util.format_duration (Some (PyNum.Int 3599))
  <> Util.format_duration (Some (PyNum.Int 3600)).
Proof.
  apply (X3_format_duration_injective 3599 3600); [reflexivity..|discriminate].
Defined.

(** X4: a negative number of seconds loses its hours: it is shown as
    the minutes and seconds of its remainder modulo one hour, so that
    -1 second reads like 59:59. *)
Theorem X4_format_duration_negative (n : Z) :
  n < 0 -> n mod 3600 <> 0 ->
  Util.format_duration (Some (PyNum.Int n))
  = Util.format_duration (Some (PyNum.Int (n mod 3600))).
Proof.
  intros Hn Hr.
  rewrite !format_duration_int by lia.
  pose proof (Z.mod_pos_bound n 3600 ltac:(lia)) as Hb.
  assert (E1 : n / 60 / 60 < 0).
  { apply Z.div_lt_upper_bound; [lia|].
    apply Z.div_lt_upper_bound; lia. }
  assert (E2 : n mod 3600 / 60 / 60 = 0).
  { apply Z.div_small. split.
    - apply Z.div_pos; lia.
    - apply Z.div_lt_upper_bound; lia. }
  assert (E3 : (n mod 3600) mod 60 = n mod 60).
  { pose proof (Z.div_mod n 3600 ltac:(lia)) as D.
    apply (Z.mod_unique_pos n 60 (60 * (n / 3600) + n mod 3600 / 60)).
    - apply Z.mod_pos_bound. lia.
    - pose proof (Z.div_mod (n mod 3600) 60 ltac:(lia)). lia. }
  assert (E4 : (n mod 3600 / 60) mod 60 = (n / 60) mod 60).
  { pose proof (Z.div_mod n 3600 ltac:(lia)) as D.
    pose proof (Z.div_mod (n mod 3600) 60 ltac:(lia)) as D'.
    pose proof (Z.div_mod n 60 ltac:(lia)) as D''.
    pose proof (Z.mod_pos_bound n 60 ltac:(lia)) as B.
    assert (n / 60 = 60 * (n / 3600) + n mod 3600 / 60).
    { symmetry. apply (Z.div_unique n 60 _ (n mod 60)); lia. }
    rewrite H. rewrite Z.add_comm, Z.mul_comm, Z.mod_add by lia.
    reflexivity. }
  replace (0 <? n / 60 / 60) with false by (symmetry; apply Z.ltb_ge; lia).
  rewrite E2, E3, E4. reflexivity.
Qed.

Lemma X4_format_duration_negative_witness :
  Util.format_duration (Some (PyNum.Int (-1)))
  = Util.format_duration (Some (PyNum.Int 3599))
  /\ Util.format_duration (Some (PyNum.Int 3599)) = Py.Return "59:59"%string.
Proof.
  split; [|reflexivity].
  apply (X4_format_duration_negative (-1)); [reflexivity|discriminate].
Defined.

(** ** Floating-point facts for the size helpers *)

Section Exactness.

Import Py PyFloat PyNum.

(** The grid exponent of a quotient is determined by the quotient. *)
Lemma grid_exponent_unique (N d E E' : Z) :
  0 < d -> 0 <= E -> 0 <= E' ->
  N < d * 2 ^ (E + 53) -> (E = 0 \/ d * 2 ^ (E + 52) <= N) ->
  N < d * 2 ^ (E' + 53) -> (E' = 0 \/ d * 2 ^ (E' + 52) <= N) ->
  E = E'.
Proof.
  intros Hd HE HE' U L U' L'.
  destruct (Z.lt_trichotomy E E') as [H|[H|H]]; [exfalso|exact H|exfalso].
  - destruct L' as [L'|L']; [lia|].
    assert (2 ^ (E + 53) <= 2 ^ (E' + 52)) by (apply pow2_le; lia). nia.
  - destruct L as [L|L]; [lia|].
    assert (2 ^ (E' + 53) <= 2 ^ (E + 52)) by (apply pow2_le; lia). nia.
Qed.

(** Rounding depends on the quotient only. *)
Lemma round_ratio_scale (n d c : Z) :
  0 < n -> 0 < d -> 0 < c ->
  round_ratio (n * c) (d * c) = round_ratio n d.
Proof.
  intros Hn Hd Hc.
  destruct (round_ratio_grid (n * c) (d * c) ltac:(nia) ltac:(nia))
    as (HE & Hm & HU & HL).
  destruct (round_ratio_grid n d Hn Hd) as (HE' & Hm' & HU' & HL').
  set (E := snd (round_ratio (n * c) (d * c)) - emin) in *.
  set (E' := snd (round_ratio n d) - emin) in *.
  assert (EE : E = E').
  { apply (grid_exponent_unique (n * 2 ^ 1074) d); try assumption.
    - pose proof (pow2_pos (E + 53) ltac:(lia)). nia.
    - destruct HL as [HL|HL]; [now left|right].
      pose proof (pow2_pos (E + 52) ltac:(lia)). nia. }
  apply injective_projections.
  - rewrite Hm, Hm', EE.
    replace (n * c * 2 ^ 1074) with (n * 2 ^ 1074 * c) by ring.
    replace (d * c * 2 ^ E') with (d * 2 ^ E' * c) by ring.
    apply rne_div_scale; [|exact Hc].
    pose proof (pow2_pos E' HE'). nia.
  - subst E E'. lia.
Qed.

Lemma rne_div_exact (q b : Z) : 0 < b -> rne_div (q * b) b = q.
Proof.
  intros Hb. unfold rne_div.
  rewrite Z.div_mul, Z.mod_mul by lia.
  destruct (Z.compare_spec (2 * 0) b); lia.
Qed.

(** A quotient that is a binary64 number is not changed by rounding:
    if [n / d = M * 2 ^ E] with [M < 2 ^ 53] and [emin <= E], the rounded
    quotient has the same value. *)
Lemma round_ratio_exact (n d M E : Z) :
  0 < n -> 0 < d -> 0 < M < 2 ^ 53 -> emin <= E ->
  n * 2 ^ 1074 = d * (M * 2 ^ (E - emin)) ->
  scaled (fst (round_ratio n d)) (snd (round_ratio n d))
  = M * 2 ^ (E - emin).
Proof.
  intros Hn Hd HM HE Hv.
  destruct (round_ratio_grid n d Hn Hd) as (Hg & Hm & HU & HL).
  set (G := snd (round_ratio n d) - emin) in *.
  assert (HG : G <= E - emin).
  { destruct HL as [HL|HL]; [unfold emin in *; lia|].
    rewrite Hv in HL.
    destruct (Z_le_gt_dec G (E - emin)) as [H|H]; [exact H|exfalso].
    assert (H0 : 2 ^ (E - emin + 53) <= 2 ^ (G + 52))
      by (apply pow2_le; unfold emin in *; lia).
    rewrite pow2_split in H0 by (unfold emin in *; lia).
    pose proof (pow2_pos (E - emin) ltac:(unfold emin in *; lia)) as H1.
    apply Z.mul_le_mono_pos_l in HL; [|exact Hd].
    assert (H2 : M * 2 ^ (E - emin) < 2 ^ (E - emin) * 2 ^ 53).
    { rewrite (Z.mul_comm (2 ^ (E - emin))).
      apply Z.mul_lt_mono_pos_r; lia. }
    lia. }
  unfold scaled. fold G. rewrite Hm, Hv.
  replace (E - emin) with (E - emin - G + G) by lia.
  rewrite (pow2_split (E - emin - G) G) by lia.
  replace (d * (M * (2 ^ (E - emin - G) * 2 ^ G)))
    with (M * 2 ^ (E - emin - G) * 2 ^ G * d) by ring.
  replace (d * 2 ^ G) with (2 ^ G * d) by ring.
  rewrite rne_div_scale by (try apply pow2_pos; lia).
  rewrite rne_div_exact by (apply pow2_pos; lia).
  ring.
Qed.

(** A value below [2 ^ 1024] does not overflow. *)
Lemma no_overflow (m e : Z) :
  emin <= e -> scaled m e < 2 ^ (1024 + 1074) -> overflows m e = false.
Proof.
  intros He Hs. unfold overflows.
  destruct (Z.leb_spec 0 e) as [H|H]; [|reflexivity].
  cbn [andb]. apply Z.leb_gt. unfold scaled, emin, emax in *.
  replace (e - -1074) with (e + 1074) in Hs by lia.
  rewrite pow2_split in Hs by lia.
  change (2 ^ (1024 + 1074)) with (2 ^ 1024 * 2 ^ 1074) in Hs.
  pose proof (pow2_pos 1074 ltac:(lia)). nia.
Qed.

(** The value of a float as a multiple of [2 ^ emin], whatever the sign of
    its exponent. *)
Lemma scaled_split (m e : Z) :
  emin <= e ->
  scaled m e * 2 ^ Z.max 0 (- e) = m * 2 ^ Z.max 0 e * 2 ^ 1074.
Proof.
  intros He. unfold scaled, emin in *.
  destruct (Z_le_gt_dec 0 e) as [H|H].
  - rewrite (Z.max_l 0 (- e)), (Z.max_r 0 e) by lia.
    replace (e - -1074) with (e + 1074) by lia.
    rewrite pow2_split by lia. change (2 ^ 0) with 1. ring.
  - rewrite (Z.max_r 0 (- e)), (Z.max_l 0 e) by lia.
    change (2 ^ 0) with 1.
    assert (P : 2 ^ 1074 = 2 ^ (e - -1074) * 2 ^ (- e)).
    { rewrite <- pow2_split by lia. f_equal. lia. }
    rewrite P. ring.
Qed.

End Exactness.

(** ** File sizes ([format_filesize]) *)

Section FileSize.

Import Py PyFloat PyNum PyText Util.

Lemma rounded_exact (n d M E : Z) :
  0 < n -> 0 < d -> 0 < M < 2 ^ 53 -> emin <= E <= 0 ->
  n * 2 ^ 1074 = d * (M * 2 ^ (E - emin)) ->
  has_value (F (rounded false n d)) (M * 2 ^ (E - emin)).
Proof.
  intros Hn Hd HM HE Hv. unfold rounded.
  pose proof (round_ratio_exact n d M E Hn Hd HM (proj1 HE) Hv) as Hs.
  pose proof (round_ratio_emin n d Hn Hd) as He.
  destruct (round_ratio n d) as [m e]. cbn [fst snd] in *.
  rewrite no_overflow.
  - exists m, e. auto.
  - exact He.
  - rewrite Hs. unfold emin in *.
    assert (2 ^ (E - -1074) <= 2 ^ 1074) by (apply pow2_le; lia).
    change (2 ^ (1024 + 1074)) with (2 ^ 1024 * 2 ^ 1074).
    assert (2 ^ 53 < 2 ^ 1024) by (apply Z.pow_lt_mono_r; lia).
    pose proof (pow2_pos (E - -1074) ltac:(lia)). nia.
Qed.

Lemma to_float_value (b : Z) :
  0 < b < 2 ^ 53 ->
  exists x, to_float (Int b) = Return x /\ has_value x (b * 2 ^ 1074).
Proof.
  intros Hb. cbn [to_float]. unfold float_of_int.
  replace (b =? 0) with false by (symmetry; apply Z.eqb_neq; lia).
  replace (b <? 0) with false by (symmetry; apply Z.ltb_ge; lia).
  rewrite Z.abs_eq by lia.
  destruct (rounded_exact b 1 b 0) as (m & e & Hx & He & Hs);
    [lia | lia | lia | unfold emin; lia | unfold emin; cbn; lia |].
  injection Hx as Hx. rewrite Hx.
  exists (F (Finite false m e)). split; [reflexivity|].
  exists m, e. repeat split; [exact He|].
  rewrite Hs. unfold emin. reflexivity.
Qed.

Lemma fge_int_value (x : float) (V k : Z) :
  has_value x V -> fge_int x k = (k * 2 ^ 1074 <=? V).
Proof.
  intros (m & e & -> & He & <-). cbn [fge_int].
  pose proof (scaled_split m e He) as S.
  pose proof (pow2_pos (Z.max 0 (- e)) ltac:(lia)) as P.
  destruct (Z.leb_spec (k * 2 ^ 1074) (scaled m e)) as [H|H].
  - apply Z.leb_le. nia.
  - apply Z.leb_gt. nia.
Qed.

Lemma fdiv_1024_value (x : float) (M E : Z) :
  0 < M < 2 ^ 53 -> emin <= E <= 0 ->
  has_value x (M * 2 ^ (E + 10 - emin)) ->
  exists y,
    fdiv x (F (Finite false 1024 0)) = Return y
    /\ has_value y (M * 2 ^ (E - emin)).
Proof.
  intros HM HE (m & e & -> & He & Hs).
  assert (Hm : 0 < m).
  { unfold scaled in Hs.
    pose proof (pow2_pos (e - emin) ltac:(lia)).
    pose proof (pow2_pos (E + 10 - emin) ltac:(unfold emin in *; lia)).
    nia. }
  cbn [fdiv]. replace (m =? 0) with false by (symmetry; apply Z.eqb_neq; lia).
  eexists. split; [reflexivity|].
  cbn [xorb]. rewrite Z.sub_0_r, Z.sub_0_l.
  apply rounded_exact; try assumption.
  - pose proof (pow2_pos (Z.max 0 e) ltac:(lia)). nia.
  - pose proof (pow2_pos (Z.max 0 (- e)) ltac:(lia)). nia.
  - pose proof (scaled_split m e He) as S. rewrite Hs in S.
    replace (E + 10 - emin) with (10 + (E - emin)) in S by lia.
    rewrite pow2_split in S by (unfold emin in *; lia).
    change (2 ^ 10) with 1024 in S. lia.
Qed.

Lemma format_2f_value (x : float) (V : Z) :
  has_value x V ->
  format_2f x
  = (str_of_Z (rne_div (100 * V) (2 ^ 1074) / 100) ++ "."
     ++ pad2 (rne_div (100 * V) (2 ^ 1074) mod 100))%string.
Proof.
  intros (m & e & -> & He & <-). cbn [format_2f].
  pose proof (scaled_split m e He) as S.
  assert (R : rne_div (m * 100 * 2 ^ Z.max 0 e) (2 ^ Z.max 0 (- e))
              = rne_div (100 * scaled m e) (2 ^ 1074)).
  { rewrite <- (rne_div_scale (m * 100 * 2 ^ Z.max 0 e) _ (2 ^ 1074))
      by (apply pow2_pos; lia).
    rewrite <- (rne_div_scale (100 * scaled m e) _ (2 ^ Z.max 0 (- e)))
      by (apply pow2_pos; lia).
    f_equal; lia. }
  rewrite R. reflexivity.
Qed.

(** The loop divides by 1024 until the size is below 1024 or the last
    unit is reached. *)
Lemma scale_size_spec (b : Z) :
  0 < b < 2 ^ 53 ->
  forall (fuel j : nat) (x : float),
    (j + fuel = 4)%nat ->
    has_value x (b * 2 ^ (1074 - 10 * Z.of_nat j)) ->
    exists (y : float) (k : nat),
      scale_size fuel x j = Return (y, k)
      /\ has_value y (b * 2 ^ (1074 - 10 * Z.of_nat k))
      /\ (j <= k <= 4)%nat
      /\ ((k < 4)%nat -> b < 1024 ^ (Z.of_nat k + 1))
      /\ ((j < k)%nat -> 1024 ^ Z.of_nat k <= b).
Proof.
  intros Hb. induction fuel as [|fuel IH]; intros j x Hj Hx.
  - exists x, j. cbn [scale_size]. repeat split; auto; lia.
  - cbn [scale_size].
    rewrite (fge_int_value x _ 1024 Hx).
    change (length units - 1)%nat with 4%nat.
    replace (j <? 4)%nat with true by (symmetry; apply Nat.ltb_lt; lia).
    rewrite andb_true_r.
    assert (P : 2 ^ 1074
                = 2 ^ (10 * Z.of_nat j) * 2 ^ (1074 - 10 * Z.of_nat j)).
    { rewrite <- pow2_split by lia. f_equal. lia. }
    assert (Q : 2 ^ (10 * Z.of_nat j) = 1024 ^ Z.of_nat j).
    { rewrite Z.pow_mul_r by lia. reflexivity. }
    pose proof (pow2_pos (1074 - 10 * Z.of_nat j) ltac:(lia)) as Pp.
    destruct (Z.leb_spec (1024 * 2 ^ 1074)
                (b * 2 ^ (1074 - 10 * Z.of_nat j))) as [H|H].
    + destruct (fdiv_1024_value x b (- 10 * Z.of_nat (S j)))
        as (y & Hy & Hv); [lia | unfold emin; lia | |].
      { replace (-10 * Z.of_nat (S j) + 10 - emin)
          with (1074 - 10 * Z.of_nat j) by (unfold emin; lia).
        exact Hx. }
      rewrite Hy. cbn [bind].
      destruct (IH (S j) y ltac:(lia)) as (z & k & Hz & Hzv & Hk & Hlt & Hge).
      { replace (1074 - 10 * Z.of_nat (S j))
          with (-10 * Z.of_nat (S j) - emin) by (unfold emin; lia).
        exact Hv. }
      exists z, k. repeat split; try assumption; try lia.
      intros _. destruct (Nat.eq_dec k (S j)) as [->|Hne].
      * rewrite P, Q in H.
        replace (Z.of_nat (S j)) with (Z.of_nat j + 1) by lia.
        rewrite Z.pow_add_r by lia. change (1024 ^ 1) with 1024.
        assert (0 < 1024 ^ Z.of_nat j) by (apply Z.pow_pos_nonneg; lia).
        nia.
      * apply Hge. lia.
    + exists x, j. repeat split; try assumption; try lia.
      intros _. rewrite P, Q in H.
      rewrite Z.pow_add_r by lia. change (1024 ^ 1) with 1024.
      assert (0 < 1024 ^ Z.of_nat j) by (apply Z.pow_pos_nonneg; lia).
      nia.
Qed.

Lemma unit_index_log2 (b : Z) (k : nat) :
  0 < b -> (k <= 4)%nat ->
  ((k < 4)%nat -> b < 1024 ^ (Z.of_nat k + 1)) ->
  ((0 < k)%nat -> 1024 ^ Z.of_nat k <= b) ->
  Z.of_nat k = Z.min 4 (Z.log2 b / 10).
Proof.
  intros Hb Hk Hlt Hge.
  assert (Q : forall i, 0 <= i -> 1024 ^ i = 2 ^ (10 * i)).
  { intros i Hi. rewrite Z.pow_mul_r by lia. reflexivity. }
  assert (L : Z.of_nat k <= Z.log2 b / 10).
  { destruct k as [|k].
    - apply Z.div_pos; [apply Z.log2_nonneg|lia].
    - specialize (Hge ltac:(lia)). rewrite Q in Hge by lia.
      apply Z.log2_le_pow2 in Hge; [|exact Hb].
      apply Z.div_le_lower_bound; lia. }
  destruct (Nat.eq_dec k 4%nat) as [->|Hne]; [lia|].
  specialize (Hlt ltac:(lia)). rewrite Q in Hlt by lia.
  apply Z.log2_lt_pow2 in Hlt; [|exact Hb].
  assert (Z.log2 b / 10 < Z.of_nat k + 1)
    by (apply Z.div_lt_upper_bound; lia).
  lia.
Qed.

End FileSize.

(** X5: for a size of [b] bytes below [2 ^ 53], [format_filesize] shows
    [b / 1024 ^ k] rounded to two decimals (ties to even), where the unit
    number [k] is the largest with [1024 ^ k <= b], and 4 (TB) at most. *)
Theorem X5_format_filesize_exact (b : Z) :
  0 < b < 2 ^ 53 ->
  let k := Z.min 4 (Z.log2 b / 10) in
  let q := PyFloat.rne_div (100 * b) (1024 ^ k) in
  Util.format_filesize (Some (PyNum.Int b))
  = Py.Return (PyText.str_of_Z (q / 100) ++ "." ++ PyText.pad2 (q mod 100)
               ++ " " ++ nth (Z.to_nat k) Util.units "")%string.
Proof.
  intros Hb k q. unfold Util.format_filesize.
  cbn [PyNum.truthy PyNum.le_zero].
  replace (b =? 0) with false by (symmetry; apply Z.eqb_neq; lia).
  replace (b <=? 0) with false by (symmetry; apply Z.leb_gt; lia).
  cbn [negb orb].
  destruct (to_float_value b Hb) as (x & Hx & Hv). rewrite Hx.
  cbn [Py.bind].
  change (length Util.units - 1)%nat with 4%nat.
  destruct (scale_size_spec b Hb 4 0 x eq_refl) as (y & j & Hy & Hyv & Hj & Hlt & Hge).
  { exact Hv. }
  rewrite Hy. cbn [Py.bind fst snd].
  pose proof (unit_index_log2 b j ltac:(lia) ltac:(lia) Hlt Hge) as Ek.
  fold k in Ek.
  rewrite (format_2f_value y _ Hyv).
  assert (R : PyFloat.rne_div (100 * (b * 2 ^ (1074 - 10 * Z.of_nat j)))
                (2 ^ 1074) = q).
  { subst q. rewrite <- Ek.
    assert (P : 2 ^ 1074
                = 1024 ^ Z.of_nat j * 2 ^ (1074 - 10 * Z.of_nat j)).
    { replace (1024 ^ Z.of_nat j) with (2 ^ (10 * Z.of_nat j))
        by (rewrite Z.pow_mul_r by lia; reflexivity).
      rewrite <- pow2_split by lia. f_equal. lia. }
    rewrite P.
    replace (100 * (b * 2 ^ (1074 - 10 * Z.of_nat j)))
      with (100 * b * 2 ^ (1074 - 10 * Z.of_nat j)) by ring.
    apply rne_div_scale.
    - apply Z.pow_pos_nonneg; lia.
    - apply pow2_pos. lia. }
  rewrite R. rewrite <- Ek, Nat2Z.id.
  now rewrite <- !append_assoc.
Qed.

Lemma X5_format_filesize_exact_witness :
  Util.format_filesize (Some (PyNum.Int 1048575))
  = Py.Return "1024.00 KB"%string.
Proof.
  rewrite (X5_format_filesize_exact 1048575); [reflexivity|].
  split; reflexivity.
Defined.

(** ** Size estimates ([estimate_filesize]) *)

Section Estimate.

Import Py PyFloat PyNum PyText Util.

(** [(rate * duration * 1000) / 8] on integers is the float nearest to
    [rate * duration * 125]. *)
Lemma estimate_int_rate (rate duration : Z) :
  rate <> 0 -> 0 < duration ->
  (let* a := mul (Int rate) (Int duration) in
   let* b := mul a (Int 1000) in
   let* c := truediv b (Int 8) in
   Return (Some c))
  = (let* x := to_float (Int (rate * duration * 125)) in
     Return (Some (Flt x))).
Proof.
  intros Hr Hd. cbn [mul bind truediv to_float].
  change (8 =? 0) with false. cbv iota.
  unfold py_truediv, float_of_int, rounded.
  change (8 =? 0) with false. cbv iota.
  assert (Hp : rate * duration <> 0) by nia.
  replace (rate * duration * 1000 =? 0) with false
    by (symmetry; apply Z.eqb_neq; lia).
  replace (rate * duration * 125 =? 0) with false
    by (symmetry; apply Z.eqb_neq; lia).
  replace (Z.abs (rate * duration * 1000))
    with (Z.abs (rate * duration * 125) * 8) by lia.
  change (Z.abs 8) with (1 * 8).
  rewrite round_ratio_scale by lia.
  destruct (round_ratio (Z.abs (rate * duration * 125)) 1) as [m e].
  replace (negb (Z.sgn (rate * duration * 1000) =? Z.sgn 8))
    with (rate * duration * 125 <? 0).
  - now destruct (overflows m e).
  - change (Z.sgn 8) with 1.
    destruct (Z.ltb_spec (rate * duration * 125) 0) as [H|H]; symmetry.
    + apply negb_true_iff, Z.eqb_neq. lia.
    + apply negb_false_iff, Z.eqb_eq. lia.
Qed.

Lemma bitrate_for_height_pos (h : Z) : 0 < bitrate_for_height h.
Proof.
  unfold bitrate_for_height.
  repeat match goal with |- context [if ?c then _ else _] => destruct c end;
    lia.
Qed.

End Estimate.

(** X6: for a format without a bit rate and a whole number of seconds,
    the estimated size is the bit rate assumed for the height times the
    duration times 125 bytes, converted to a float; nothing is estimated
    without a height. *)
Theorem X6_estimate_filesize_by_height (fmt : Util.ydl_format) (duration : Z) :
  0 < duration ->
  PyNum.truthy_opt (Py.get (Util.tbr fmt)) = false ->
  PyNum.truthy_opt (Py.get (Util.abr fmt)) = false ->
  Util.estimate_filesize fmt (Some (PyNum.Int duration))
  = match Py.get_or (Util.height fmt) 0 with
    | Some h =>
        if h =? 0 then Py.Return None
        else
          Py.bind
            (PyNum.to_float
               (PyNum.Int (Util.bitrate_for_height h * duration * 125)))
            (fun x => Py.Return (Some (PyNum.Flt x)))
    | None => Py.Return None
    end.
Proof.
  intros Hd Ht Ha. unfold Util.estimate_filesize.
  cbn [PyNum.truthy PyNum.le_zero].
  replace (duration =? 0) with false by (symmetry; apply Z.eqb_neq; lia).
  replace (duration <=? 0) with false by (symmetry; apply Z.leb_gt; lia).
  cbn [negb orb]. unfold Util.num_or at 2. rewrite Ht.
  unfold Util.num_or. rewrite Ha. cbn [PyNum.truthy_opt PyNum.truthy].
  change (0 =? 0) with true. cbn [negb].
  destruct (Py.get_or (Util.height fmt) 0) as [h|]; [|reflexivity].
  destruct (h =? 0) eqn:E; [reflexivity|].
  apply estimate_int_rate; [|exact Hd].
  pose proof (bitrate_for_height_pos h). lia.
Qed.

Lemma X6_estimate_filesize_by_height_witness :
  Util.estimate_filesize
    {| Util.format_id := Py.Val "137"%string; Util.vcodec := Py.Absent;
       Util.acodec := Py.Absent; Util.height := Py.Val 1080;
       Util.width := Py.Val 1920; Util.ext := Py.Absent;
       Util.format_note := Py.Absent; Util.filesize := Py.Null;
       Util.filesize_approx := Py.Absent; Util.tbr := Py.Null;
       Util.abr := Py.Absent |}
    (Some (PyNum.Int 60))
  = Py.Return (Some (PyNum.Flt (PyNum.F
      (PyFloat.Finite false 8053063680000000 (-27))))).
Proof.
  rewrite X6_estimate_filesize_by_height; [|reflexivity..].
  vm_compute. reflexivity.
Defined.

(** ** The list of formats ([get_available_formats]) *)

Section Formats.

Import Py PyStr PyText PyNum Util Downloader.

Lemma quality_id_inj (h h' : Z) : quality_id h = quality_id h' -> h = h'.
Proof.
  unfold quality_id. intros H. apply append_inv_tail in H.
  now apply str_of_Z_inj.
Qed.

Lemma made_from_snoc (done : list ydl_format) (fmt : ydl_format)
    (e : format_entry) :
  made_from done e -> made_from (done ++ [fmt]) e.
Proof.
  intros (pre & post & f & w & -> & H).
  exists pre, (post ++ [fmt])%list, f, w. split; [|exact H].
  now rewrite <- app_assoc.
Qed.

Lemma resolution_of_nonzero (fmt : ydl_format) (h w : Z) :
  resolution_of fmt = Some (h, w) -> h <> 0 /\ w <> 0.
Proof.
  unfold resolution_of. intros H.
  assert (H' : match get_or (height fmt) 0, get_or (width fmt) 0 with
               | Some h, Some w =>
                   if (h =? 0) || (w =? 0) then None else Some (h, w)
               | _, _ => None
               end = Some (h, w)).
  { destruct (get_or (vcodec fmt) "") as [s|]; [|exact H].
    destruct (String.eqb_spec s "none") as [->|Hne]; [discriminate|].
    destruct s as [|c s]; [exact H|].
    revert H. repeat (match goal with
                      | |- context [match ?x with _ => _ end] =>
                          destruct x; try discriminate; try congruence
                      end); auto. }
  destruct (get_or (height fmt) 0) as [h0|]; [|discriminate].
  destruct (get_or (width fmt) 0) as [w0|]; [|discriminate].
  destruct ((h0 =? 0) || (w0 =? 0)) eqn:E; [discriminate|].
  injection H' as -> ->. apply orb_false_iff in E as [E1 E2].
  apply Z.eqb_neq in E1, E2. auto.
Qed.

Lemma add_format_invariant (duration_sec : option num)
    (done : list ydl_format) (fmt : ydl_format)
    (acc acc' : list format_entry * gset string) :
  loop_invariant done acc ->
  add_format duration_sec acc fmt = Return acc' ->
  loop_invariant (done ++ [fmt]) acc'.
Proof.
  intros (I1 & I2 & I3 & I4 & I5) H.
  destruct acc as [vf seen]. unfold add_format in H. cbn [fst snd] in *.
  assert (Keep : loop_invariant (done ++ [fmt]) (vf, seen)
                 \/ exists h w, resolution_of fmt = Some (h, w)
                                /\ quality_id h ∉ seen).
  { destruct (resolution_of fmt) as [[h w]|] eqn:R.
    - destruct (decide (quality_id h ∈ seen)) as [Hin|Hnin];
        [left|right; eauto].
      split; [exact I1|]. split; [exact I2|]. split; [exact I3|].
      split; [eapply Forall_impl; [exact I4|apply made_from_snoc]|].
      cbn [fst]. intros f h' w' Hf Hr.
      apply elem_of_app in Hf as [Hf|Hf]; [eauto|].
      apply list_elem_of_singleton in Hf as ->.
      rewrite R in Hr. injection Hr as <- <-.
      apply I1 in Hin as (e & He & Hq). apply quality_id_inj in Hq.
      eauto.
    - left.
      split; [exact I1|]. split; [exact I2|]. split; [exact I3|].
      split; [eapply Forall_impl; [exact I4|apply made_from_snoc]|].
      cbn [fst]. intros f h' w' Hf Hr.
      apply elem_of_app in Hf as [Hf|Hf]; [eauto|].
      apply list_elem_of_singleton in Hf as ->. congruence. }
  destruct (resolution_of fmt) as [[h w]|] eqn:R;
    [|injection H as <-; destruct Keep as [K|(?&?&?&?)];
      [exact K|discriminate]].
  destruct (decide (quality_id h ∈ seen)) as [Hin|Hnin].
  { rewrite bool_decide_eq_true_2 in H by exact Hin. injection H as <-.
    destruct Keep as [K|(h' & w' & E & Hn)]; [exact K|].
    injection E as <- <-. contradiction. }
  clear Keep. rewrite bool_decide_eq_false_2 in H by exact Hnin.
  destruct (resolution_of_nonzero fmt h w R) as [Hh Hw].
  match type of H with
  | bind ?s _ = _ => destruct s as [size|]; [|discriminate]
  end.
  cbn [bind] in H.
  destruct (item "format_id" (format_id fmt)) as [id|] eqn:Eid;
    [|discriminate].
  cbn [bind] in H. injection H as <-.
  unfold loop_invariant. cbn [fst snd].
  match goal with
  | |- context [(vf ++ [?e])%list] => set (e0 := e)
  end.
  assert (Hk : height_key e0 = h) by reflexivity.
  assert (Hfresh : h ∉ map height_key vf).
  { intros Hin. apply list_elem_of_fmap in Hin as (e & He & Hine).
    apply Hnin, I1. exists e. split; [exact Hine|]. now rewrite <- He. }
  split; [|split; [|split; [|split]]].
  - intros q. rewrite elem_of_union, elem_of_singleton, I1. split.
    + intros [->|(e & He & ->)].
      * exists e0. split; [apply elem_of_app; right; apply list_elem_of_here|].
        reflexivity.
      * exists e. split; [apply elem_of_app; now left|reflexivity].
    + intros (e & He & ->).
      apply elem_of_app in He as [He|He]; [right; eauto|].
      apply list_elem_of_singleton in He as ->. now left.
  - rewrite map_app. cbn [map]. apply NoDup_app. split; [exact I2|].
    split; [|apply NoDup_singleton].
    intros x Hx Hx'. apply list_elem_of_singleton in Hx' as ->.
    rewrite Hk in Hx. contradiction.
  - apply Forall_app. split; [exact I3|]. apply Forall_singleton.
    split; [reflexivity|]. exists h, w. repeat split; assumption.
  - apply Forall_app. split.
    + eapply Forall_impl; [exact I4|apply made_from_snoc].
    + apply Forall_singleton. exists done, [], fmt, w.
      split; [reflexivity|]. split; [exact R|]. split; [reflexivity|].
      split.
      { destruct (format_id fmt); cbn in Eid; try discriminate;
          injection Eid as <-; reflexivity. }
      split; [reflexivity|].
      apply Forall_forall. intros f Hf w' Hr. rewrite Hk in Hr.
      destruct (I5 f h w' Hf Hr) as (e & He & Hke).
      apply Hfresh. rewrite <- Hke. apply list_elem_of_fmap. eauto.
  - intros f h' w' Hf Hr.
    apply elem_of_app in Hf as [Hf|Hf].
    + destruct (I5 f h' w' Hf Hr) as (e & He & Hke).
      exists e. split; [apply elem_of_app; now left|exact Hke].
    + apply list_elem_of_singleton in Hf as ->.
      rewrite R in Hr. injection Hr as <- <-.
      exists e0. split; [apply elem_of_app; right; apply list_elem_of_here|].
      reflexivity.
Qed.

Lemma add_formats_invariant (duration_sec : option num)
    (fmts : list ydl_format) :
  forall (done : list ydl_format)
         (acc acc' : list format_entry * gset string),
    loop_invariant done acc ->
    add_formats duration_sec acc fmts = Return acc' ->
    loop_invariant (done ++ fmts) acc'.
Proof.
  induction fmts as [|fmt fmts IH]; intros done acc acc' Hi H.
  - cbn in H. injection H as <-. now rewrite app_nil_r.
  - cbn [add_formats] in H.
    destruct (add_format duration_sec acc fmt) as [acc1|] eqn:E;
      [|discriminate].
    cbn [bind] in H.
    replace (done ++ fmt :: fmts)%list with ((done ++ [fmt]) ++ fmts)%list
      by (now rewrite <- app_assoc).
    eapply IH; [|exact H]. eapply add_format_invariant; eassumption.
Qed.

Lemma loop_invariant_start : loop_invariant [] ([], ∅).
Proof.
  split; [|split; [|split; [|split]]]; cbn.
  - intros q. split; [intros H; now apply elem_of_empty in H|].
    intros (e & He & _). now apply not_elem_of_nil in He.
  - constructor.
  - constructor.
  - constructor.
  - intros f h w Hf. now apply not_elem_of_nil in Hf.
Qed.

(** *** Sorting by height *)

Lemma insert_desc_perm (x : format_entry) (l : list format_entry) :
  Permutation (insert_desc x l) (x :: l).
Proof.
  induction l as [|y l IH]; [reflexivity|]. cbn.
  destruct (height_key y <=? height_key x); [reflexivity|].
  rewrite IH. apply perm_swap.
Qed.

Lemma sort_desc_perm (l : list format_entry) : Permutation (sort_desc l) l.
Proof.
  induction l as [|x l IH]; [reflexivity|].
  unfold sort_desc in *. cbn [foldr]. rewrite insert_desc_perm.
  now constructor.
Qed.

Lemma insert_desc_sorted (x : format_entry) (l : list format_entry) :
  StronglySorted (fun a b => height_key b <= height_key a) l ->
  StronglySorted (fun a b => height_key b <= height_key a) (insert_desc x l).
Proof.
  induction l as [|y l IH]; intros H; cbn.
  - repeat constructor.
  - apply StronglySorted_inv in H as [Hs Hy].
    destruct (Z.leb_spec (height_key y) (height_key x)) as [L|L].
    + constructor; [now constructor|].
      constructor; [exact L|].
      eapply Forall_impl; [exact Hy|]. cbn. intros; lia.
    + constructor; [now apply IH|].
      rewrite insert_desc_perm. constructor; [lia|exact Hy].
Qed.

Lemma sort_desc_sorted (l : list format_entry) :
  StronglySorted (fun a b => height_key b <= height_key a) (sort_desc l).
Proof.
  induction l as [|x l IH]; [constructor|].
  unfold sort_desc in *. cbn [foldr]. now apply insert_desc_sorted.
Qed.

(** With pairwise distinct heights the order is strict. *)
Lemma sorted_strict (l : list format_entry) :
  NoDup (map height_key l) ->
  StronglySorted (fun a b => height_key b <= height_key a) l ->
  StronglySorted (fun a b => height_key b < height_key a) l.
Proof.
  induction l as [|x l IH]; intros Hn Hs; [constructor|].
  cbn in Hn. apply NoDup_cons in Hn as [Hx Hn].
  apply StronglySorted_inv in Hs as [Hs Hf].
  constructor; [now apply IH|].
  apply Forall_forall. intros y Hy.
  rewrite Forall_forall in Hf. specialize (Hf y Hy).
  assert (height_key y <> height_key x).
  { intros E. apply Hx. rewrite <- E. apply list_elem_of_fmap. eauto. }
  lia.
Qed.

End Formats.

Section FetchedFormats.

Import Py PyStr PyText PyNum Util Downloader.

Lemma formats_of_spec (url : string) (info : ydl_info) (r : fetched) :
  formats_of url info = Return r ->
  exists (audio_size : option num) (fmts : list ydl_format)
         (acc : list format_entry * gset string),
    get_or (i_formats info) [] = Some fmts
    /\ loop_invariant fmts acc
    /\ fst r = audio_format audio_size :: sort_desc (fst acc)
    /\ is_Some (snd r).
Proof.
  unfold formats_of. intros H.
  destruct (estimate_filesize abr_192 _) as [audio_size|]; [|discriminate].
  cbn [bind] in H.
  destruct (get_or (i_formats info) []) as [fmts|]; [|discriminate].
  cbn [bind] in H.
  destruct (add_formats _ _ fmts) as [acc|] eqn:E; [|discriminate].
  cbn [bind] in H. injection H as <-.
  exists audio_size, fmts, acc. split; [reflexivity|].
  split; [|split; [reflexivity|eexists; reflexivity]].
  apply (add_formats_invariant _ fmts [] _ _ loop_invariant_start E).
Qed.

Lemma get_available_formats_miss (st st' : fetch_state) (url : string)
    (info : ydl_info) (formats : list format_entry) (vi : video_info) :
  info_cache st !! url = None ->
  get_available_formats st url (Return (Some info))
  = ((formats, Some vi), st') ->
  formats_of url info = Return (formats, Some vi)
  /\ st' = {| info_cache := <[url := (formats, Some vi)]> (info_cache st);
              current_info := Some info |}.
Proof.
  intros Hm H. unfold get_available_formats in H. rewrite Hm in H.
  destruct (formats_of url info) as [r|]; [|discriminate].
  injection H as -> <-. auto.
Qed.

Lemma add_formats_app (duration_sec : option num)
    (l1 l2 : list ydl_format) :
  forall acc,
    add_formats duration_sec acc (l1 ++ l2)
    = (let* a := add_formats duration_sec acc l1 in
       add_formats duration_sec a l2).
Proof.
  induction l1 as [|f l1 IH]; intros acc; [reflexivity|].
  cbn [add_formats app].
  destruct (add_format duration_sec acc f) as [a|]; [|reflexivity].
  cbn [bind]. apply IH.
Qed.

End FetchedFormats.

(** X7: the list of formats starts with the MP3 entry, followed by the
    video entries in strictly descending order of height: no two entries
    have the same height, and each one is named after its height and
    carries its resolution. *)
Theorem X7_get_available_formats_sorted (st st' : Downloader.fetch_state)
    (url : string) (info : Downloader.ydl_info)
    (formats : list Downloader.format_entry) (vi : Downloader.video_info) :
  Downloader.info_cache st !! url = None ->
  Downloader.get_available_formats st url (Py.Return (Some info))
  = ((formats, Some vi), st') ->
  exists audio videos,
    formats = audio :: videos
    /\ Downloader.e_is_audio audio = true
    /\ Downloader.e_id audio = Some "mp3"%string
    /\ Downloader.e_resolution audio = "Audio only"%string
    /\ Forall video_entry videos
    /\ StronglySorted
         (fun a b => Downloader.height_key b < Downloader.height_key a)
         videos.
Proof.
  intros Hm H.
  destruct (get_available_formats_miss _ _ _ _ _ _ Hm H) as [Hf _].
  destruct (formats_of_spec _ _ _ Hf)
    as (audio_size & fmts & acc & _ & (_ & I2 & I3 & _) & Hr & _).
  cbn [fst] in Hr. subst formats.
  exists (Downloader.audio_format audio_size),
         (Downloader.sort_desc (fst acc)).
  repeat split.
  - eapply Permutation_Forall; [|exact I3].
    symmetry. apply sort_desc_perm.
  - apply sorted_strict; [|apply sort_desc_sorted].
    assert (P : Permutation
                  (map Downloader.height_key (Downloader.sort_desc (fst acc)))
                  (map Downloader.height_key (fst acc)))
      by apply Permutation_map, sort_desc_perm.
    rewrite P. exact I2.
Qed.

Lemma X7_get_available_formats_sorted_witness :
  exists audio videos,
    sample_formats = audio :: videos
    /\ Downloader.e_is_audio audio = true
    /\ Downloader.e_id audio = Some "mp3"%string
    /\ Downloader.e_resolution audio = "Audio only"%string
    /\ Forall video_entry videos
    /\ StronglySorted
         (fun a b => Downloader.height_key b < Downloader.height_key a)
         videos.
Proof.
  apply (X7_get_available_formats_sorted fresh_state (snd sample_fetch)
           sample_url sample_info sample_formats sample_video_info);
    [reflexivity|vm_compute; reflexivity].
Defined.

(** X8: a height is listed exactly when some format of the video has a
    video codec, that height and a width; the entry listed for it is
    made from the first such format in the library's order, later ones
    of the same height being dropped. *)
Theorem X8_get_available_formats_first_wins (st st' : Downloader.fetch_state)
    (url : string) (info : Downloader.ydl_info)
    (fmts : list Util.ydl_format)
    (formats : list Downloader.format_entry) (vi : Downloader.video_info) :
  Downloader.info_cache st !! url = None ->
  Py.get_or (Downloader.i_formats info) [] = Some fmts ->
  Downloader.get_available_formats st url (Py.Return (Some info))
  = ((formats, Some vi), st') ->
  Forall (made_from fmts) (tail formats)
  /\ (forall f h w,
        f ∈ fmts -> Downloader.resolution_of f = Some (h, w) ->
        exists e, e ∈ tail formats /\ Downloader.e_height e = Py.Val h).
Proof.
  intros Hm Hfm H.
  destruct (get_available_formats_miss _ _ _ _ _ _ Hm H) as [Hf _].
  destruct (formats_of_spec _ _ _ Hf)
    as (audio_size & fmts' & acc & Hfm' & (_ & _ & I3 & I4 & I5) & Hr & _).
  rewrite Hfm in Hfm'. injection Hfm' as <-.
  cbn [fst] in Hr. subst formats. cbn [tail].
  split.
  - eapply Permutation_Forall; [|exact I4].
    symmetry. apply sort_desc_perm.
  - intros f h w Hin Hres.
    destruct (I5 f h w Hin Hres) as (e & He & Hk).
    exists e. split.
    + rewrite sort_desc_perm. exact He.
    + rewrite Forall_forall in I3.
      destruct (I3 e He) as (_ & h' & w' & Hh & _).
      unfold Downloader.height_key in Hk. rewrite Hh in Hk. now subst.
Qed.

Lemma X8_get_available_formats_first_wins_witness :
  Forall (made_from sample_streams) (tail sample_formats)
  /\ (forall f h w,
        f ∈ sample_streams -> Downloader.resolution_of f = Some (h, w) ->
        exists e,
          e ∈ tail sample_formats /\ Downloader.e_height e = Py.Val h).
Proof.
  apply (X8_get_available_formats_first_wins fresh_state (snd sample_fetch)
           sample_url sample_info sample_streams sample_formats
           sample_video_info);
    [reflexivity|reflexivity|vm_compute; reflexivity].
Defined.

(** X9: a single format that would be listed but has no ['format_id']
    makes the whole call fail: the result is the empty list without
    info, nothing is cached, and [current_info] is set all the same. *)
Theorem X9_get_available_formats_missing_id (st : Downloader.fetch_state)
    (url : string) (info : Downloader.ydl_info)
    (pre post : list Util.ydl_format) (fmt : Util.ydl_format) (h w : Z) :
  Downloader.info_cache st !! url = None ->
  Downloader.i_formats info = Py.Val (pre ++ fmt :: post)%list ->
  Downloader.resolution_of fmt = Some (h, w) ->
  Forall (fun f => forall w', Downloader.resolution_of f <> Some (h, w')) pre ->
  Util.format_id fmt = Py.Absent ->
  Downloader.get_available_formats st url (Py.Return (Some info))
  = (([], None),
     {| Downloader.info_cache := Downloader.info_cache st;
        Downloader.current_info := Some info |}).
Proof.
  intros Hm Hfm Hres Hpre Hid.
  unfold Downloader.get_available_formats. rewrite Hm.
  assert (R : exists e, Downloader.formats_of url info = Py.Raise e).
  { unfold Downloader.formats_of. rewrite Hfm. cbn [Py.get_or].
    destruct (Util.estimate_filesize Downloader.abr_192 _) as [a|e];
      [|eauto].
    cbn [Py.bind]. rewrite add_formats_app.
    destruct (Downloader.add_formats _ _ pre) as [acc|e] eqn:E; [|eauto].
    cbn [Py.bind Downloader.add_formats].
    pose proof (add_formats_invariant _ pre [] _ _ loop_invariant_start E)
      as (I1 & _ & _ & I4 & _).
    assert (Hnew : Downloader.quality_id h ∉ snd acc).
    { intros Hin. apply I1 in Hin as (e & He & Hq).
      apply quality_id_inj in Hq. subst h.
      rewrite Forall_forall in I4.
      destruct (I4 e He) as (p1 & p2 & f & w1 & Hsplit & Hr & _).
      cbn [app] in Hsplit. subst pre.
      apply Forall_app in Hpre as [_ Hpre].
      apply Forall_cons in Hpre as [Hpre _]. now apply (Hpre w1). }
    destruct acc as [vf seen]. unfold Downloader.add_format.
    rewrite Hres. cbn [snd] in Hnew.
    rewrite bool_decide_eq_false_2 by exact Hnew.
    cbv zeta. rewrite Hid. cbn [Py.item].
    match goal with
    | |- context [Py.bind ?s (fun size => Py.bind (Py.Raise _) _)] =>
        destruct s as [size|e]
    end; cbn [Py.bind]; eauto. }
  destruct R as [e ->]. reflexivity.
Qed.

Lemma X9_get_available_formats_missing_id_witness :
  Downloader.get_available_formats fresh_state sample_url
    (Py.Return (Some broken_info))
  = (([], None),
     {| Downloader.info_cache := Downloader.info_cache fresh_state;
        Downloader.current_info := Some broken_info |}).
Proof.
  apply (X9_get_available_formats_missing_id fresh_state sample_url broken_info
           [audio_stream] [video_stream "137" "avc1" 1080 1920]
           nameless_stream 480 854);
    [reflexivity|reflexivity|reflexivity| |reflexivity].
  repeat constructor. intros w'. vm_compute. discriminate.
Defined.

(** X10: a successful result is cached under its URL: every later call
    for that URL returns it without consulting the library and leaves
    the downloader as it is. A failed call caches nothing, and no call
    touches the entries of other URLs. *)
Theorem X10_get_available_formats_cached (st st' : Downloader.fetch_state)
    (url : string) (extract_info : Py.result (option Downloader.ydl_info))
    (r : Downloader.fetched) :
  Downloader.get_available_formats st url extract_info = (r, st') ->
  (snd r <> None ->
   forall later, Downloader.get_available_formats st' url later = (r, st'))
  /\ (snd r = None -> Downloader.info_cache st' = Downloader.info_cache st)
  /\ (forall other, other <> url ->
        Downloader.info_cache st' !! other = Downloader.info_cache st !! other).
Proof.
  unfold Downloader.get_available_formats. intros H.
  destruct (Downloader.info_cache st !! url) as [cached|] eqn:Hc.
  - injection H as <- <-. repeat split.
    intros _ later. now rewrite Hc.
  - destruct extract_info as [[info|]|e].
    + destruct (Downloader.formats_of url info) as [r'|e] eqn:Hf.
      * injection H as <- <-. cbn [Downloader.info_cache]. repeat split.
        -- intros _ later. now rewrite lookup_insert_eq.
        -- intros Hn. destruct (formats_of_spec _ _ _ Hf)
             as (_ & _ & _ & _ & _ & _ & [v Hv]). congruence.
        -- intros other Hne. apply lookup_insert_ne. congruence.
      * injection H as <- <-. cbn. repeat split. congruence.
    + injection H as <- <-. cbn. repeat split. congruence.
    + injection H as <- <-. cbn. repeat split. congruence.
Qed.

Lemma X10_get_available_formats_cached_witness :
  (snd (fst sample_fetch) <> None ->
   forall later,
     Downloader.get_available_formats (snd sample_fetch) sample_url later
     = (fst sample_fetch, snd sample_fetch))
  /\ (snd (fst sample_fetch) = None ->
      Downloader.info_cache (snd sample_fetch)
      = Downloader.info_cache fresh_state)
  /\ (forall other, other <> sample_url ->
        Downloader.info_cache (snd sample_fetch) !! other
        = Downloader.info_cache fresh_state !! other).
Proof.
  apply (X10_get_available_formats_cached fresh_state (snd sample_fetch)
           sample_url (Py.Return (Some sample_info)) (fst sample_fetch)).
  vm_compute. reflexivity.
Defined.

(** ** Choosing a format ([update_format_list], [get_selected_format],
       and the options of [download_video]) *)

Section Selection.

Import Py PyStr PyText PyNum Util Downloader FormatList.

Lemma quality_id_chars (h : Z) :
  all_chars quality_char (quality_id h) = true.
Proof.
  unfold quality_id. rewrite all_chars_app. apply andb_true_iff. split.
  - eapply all_chars_impl; [|apply str_of_Z_chars].
    intros c Hc. unfold quality_char. now rewrite Hc.
  - reflexivity.
Qed.

Lemma not_quality_id (s : string) (h : Z) :
  all_chars quality_char s = false -> s <> quality_id h.
Proof. intros H ->. now rewrite quality_id_chars in H. Qed.

Lemma resolution_not_quality_id (w h h' : Z) :
  (str_of_Z w ++ "x" ++ str_of_Z h)%string <> quality_id h'.
Proof.
  apply not_quality_id. rewrite all_chars_app, append_cons.
  cbn. apply andb_false_r.
Qed.

Lemma video_entry_key (e : format_entry) :
  video_entry e ->
  e_is_audio e = false
  /\ get (e_quality_name e) = Some (quality_id (height_key e))
  /\ get_or (e_quality_name e) "Unknown"%string
     = Some (quality_id (height_key e))
  /\ forall h, e_resolution e <> quality_id h.
Proof.
  intros (Ha & h & w & Hh & Hw & _ & _ & Hq & Hr).
  unfold height_key. rewrite Hh, Hq, Hr. repeat split; [exact Ha|].
  intros h'. apply resolution_not_quality_id.
Qed.

(** The loop of [get_selected_format] finds the entry of a height. *)
Lemma find_format_video (videos : list format_entry) :
  Forall video_entry videos ->
  NoDup (map height_key videos) ->
  forall (i : nat) (v : format_entry),
    videos !! i = Some v ->
    find_format (quality_id (height_key v)) videos = Some v.
Proof.
  induction videos as [|e videos IH]; intros Hf Hn i v Hi;
    [now rewrite lookup_nil in Hi|].
  apply Forall_cons in Hf as [He Hf]. cbn in Hn.
  apply NoDup_cons in Hn as [Hx Hn].
  destruct (video_entry_key e He) as (Ha & Hq & _ & Hr).
  cbn [find_format]. rewrite Ha, Hq. cbn [negb]. rewrite andb_true_r.
  replace (String.eqb (e_resolution e) (quality_id (height_key v)))
    with false by (symmetry; apply String.eqb_neq, Hr).
  rewrite orb_false_r.
  destruct i as [|i]; cbn in Hi.
  - injection Hi as ->. now rewrite bool_decide_eq_true_2.
  - rewrite bool_decide_eq_false_2; [now apply (IH Hf Hn i)|].
    intros E. injection E as E. apply quality_id_inj in E.
    apply Hx. rewrite E. apply list_elem_of_fmap. exists v.
    split; [reflexivity|]. eapply list_elem_of_lookup_2. exact Hi.
Qed.

(** The rows shown for video entries carry their quality names. *)
Lemma rows_of_videos (videos : list format_entry) :
  Forall video_entry videos ->
  forall rows,
    rows_of false videos = Return rows ->
    Forall2 (fun v r => fst (fst (fst r)) = quality_id (height_key v))
            videos rows.
Proof.
  induction videos as [|e videos IH]; intros Hf rows H.
  - cbn in H. injection H as <-. constructor.
  - apply Forall_cons in Hf as [He Hf].
    destruct (video_entry_key e He) as (Ha & _ & Hq & _).
    cbn [rows_of] in H. rewrite Ha in H.
    destruct (video_row e) as [r|] eqn:Er; [|discriminate].
    cbn [bind] in H.
    destruct (rows_of false videos) as [rs|]; [|discriminate].
    cbn [bind] in H. injection H as <-. constructor; [|now apply IH].
    unfold video_row in Er. rewrite Hq in Er.
    destruct (if truthy_opt (e_filesize e) then _ else _); [|discriminate].
    cbn [bind] in Er. injection Er as <-. reflexivity.
Qed.

Lemma rstrip_char_absent (a : ascii) (s : string) :
  all_chars (fun c => negb (Ascii.eqb c a)) s = true ->
  rstrip_char a s = s.
Proof.
  induction s as [|c s IH]; [reflexivity|].
  cbn. intros [Hc Hs]%andb_prop. rewrite IH by exact Hs.
  apply negb_true_iff in Hc. rewrite Hc. now destruct s.
Qed.

Lemma rstrip_char_snoc (a : ascii) (s : string) :
  all_chars (fun c => negb (Ascii.eqb c a)) s = true ->
  rstrip_char a (s ++ String a "") = s.
Proof.
  intros H. rewrite <- (rstrip_char_absent a s H) at 2. clear H.
  induction s as [|c s IH].
  - change ("" ++ String a "")%string with (String a "").
    cbn. now rewrite Ascii.eqb_refl.
  - rewrite append_cons. cbn [rstrip_char]. now rewrite IH.
Qed.

Lemma str_of_Z_no_p (h : Z) :
  all_chars (fun c => negb (Ascii.eqb c "p")) (str_of_Z h) = true.
Proof.
  eapply all_chars_impl; [|apply str_of_Z_chars].
  intros c Hc. apply orb_prop in Hc as [Hc|Hc].
  - destruct (Ascii.eqb_spec c "p") as [->|]; [discriminate|reflexivity].
  - apply Ascii.eqb_eq in Hc as ->. reflexivity.
Qed.

End Selection.

(** X11: after the formats of a video have been fetched and listed for
    video download, selecting a row makes [get_selected_format] return
    the id of exactly the format that row shows: the rows are the video
    entries in order, each under its quality name. *)
Theorem X11_get_selected_format_of_row (st st' : Downloader.fetch_state)
    (url : string) (info : Downloader.ydl_info)
    (formats : list Downloader.format_entry) (vi : Downloader.video_info)
    (panel panel' : FormatList.format_panel) (i : nat)
    (r : FormatList.row) :
  Downloader.info_cache st !! url = None ->
  Downloader.get_available_formats st url (Py.Return (Some info))
  = ((formats, Some vi), st') ->
  FormatList.format_var panel <> "mp3"%string ->
  FormatList.available_formats panel = formats ->
  FormatList.update_format_list (Some formats) panel = Py.Return panel' ->
  FormatList.format_list panel' !! i = Some r ->
  exists v,
    tail formats !! i = Some v
    /\ fst (fst (fst r)) = Downloader.quality_id (Downloader.height_key v)
    /\ FormatList.get_selected_format (FormatList.select_row i panel')
       = Py.Return (Downloader.e_id v).
Proof.
  intros Hm Hg Hvar Hav Hup Hrow.
  destruct (get_available_formats_miss _ _ _ _ _ _ Hm Hg) as [Hf _].
  destruct (formats_of_spec _ _ _ Hf)
    as (audio_size & fmts & acc & _ & (_ & I2 & I3 & _) & Hr & _).
  cbn [fst] in Hr.
  set (videos := Downloader.sort_desc (fst acc)) in *.
  assert (Hv : Forall video_entry videos).
  { eapply Permutation_Forall; [|exact I3]. symmetry. apply sort_desc_perm. }
  assert (Hn : NoDup (map Downloader.height_key videos)).
  { assert (P : Permutation (map Downloader.height_key videos)
                  (map Downloader.height_key (fst acc)))
      by apply Permutation_map, sort_desc_perm.
    rewrite P. exact I2. }
  apply String.eqb_neq in Hvar.
  unfold FormatList.update_format_list in Hup.
  rewrite Hr, Hvar in Hup. cbn [FormatList.rows_of] in Hup.
  change (Downloader.e_is_audio (Downloader.audio_format audio_size))
    with true in Hup. cbv iota in Hup.
  destruct (FormatList.rows_of false videos) as [rows|] eqn:Erows;
    [|discriminate].
  cbn [Py.bind] in Hup. injection Hup as <-.
  change (rows !! i = Some r) in Hrow.
  pose proof (rows_of_videos videos Hv rows Erows) as F2.
  destruct (Forall2_lookup_r _ _ _ _ _ F2 Hrow) as (v & Hvi & Hq).
  exists v. rewrite Hr. cbn [tail]. split; [exact Hvi|].
  split; [exact Hq|].
  unfold FormatList.get_selected_format, FormatList.select_row.
  cbn [FormatList.format_var FormatList.selection FormatList.format_list
       FormatList.available_formats].
  rewrite Hvar. unfold FormatList.row in *. rewrite Hrow, Hav, Hr.
  destruct r as [[[resolution c2] c3] c4]. cbn [fst] in Hq. subst resolution.
  cbn [FormatList.find_format].
  change (Downloader.e_is_audio (Downloader.audio_format audio_size))
    with true.
  cbn [negb]. rewrite andb_false_r.
  now rewrite (find_format_video videos Hv Hn i v Hvi).
Qed.

Lemma X11_get_selected_format_of_row_witness :
  exists v,
    tail sample_formats !! 1%nat = Some v
    /\ "720p"%string = Downloader.quality_id (Downloader.height_key v)
    /\ FormatList.get_selected_format (FormatList.select_row 1 listed_panel)
       = Py.Return (Downloader.e_id v).
Proof.
  apply (X11_get_selected_format_of_row fresh_state (snd sample_fetch)
           sample_url sample_info sample_formats sample_video_info
           sample_panel listed_panel 1
           ("720p", "mp4", "35.76 MB", "avc1/none")%string);
    [reflexivity|vm_compute; reflexivity|discriminate|reflexivity
    |vm_compute; reflexivity|reflexivity].
Defined.

(** X12: for a selected format that is the decimal text of an integer
    [h] followed by [p], [download_video] asks the library for the best
    video of at most the height [h], merged into mp4, as long as [h] has
    no more digits than [int] converts (4300 by default). For a longer
    number [int] raises [ValueError], and the handler hands the selected
    format to the library as it is. *)
Theorem X12_ydl_opts_quality (ffmpeg_path : option string)
    (download_dir : string) (filename_template : option string) (h : Z) :
  let sel := Some (Downloader.quality_id h) in
  let digits := String.length (PyText.str_of_Z (Z.abs h)) in
  Downloader.ydl_opts ffmpeg_path download_dir sel filename_template
  = Py.Return
      {| Downloader.o_outtmpl :=
           Downloader.outtmpl download_dir sel filename_template;
         Downloader.o_format :=
           if (digits <=? PyText.int_max_str_digits)%nat
           then ("bestvideo[height<=" ++ PyText.str_of_Z h
                 ++ "]+bestaudio/best[height<=" ++ PyText.str_of_Z h
                 ++ "]")%string
           else Downloader.quality_id h;
         Downloader.o_merge_output_format := Some "mp4"%string;
         Downloader.o_extract_audio := false;
         Downloader.o_ffmpeg_location := ffmpeg_path |}.
Proof.
  intros sel digits. unfold Downloader.ydl_opts. subst sel.
  assert (N : forall s, PyText.all_chars quality_char s = false ->
                        String.eqb (Downloader.quality_id h) s = false).
  { intros s Hs. apply String.eqb_neq. intros E. symmetry in E.
    now apply not_quality_id in E. }
  cbv beta iota zeta. rewrite !N by reflexivity. cbn [orb].
  assert (D : PyText.str_isdigit (Downloader.quality_id h) = false).
  { unfold PyText.str_isdigit, Downloader.quality_id.
    rewrite all_chars_app. cbn. rewrite andb_false_r. apply andb_false_r. }
  rewrite D. unfold Downloader.quality_id at 1.
  rewrite rstrip_char_snoc by apply str_of_Z_no_p.
  destruct (digits <=? PyText.int_max_str_digits)%nat eqn:E.
  - apply Nat.leb_le in E.
    rewrite int_of_string_str_of_Z by exact E. reflexivity.
  - apply Nat.leb_gt in E.
    rewrite int_of_string_over_limit by exact E. reflexivity.
Qed.

(** X13: a custom ASCII file name never leaves the download directory
    and never acts as a template: the output path is the directory
    joined with one component made of letters, digits, underscores,
    hyphens and periods, ending in [.mp3] or [.mp4]. *)
Theorem X13_outtmpl_custom_name (download_dir : string)
    (selected_format : option string) (name : string) :
  PyText.is_ascii name = true -> name <> ""%string ->
  exists component,
    Downloader.outtmpl download_dir selected_format (Some name)
    = PyStr.path_join download_dir component
    /\ PyText.all_chars Util.is_safe component = true
    /\ PyStr.is_absolute component = false
    /\ (String.length component <= 204)%nat
    /\ (PyStr.endswith component ".mp3" = true
        \/ PyStr.endswith component ".mp4" = true).
Proof.
  intros _ Hne. destruct name as [|c s]; [congruence|].
  unfold Downloader.outtmpl.
  set (ext := match selected_format with
              | Some "mp3"%string => "mp3"%string
              | _ => "mp4"%string
              end).
  assert (He : ext = "mp3"%string \/ ext = "mp4"%string).
  { subst ext. destruct selected_format as [s0|]; [|now right].
    destruct (String.eqb_spec s0 "mp3") as [->|Hn]; [now left|right].
    repeat (match goal with
            | |- context [match ?x with _ => _ end] =>
                destruct x; try reflexivity; try congruence
            end). }
  exists (Util.sanitize_filename (String c s) ++ "." ++ ext)%string.
  split; [reflexivity|].
  pose proof (sanitize_filename_chars (String c s)) as Hs.
  pose proof (sanitize_filename_length (String c s)) as Hl.
  assert (Hx : PyText.all_chars Util.is_safe ("." ++ ext)%string = true)
    by (destruct He as [-> | ->]; reflexivity).
  assert (Ha : PyText.all_chars Util.is_safe
                 (Util.sanitize_filename (String c s) ++ "." ++ ext)%string
               = true)
    by (rewrite all_chars_app, Hs, Hx; reflexivity).
  split; [exact Ha|]. split; [|split].
  - destruct (Util.sanitize_filename (String c s) ++ "." ++ ext)%string
      as [|c0 s0] eqn:E; [reflexivity|].
    cbn in Ha. apply andb_prop in Ha as [Hc _]. cbn.
    destruct (Ascii.eqb_spec c0 "/") as [->|]; [discriminate|reflexivity].
  - rewrite !length_append.
    destruct He as [-> | ->]; cbn [String.length]; lia.
  - destruct He as [-> | ->]; [left|right]; apply endswith_spec.
    + exists (Util.sanitize_filename (String c s) ++ "")%string.
      rewrite append_assoc. reflexivity.
    + exists (Util.sanitize_filename (String c s) ++ "")%string.
      rewrite append_assoc. reflexivity.
Qed.

Lemma X13_outtmpl_custom_name_witness :
  exists component,
    Downloader.outtmpl "/dl" (Some "mp3"%string)
      (Some "../my clip: %(id)s"%string)
    = PyStr.path_join "/dl" component
    /\ PyText.all_chars Util.is_safe component = true
    /\ PyStr.is_absolute component = false
    /\ (String.length component <= 204)%nat
    /\ (PyStr.endswith component ".mp3" = true
        \/ PyStr.endswith component ".mp4" = true).
Proof.
  apply (X13_outtmpl_custom_name "/dl" (Some "mp3"%string)
           "../my clip: %(id)s");
    [reflexivity|discriminate].
Defined.

(** ** The state and the files after a run
       ([YoutubeDownloader.download_video]) *)

Section AfterRun.

Import TP.
Local Open Scope string_scope.

(** While a download is running every cancel request is accepted. *)
Lemma ydl_download_cancel_results (steps : list lib_step) :
  forall (self : YoutubeDownloader) (result : option exn),
    downloading self = true ->
    Forall (fun c => c = true) (snd (ydl_download self steps result)).
Proof.
  induction steps as [|s steps IH]; intros self result Hd; cbn.
  - constructor.
  - destruct s as [d|].
    + destruct (progress_hook self d) as [evs [e|]]; cbn; [constructor|].
      specialize (IH self result Hd).
      destruct (ydl_download self steps result) as [[[evs' r] s'] cs].
      exact IH.
    + destruct (cancel_download_active self Hd) as (Hc & Hd1 & _).
      destruct (cancel_download self) as [c self1]. cbn in Hc, Hd1.
      specialize (IH self1 result Hd1).
      destruct (ydl_download self1 steps result) as [[[evs' r] s'] cs].
      cbn in *. constructor; assumption.
Qed.

Lemma early_cancel_spec (sc : run_script) (self : YoutubeDownloader) :
  downloading self = true ->
  Forall (fun c => c = true) (fst (early_cancel sc self))
  /\ downloading (snd (early_cancel sc self)) = true
  /\ progress_callback (snd (early_cancel sc self)) = progress_callback self
  /\ current_info (snd (early_cancel sc self)) = current_info self.
Proof.
  intros Hd. unfold early_cancel.
  destruct (cancel_before_download sc); [|cbn; auto].
  destruct (cancel_download_active self Hd) as (Hc & Hd1 & _ & Hp & _ & Hi).
  destruct (cancel_download self) as [c self1]. cbn in *.
  repeat split; try assumption. constructor; [exact Hc|constructor].
Qed.

Lemma download_video_end (self : YoutubeDownloader) (download_dir : string)
    (sc : run_script) (fs : filesystem) :
  run_end self download_dir sc fs (download_video self download_dir sc fs).
Proof.
  unfold download_video.
  set (self1 := set_flags (set_flags self true false (ydl_instance self))
                  true false true).
  destruct (early_cancel_spec sc self1 eq_refl) as (Hc0 & Hd2 & Hp2 & _).
  change (progress_callback self1) with (progress_callback self) in Hp2.
  destruct (early_cancel sc self1) as [cs0 self2]. cbn [fst snd] in *.
  destruct (match setup_raises sc with
            | Some e => inr e
            | None => match current_info self2 with
                      | Some title => inl title
                      | None => extract_info_result sc
                      end
            end) as [title|e].
  - destruct (cancel_requested self2).
    + eapply ended_before_download; [reflexivity|exact Hp2|exact Hc0].
    + pose proof (ydl_download_state (download_steps sc) self2
                    (download_result sc)) as [Hp3 _].
      pose proof (ydl_download_cancel_results (download_steps sc) self2
                    (download_result sc) Hd2) as Hc.
      destruct (ydl_download self2 (download_steps sc) (download_result sc))
        as [[[evs raised] self3] cs]. cbn [fst snd] in *.
      destruct raised as [e|].
      * eapply ended_in_download; [reflexivity|congruence|].
        apply Forall_app. auto.
      * eapply (ended_well _ _ _ _ _ self3 evs); cbn; try reflexivity.
        -- congruence.
        -- apply Forall_app. auto.
  - eapply ended_before_download; [reflexivity|exact Hp2|exact Hc0].
Qed.

End AfterRun.

(** X14: whatever happens during a run, the downloader is idle when
    [download_video] returns: the three flags are reset and the callback
    is the one it had. Every cancel request made during the run was
    accepted, and one made after it is rejected and changes nothing. *)
Theorem X14_download_video_ends_idle (self : TP.YoutubeDownloader)
    (download_dir : string) (sc : TP.run_script) (fs : TP.filesystem) :
  let out := TP.download_video self download_dir sc fs in
  TP.downloading (TP.final_self out) = false
  /\ TP.cancel_requested (TP.final_self out) = false
  /\ TP.ydl_instance (TP.final_self out) = false
  /\ TP.progress_callback (TP.final_self out) = TP.progress_callback self
  /\ Forall (fun c => c = true) (TP.cancel_results out)
  /\ TP.cancel_download (TP.final_self out) = (false, TP.final_self out).
Proof.
  intros out. subst out.
  assert (R : forall s, TP.cancel_download (TP.reset_flags s)
                        = (false, TP.reset_flags s)) by reflexivity.
  destruct (download_video_end self download_dir sc fs)
    as [s e t cs -> Hp Hc | s e evs t cs -> Hp Hc | s evs Hs _ -> Hf Hp Hc];
    cbn; auto 10.
Qed.

(** X15: with a callback installed, the files after a run go with its
    last record. After "error" they are exactly as they were before the
    call or as the library call left them: partial files are kept. After
    "cancelled" [_cleanup_temp_files] has been applied to those files,
    and after "complete" to what the library wrote: the temporary files
    of the download directory are gone, apart from those [os.remove]
    failed on. *)
Theorem X15_download_video_files_after_failure (self : TP.YoutubeDownloader)
    (download_dir : string) (sc : TP.run_script) (fs : TP.filesystem) :
  TP.progress_callback self = true ->
  let out := TP.download_video self download_dir sc fs in
  let cleaned :=
    TP._cleanup_temp_files (TP.remove_raises sc) download_dir in
  exists base last_status,
    (base = fs \/ base = TP.library_writes sc fs)
    /\ last (map TP.status (TP.events out)) = Some last_status
    /\ ((last_status = "error"%string /\ TP.final_fs out = base)
        \/ (last_status = "cancelled"%string
            /\ TP.final_fs out = cleaned base)
        \/ (last_status = "complete"%string
            /\ TP.final_fs out = cleaned (TP.library_writes sc fs))).
Proof.
  intros Hcb out cleaned. subst out cleaned.
  assert (F : forall s e base evs t cs,
             TP.progress_callback s = true ->
             let out := TP.failed_run (TP.remove_raises sc) s download_dir e
                          base evs t cs in
             exists last_status,
               last (map TP.status (TP.events out)) = Some last_status
               /\ ((last_status = "error"%string /\ TP.final_fs out = base)
                   \/ (last_status = "cancelled"%string
                       /\ TP.final_fs out
                          = TP._cleanup_temp_files (TP.remove_raises sc)
                              download_dir base))).
  { intros s e base evs t cs Hs.
    cbn [TP.failed_run TP.events TP.final_fs].
    unfold TP.handle_exception, TP.emit. rewrite Hs.
    destruct e; cbn [fst snd]; rewrite map_app; cbn [map];
      rewrite last_snoc; cbn [TP.status];
      eexists; (split; [reflexivity|]); auto. }
  destruct (download_video_end self download_dir sc fs)
    as [s e t cs -> Hp Hc | s e evs t cs -> Hp Hc | s evs Hs He Hfs Hf Hp Hc].
  - destruct (F s e fs [] t cs ltac:(congruence)) as (st & Hl & H).
    exists fs, st. split; [now left|]. split; [exact Hl|].
    destruct H as [H|H]; auto.
  - destruct (F s e (TP.library_writes sc fs) evs t cs ltac:(congruence))
      as (st & Hl & H).
    exists (TP.library_writes sc fs), st. split; [now right|].
    split; [exact Hl|]. destruct H as [H|H]; auto.
  - exists (TP.library_writes sc fs), "complete"%string.
    split; [now right|]. split.
    + rewrite He. unfold TP.emit. rewrite Hp, Hcb.
      rewrite map_app. cbn [map]. now rewrite last_snoc.
    + right. right. split; [reflexivity|exact Hf].
Qed.

Lemma X15_download_video_files_after_failure_witness :
  let out := TP.download_video idle_downloader "/dl" failing_run sample_fs in
  last (map TP.status (TP.events out)) = Some "error"%string
  /\ TP.final_fs out = sample_fs
  /\ (TP.final_fs out !! "/dl"%string
        ≫= fun files => files !! "clip.f137.mp4"%string)
     = Some (TP.RegularFile "video stream").
Proof.
  destruct (X15_download_video_files_after_failure idle_downloader "/dl"
              failing_run sample_fs eq_refl)
    as (base & st & Hb & Hl & H).
  assert (Hst : st = "error"%string).
  { assert (E : last (map TP.status
                        (TP.events (TP.download_video idle_downloader "/dl"
                                      failing_run sample_fs)))
                = Some "error"%string) by (vm_compute; reflexivity).
    rewrite E in Hl. now injection Hl as <-. }
  subst st.
  assert (Hbase : base = sample_fs) by (destruct Hb as [-> | ->]; reflexivity).
  subst base.
  destruct H as [[_ H]|[[E _]|[E _]]]; [|discriminate..].
  cbv zeta. split; [vm_compute; reflexivity|].
  split; [exact H|]. rewrite H. vm_compute. reflexivity.
Defined.

(** ** One download of [YTDownloader2025v7.1.py] *)

Section V71Download.

Import Py PyStr PyText PyNum Util Downloader V71Run.
Local Open Scope string_scope.

Lemma filter_chars_app (f : ascii -> bool) (s t : string) :
  filter_chars f (s ++ t) = filter_chars f s ++ filter_chars f t.
Proof.
  induction s as [|c s IH]; [reflexivity|].
  rewrite append_cons. cbn [filter_chars].
  destruct (f c); [rewrite append_cons|]; now rewrite IH.
Qed.

Lemma append_nonempty (s t : string) : t <> "" -> s ++ t <> "".
Proof.
  intros Ht H. apply (f_equal String.length) in H.
  rewrite length_append in H. destruct t; [congruence|cbn in H; lia].
Qed.

Lemma rstrip_append (s t : string) :
  rstrip t <> "" -> rstrip (s ++ t) = s ++ rstrip t.
Proof.
  intros Ht. induction s as [|c s IH]; [reflexivity|].
  rewrite !append_cons. cbn [rstrip]. rewrite IH.
  pose proof (append_nonempty s (rstrip t) Ht) as Hn.
  destruct (s ++ rstrip t); [congruence|reflexivity].
Qed.

Lemma substring_append_head (a b : string) :
  substring 0 (String.length a) (a ++ b) = a.
Proof.
  induction a as [|c a IH].
  - cbn. now destruct b.
  - rewrite append_cons. cbn. now rewrite IH.
Qed.

Lemma drop_last_append (a b : string) :
  drop_last (String.length b) (a ++ b) = a.
Proof.
  unfold drop_last. rewrite length_append.
  replace (String.length a + String.length b - String.length b)%nat
    with (String.length a) by lia.
  apply substring_append_head.
Qed.

(** The loop of this variant's [get_selected_format] finds the entry of
    a height. *)
Lemma find_format_video_71 (videos : list format_entry) :
  Forall video_entry videos ->
  NoDup (map height_key videos) ->
  forall (i : nat) (v : format_entry),
    videos !! i = Some v ->
    find_format (quality_id (height_key v)) videos = Some v.
Proof.
  induction videos as [|e videos IH]; intros Hf Hn i v Hi;
    [now rewrite lookup_nil in Hi|].
  apply Forall_cons in Hf as [He Hf]. cbn in Hn.
  apply NoDup_cons in Hn as [Hx Hn].
  destruct (video_entry_key e He) as (Ha & Hq & _ & Hr).
  cbn [find_format]. rewrite Hq.
  replace (String.eqb (e_resolution e) (quality_id (height_key v)))
    with false by (symmetry; apply String.eqb_neq, Hr).
  rewrite orb_false_r.
  destruct i as [|i]; cbn in Hi.
  - injection Hi as ->. now rewrite bool_decide_eq_true_2.
  - rewrite bool_decide_eq_false_2; [now apply (IH Hf Hn i)|].
    intros E. injection E as E. apply quality_id_inj in E.
    apply Hx. rewrite E. apply list_elem_of_fmap. exists v.
    split; [reflexivity|]. eapply list_elem_of_lookup_2. exact Hi.
Qed.

(** A record without a known total makes the hook raise when a callback
    is installed. *)
Lemma update_progress_unknown_total (d : hook_record) :
  h_status d = "downloading" ->
  truthy_opt (num_or (h_total_bytes d) (h_total_bytes_estimate d)) = false ->
  update_progress true d = Raise (UnboundLocalError "percent").
Proof.
  intros Hs Ht. unfold update_progress. rewrite Hs. cbn [String.eqb].
  change ("downloading" =? "downloading")%string with true. cbv iota.
  destruct (num_or (h_total_bytes d) (h_total_bytes_estimate d)) as [t|];
    [|reflexivity].
  cbn [truthy_opt] in Ht. now rewrite Ht.
Qed.

Lemma ydl_download_raises (pc : bool) (steps : list hook_record) :
  forall (r : option exception) (d : hook_record) (e0 : exception),
    In d steps ->
    update_progress pc d = Raise e0 ->
    exists e, snd (ydl_download pc steps r) = Some e.
Proof.
  induction steps as [|s steps IH]; intros r d e0 Hin Hr; [destruct Hin|].
  cbn [ydl_download].
  destruct (update_progress pc s) as [ps|e] eqn:E; [|eauto].
  destruct Hin as [->|Hin]; [congruence|].
  destruct (IH r d e0 Hin Hr) as [e He].
  destruct (ydl_download pc steps r) as [ps' r']. cbn in *. eauto.
Qed.

End V71Download.

(** X16: (v7.1) the name of the finished file is the title without the
    characters other than letters, digits, blanks, hyphens, underscores
    and periods, followed by " Audio.mp3" or " Video.mp4": the
    parentheses of the format indicator do not survive the sanitizing.
    The base name used for numbering is that name without its
    extension. *)
Theorem X16_final_filename_of_title (video_title selected_format : string) :
  PyText.is_ascii video_title = true ->
  let ext := V71Run.final_ext selected_format in
  let kind := if String.eqb ext "mp3" then " Audio"%string
              else " Video"%string in
  let name := V71Run.final_filename video_title ext in
  name = (PyText.filter_chars V71Run.is_kept video_title ++ kind ++ "."
          ++ ext)%string
  /\ V71Run.base_filename name ext
     = (PyText.filter_chars V71Run.is_kept video_title ++ kind)%string
  /\ PyText.all_chars V71Run.is_kept name = true.
Proof.
  intros _ ext kind name.
  assert (E : name = (PyText.filter_chars V71Run.is_kept video_title
                      ++ kind ++ "." ++ ext)%string).
  { subst name kind ext. unfold V71Run.final_filename, V71Run.final_ext.
    destruct (String.eqb selected_format "mp3");
      cbn [String.eqb Ascii.eqb Bool.eqb];
      rewrite filter_chars_app;
      (rewrite rstrip_append; [reflexivity|discriminate]). }
  split; [exact E|]. split.
  - rewrite E. unfold V71Run.base_filename.
    rewrite <- append_assoc.
    replace (String.length ext + 1)%nat
      with (String.length ("." ++ ext)%string)
      by (subst ext; unfold V71Run.final_ext;
          destruct (String.eqb selected_format "mp3"); reflexivity).
    apply drop_last_append.
  - rewrite E, !all_chars_app, all_chars_filter.
    subst kind ext. unfold V71Run.final_ext.
    destruct (String.eqb selected_format "mp3"); reflexivity.
Qed.

Lemma X16_final_filename_of_title_witness :
  V71Run.final_filename "Song: live (2024)" "mp3"
  = "Song live 2024 Audio.mp3"%string
  /\ V71Run.base_filename "Song live 2024 Audio.mp3" "mp3"
     = "Song live 2024 Audio"%string.
Proof.
  destruct (X16_final_filename_of_title "Song: live (2024)" "mp3" eq_refl)
    as (H1 & H2 & _).
  split; [exact H1|]. rewrite H1 in H2. exact H2.
Defined.

(** X17: (v7.1) for a row that shows a listed video entry, the format
    expression handed to the library carries the audio suffix twice:
    [get_selected_format] appends "+bestaudio/best" to the id of the
    entry and [download_video] appends it once more. *)
Theorem X17_format_option_of_row (st st' : Downloader.fetch_state)
    (url : string) (info : Downloader.ydl_info)
    (formats : list Downloader.format_entry) (vi : Downloader.video_info)
    (panel : V71Run.format_panel) (ffmpeg_path : option string)
    (i j : nat) (c2 c3 : string) (v : Downloader.format_entry) :
  Downloader.info_cache st !! url = None ->
  Downloader.get_available_formats st url (Py.Return (Some info))
  = ((formats, Some vi), st') ->
  V71Run.format_var panel <> "mp3"%string ->
  V71Run.available_formats panel = formats ->
  V71Run.selection panel = [i] ->
  tail formats !! j = Some v ->
  V71Run.format_list panel !! i
  = Some (Downloader.quality_id (Downloader.height_key v), c2, c3) ->
  V71Run.get_selected_format panel
  = Py.Return (PyText.str_of_option (Downloader.e_id v)
               ++ "+bestaudio/best")%string
  /\ V71Run.format_option ffmpeg_path
       (PyText.str_of_option (Downloader.e_id v) ++ "+bestaudio/best")%string
     = Py.Return (PyText.str_of_option (Downloader.e_id v)
                  ++ "+bestaudio/best+bestaudio/best")%string.
Proof.
  intros Hm Hg Hvar Hav Hsel Hv Hrow.
  destruct (get_available_formats_miss _ _ _ _ _ _ Hm Hg) as [Hf _].
  destruct (formats_of_spec _ _ _ Hf)
    as (audio_size & fmts & acc & _ & (_ & I2 & I3 & _) & Hr & _).
  cbn [fst] in Hr.
  set (videos := Downloader.sort_desc (fst acc)) in *.
  assert (Hvs : Forall video_entry videos).
  { eapply Permutation_Forall; [|exact I3]. symmetry. apply sort_desc_perm. }
  assert (Hn : NoDup (map Downloader.height_key videos)).
  { assert (P : Permutation (map Downloader.height_key videos)
                  (map Downloader.height_key (fst acc)))
      by apply Permutation_map, sort_desc_perm.
    rewrite P. exact I2. }
  rewrite Hr in Hv. cbn [tail] in Hv.
  split.
  - unfold V71Run.get_selected_format.
    apply String.eqb_neq in Hvar. rewrite Hvar, Hsel, Hrow, Hav, Hr.
    cbn [V71Run.find_format].
    replace (bool_decide
               (Py.get (Downloader.e_quality_name
                          (Downloader.audio_format audio_size))
                = Some (Downloader.quality_id (Downloader.height_key v))))
      with false by (symmetry; apply bool_decide_eq_false_2; discriminate).
    replace (String.eqb
               (Downloader.e_resolution (Downloader.audio_format audio_size))
               (Downloader.quality_id (Downloader.height_key v)))
      with false.
    + cbn [orb]. now rewrite (find_format_video_71 videos Hvs Hn j v Hv).
    + symmetry. apply String.eqb_neq. apply not_quality_id. reflexivity.
  - unfold V71Run.format_option.
    replace (String.eqb _ "mp3") with false.
    + now rewrite append_assoc.
    + symmetry. apply String.eqb_neq. intros E.
      apply (f_equal String.length) in E. rewrite length_append in E.
      cbn in E. lia.
Qed.

Lemma X17_format_option_of_row_witness :
  V71Run.get_selected_format sample_panel_71
  = Py.Return (PyText.str_of_option (Downloader.e_id entry_720)
               ++ "+bestaudio/best")%string
  /\ V71Run.format_option None
       (PyText.str_of_option (Downloader.e_id entry_720)
        ++ "+bestaudio/best")%string
     = Py.Return (PyText.str_of_option (Downloader.e_id entry_720)
                  ++ "+bestaudio/best+bestaudio/best")%string.
Proof.
  apply (X17_format_option_of_row fresh_state (snd sample_fetch) sample_url
           sample_info sample_formats sample_video_info sample_panel_71
           None 1 1 "mp4" "35.76 MB" entry_720);
    [reflexivity|vm_compute; reflexivity|discriminate|reflexivity
    |reflexivity|vm_compute; reflexivity|reflexivity].
Defined.

(** X18: (v7.1) with a progress callback installed, a download in which
    the library reports a "downloading" record without a total size
    always fails: the registered hook raises on that record at the
    latest, [download_video] returns [False], the completion callback is
    not called, and the files are as they were. *)
Theorem X18_download_video_unknown_total_fails (ffmpeg_path : option string)
    (download_dir selected_format : string)
    (complete_callback error_callback : bool) (sc : V71Run.run_script)
    (fs : gmap string TP.entry) (fuel : nat) (d : V71Run.hook_record) :
  In d (V71Run.download_steps sc) ->
  V71Run.h_status d = "downloading"%string ->
  PyNum.truthy_opt
    (Util.num_or (V71Run.h_total_bytes d) (V71Run.h_total_bytes_estimate d))
  = false ->
  exists out e,
    V71Run.download_video ffmpeg_path true download_dir selected_format
      complete_callback error_callback sc fs fuel = Some out
    /\ V71Run.returned out = (V71Run.Message e, false)
    /\ V71Run.completed out = []
    /\ V71Run.failed out = (if error_callback then [e] else [])
    /\ V71Run.files out = fs.
Proof.
  intros Hin Hs Ht. unfold V71Run.download_video.
  destruct (V71Run.format_option ffmpeg_path selected_format) as [f|e];
    [|eexists _, e; split; [reflexivity|cbn; auto]].
  destruct (V71Run.setup_raises sc) as [e|];
    [eexists _, e; split; [reflexivity|cbn; auto]|].
  destruct (V71Run.extract_info_result sc) as [t|e];
    [|eexists _, e; split; [reflexivity|cbn; auto]].
  destruct (ydl_download_raises true _ (V71Run.download_result sc) d _ Hin
              (update_progress_unknown_total d Hs Ht)) as [e He].
  destruct (V71Run.ydl_download true _ _) as [ps r]. cbn in He. subst r.
  eexists _, e. split; [reflexivity|cbn; auto].
Qed.

Lemma X18_download_video_unknown_total_fails_witness :
  exists out,
    V71Run.download_video None true "/dl" "137+bestaudio/best" true true
      {| V71Run.setup_raises := None;
         V71Run.extract_info_result := Py.Return "clip"%string;
         V71Run.download_steps :=
           [{| V71Run.h_status := "downloading";
               V71Run.h_total_bytes := None;
               V71Run.h_total_bytes_estimate := None;
               V71Run.h_downloaded_bytes := Py.Val (PyNum.Int 1000) |}];
         V71Run.download_result := None;
         V71Run.temp_dir := "/tmp/job";
         V71Run.downloaded_files := [] |} ∅ 2 = Some out
    /\ V71Run.returned out
       = (V71Run.Message (Py.UnboundLocalError "percent"), false)
    /\ V71Run.failed out = [Py.UnboundLocalError "percent"].
Proof.
  destruct (X18_download_video_unknown_total_fails None "/dl"
              "137+bestaudio/best" true true
              {| V71Run.setup_raises := None;
                 V71Run.extract_info_result := Py.Return "clip"%string;
                 V71Run.download_steps :=
                   [{| V71Run.h_status := "downloading";
                       V71Run.h_total_bytes := None;
                       V71Run.h_total_bytes_estimate := None;
                       V71Run.h_downloaded_bytes :=
                         Py.Val (PyNum.Int 1000) |}];
                 V71Run.download_result := None;
                 V71Run.temp_dir := "/tmp/job";
                 V71Run.downloaded_files := [] |} ∅ 2 _
              (or_introl eq_refl) eq_refl eq_refl)
    as (out & e & Ho & Hr & _ & Hf & _).
  exists out. split; [exact Ho|].
  cbn in Ho. injection Ho as <-. split; reflexivity.
Defined.

(** X19: (v7.1) a successful download adds exactly one entry to the
    files: the first file listed in the temporary directory, under a path
    that was free. Every path that existed keeps its entry, and nothing
    of the temporary directory is left, so the other files the library
    produced are lost. *)
Theorem X19_download_video_moves_first_file (ffmpeg_path : option string)
    (progress_callback : bool) (download_dir selected_format : string)
    (complete_callback error_callback : bool) (sc : V71Run.run_script)
    (fs : gmap string TP.entry) (fuel : nat) (format video_title : string)
    (main_file : string) (e : TP.entry) (others : list (string * TP.entry)) :
  V71Run.format_option ffmpeg_path selected_format = Py.Return format ->
  V71Run.setup_raises sc = None ->
  V71Run.extract_info_result sc = Py.Return video_title ->
  snd (V71Run.ydl_download progress_callback (V71Run.download_steps sc)
         (V71Run.download_result sc)) = None ->
  V71Run.downloaded_files sc = (main_file, e) :: others ->
  Forall (fun p => fs !! p = None) (map fst (V71Run.temp_paths sc)) ->
  (size (V71Run.with_temp_files sc fs) + 2 <= fuel)%nat ->
  exists out final_path,
    V71Run.download_video ffmpeg_path progress_callback download_dir
      selected_format complete_callback error_callback sc fs fuel = Some out
    /\ V71Run.returned out = (V71Run.Title video_title, true)
    /\ V71Run.completed out = (if complete_callback then [video_title] else [])
    /\ V71Run.failed out = []
    /\ fs !! final_path = None
    /\ V71Run.files out !! final_path = Some e
    /\ forall p, p <> final_path -> V71Run.files out !! p = fs !! p.
Proof.
  intros Hfo Hsu Hex Hdl Hfiles Hfresh Hfuel.
  rewrite Forall_forall in Hfresh.
  unfold V71Run.download_video. rewrite Hfo, Hsu, Hex.
  destruct (V71Run.ydl_download progress_callback _ _) as [ps r].
  cbn [snd] in Hdl. subst r. rewrite Hfiles. cbv zeta.
  set (fs1 := V71Run.with_temp_files sc fs) in *.
  set (ext := V71Run.final_ext selected_format).
  set (name := V71Run.final_filename video_title ext).
  set (source := PyStr.path_join (V71Run.temp_dir sc) main_file).
  assert (Hsrc_in : source ∈ map fst (V71Run.temp_paths sc)).
  { unfold V71Run.temp_paths. rewrite Hfiles. cbn. apply list_elem_of_here. }
  assert (Hsrc : fs1 !! source = Some e).
  { subst fs1. unfold V71Run.with_temp_files, V71Run.temp_paths.
    rewrite Hfiles. cbn [map fst snd list_to_map].
    apply lookup_union_Some_l. apply lookup_insert_eq. }
  unfold V71.choose_final_path.
  destruct (free_path_terminates fs1 download_dir
              (PyStr.drop_last (String.length ext + 1) name) ext
              (PyStr.path_join download_dir name) 1) as [final_path Hloop].
  pose proof (free_path_some fs1 download_dir _ ext _ _ _ _ Hloop)
    as [Hfree _].
  rewrite (free_path_more_fuel fs1 download_dir _ ext _ fuel _ _ _
             Hfuel Hloop).
  unfold V71.shutil_move. rewrite Hsrc.
  assert (Hfinal : final_path ∉ map fst (V71Run.temp_paths sc)).
  { intros Hin. apply (with_temp_files_temp sc fs) in Hin as [x Hx].
    fold fs1 in Hx. congruence. }
  eexists _, final_path. split; [reflexivity|].
  cbn [V71Run.returned V71Run.completed V71Run.failed V71Run.files].
  repeat split.
  - rewrite <- (with_temp_files_lookup sc fs final_path Hfinal). exact Hfree.
  - rewrite without_temp_files_lookup.
    rewrite bool_decide_eq_false_2 by exact Hfinal.
    apply lookup_insert_eq.
  - intros p Hp. rewrite without_temp_files_lookup.
    destruct (decide (p ∈ map fst (V71Run.temp_paths sc))) as [Hin|Hnin].
    + rewrite bool_decide_eq_true_2 by exact Hin.
      symmetry. now apply Hfresh.
    + rewrite bool_decide_eq_false_2 by exact Hnin.
      rewrite lookup_insert_ne by congruence.
      rewrite lookup_delete_ne by (intros ->; contradiction).
      now apply with_temp_files_lookup.
Qed.

Lemma X19_download_video_moves_first_file_witness :
  exists out final_path,
    V71Run.download_video None false "/dl" "137" true true two_files_run
      taken_fs 5 = Some out
    /\ V71Run.returned out = (V71Run.Title "clip", true)
    /\ V71Run.completed out = ["clip"%string]
    /\ V71Run.failed out = []
    /\ taken_fs !! final_path = None
    /\ V71Run.files out !! final_path
       = Some (TP.RegularFile "video stream")
    /\ forall p, p <> final_path -> V71Run.files out !! p = taken_fs !! p.
Proof.
  apply (X19_download_video_moves_first_file None false "/dl" "137" true true
           two_files_run taken_fs 5 "137+bestaudio/best" "clip"
           "clip.f137.mp4" (TP.RegularFile "video stream")
           [("clip.mp4"%string, TP.RegularFile "video")]);
    [reflexivity|reflexivity|reflexivity|reflexivity|reflexivity
    |repeat constructor|vm_compute; lia].
Defined.

(** ** The window of [YTDownloader2025.py] *)

(** X20: (YTDownloader2025.py) a saved dark mode is never restored. The
    constructor toggles when the configuration says dark, which switches
    to the light colours and saves "not dark": after start-up the flag
    is off and the background is not the dark one, and a dark mode
    chosen in one session is gone, also from the file, after the next
    start. *)
Theorem X20_init_never_dark (downloads : string)
    (file : option V2025App.config) :
  let a := V2025App.init downloads file in
  V2025App.dark_mode a = false
  /\ V2025App.background a <> Some "#2E2E2E"%string
  /\ let session := V2025App.toggle_dark_mode a in
     let a' := V2025App.init downloads (V2025App.config_file session) in
     V2025App.dark_mode session = true
     /\ V2025App.background session = Some "#2E2E2E"%string
     /\ V2025App.dark_mode a' = false
     /\ V2025App.background a' = Some "white"%string
     /\ V2025App.config_file a'
        = V2025App.save_config (V2025App.download_directory a) false.
Proof.
  unfold V2025App.init, V2025App.load_config.
  destruct file as [[d [[|]|]]|]; cbn;
    repeat split; try discriminate; destruct d; reflexivity.
Qed.

(** X21: (YTDownloader2025.py) once the title has been fetched and no
    file of that name exists, [download_video] ends with the dialog
    "Download Complete" whatever the library does afterwards: a download
    that raises is reported like one that succeeds. *)
Theorem X21_download_complete_whatever (path_exists : string -> bool)
    (sc : V2025App.run_script) (a : V2025App.app) (video_title : string) :
  TP.is_valid_youtube_url (V2025App.input_entry a) = true ->
  V2025App.title_result sc = Py.Return video_title ->
  path_exists (PyStr.path_join (V2025App.download_directory a)
                 (video_title ++ "." ++ V2025App.format_var a)%string)
  = false ->
  exists a' values,
    V2025App.download_video path_exists sc a = Py.Return (a', values)
    /\ V2025App.dialogs a'
       = (V2025App.dialogs a
          ++ [("Download Complete",
               "The video has been downloaded successfully.")%string])%list
    /\ forall steps download_result,
         exists values',
           V2025App.download_video path_exists
             {| V2025App.title_result := V2025App.title_result sc;
                V2025App.download_steps := steps;
                V2025App.download_result := download_result |} a
           = Py.Return (a', values').
Proof.
  intros Hu Ht He. unfold V2025App.download_video.
  rewrite Hu, Ht. cbn [negb Py.bind]. rewrite He.
  eexists _, _. split; [reflexivity|]. split; [reflexivity|].
  intros steps r. cbn [V2025App.title_result Py.bind].
  rewrite He. eexists. reflexivity.
Qed.

Lemma X21_download_complete_whatever_witness :
  exists a' values,
    V2025App.download_video (fun _ => false) failing_download sample_window
    = Py.Return (a', values)
    /\ V2025App.dialogs a'
       = (V2025App.dialogs sample_window
          ++ [("Download Complete",
               "The video has been downloaded successfully.")%string])%list
    /\ forall steps download_result,
         exists values',
           V2025App.download_video (fun _ => false)
             {| V2025App.title_result :=
                  V2025App.title_result failing_download;
                V2025App.download_steps := steps;
                V2025App.download_result := download_result |}
             sample_window
           = Py.Return (a', values').
Proof.
  apply (X21_download_complete_whatever (fun _ => false) failing_download
           sample_window "clip");
    reflexivity.
Defined.
